(** * Verification of the OCI network provider (ampere/pkb/providers/oci/oci_network.py)

    The development embeds the Python module shallowly:
    - Python values coming out of [json.loads] are the type [json];
    - the module's string formatting is done on [string], and the text it
      hands to [json.loads] is really parsed, by the parser [json_loads];
    - methods are state-passing functions over the object they mutate
      ([OciVcn], [OciNetwork]) and a [World] holding what the module can
      observe of its environment: the control plane's answers, the clock,
      the commands issued so far and the log;
    - an exception is the [Raise] result; mutations made before the
      exception stay, as in Python. *)

From Stdlib Require Import ZArith List String Ascii Bool Lia.
From Stdlib Require Import Decimal DecimalString.
From Stdlib Require DecimalZ DecimalFacts.
Import ListNotations.
Open Scope Z_scope.
Open Scope list_scope.
Open Scope string_scope.

(* ================================================================= *)
(** ** Characters and text *)

(** The double quote and the backslash, which delimit and escape JSON
    strings. *)
Definition dq_char : ascii := "034"%char.
Definition bs_char : ascii := "\"%char.
Definition dq : string := String dq_char EmptyString.

(** ['"%s"' % s] *)
Definition quoted (s : string) : string := dq ++ s ++ dq.

Definition is_digit (c : ascii) : bool :=
  ((48 <=? nat_of_ascii c) && (nat_of_ascii c <=? 57))%nat.

(** JSON whitespace: space, tab, line feed, carriage return. *)
Definition is_ws (c : ascii) : bool :=
  Ascii.eqb c " " || Ascii.eqb c "009" || Ascii.eqb c "010" || Ascii.eqb c "013".

(** A character that a JSON string carries as it is: not the quote, not the
    backslash, not a control character. *)
Definition plain_char (c : ascii) : bool :=
  negb (Ascii.eqb c dq_char) && negb (Ascii.eqb c bs_char)
  && (32 <=? nat_of_ascii c)%nat.

Fixpoint json_plain (s : string) : bool :=
  match s with
  | EmptyString => true
  | String c s' => plain_char c && json_plain s'
  end.

(* ================================================================= *)
(** ** Python values and exceptions *)

(** A value as [json.loads] builds it: [None], [bool], [int], [str],
    [list], [dict].  A dict keeps its keys in insertion order. *)
#[local] Set Warnings "-register-all".
Inductive json : Type :=
| JNull
| JBool (b : bool)
| JNum (n : Z)
| JStr (s : string)
| JArr (l : list json)
| JObj (m : list (string * json)).

#[local] Set Warnings "register-all".

Inductive exn : Type :=
| AssertionError
| JSONDecodeError
| KeyError (k : string)
| IndexError
| TypeError
| AttributeError (name : string)
| IssueCommandError.

Inductive Result (A : Type) : Type :=
| Ok (a : A)
| Raise (e : exn).
Arguments Ok {A} a.
Arguments Raise {A} e.

(** [str(n)] for an [int]. *)
Definition str_int (n : Z) : string := NilZero.string_of_int (Z.to_int n).

(** [str(x)] for an [int] argument that may be [None]. *)
Definition str_opt_int (x : option Z) : string :=
  match x with
  | None => "None"
  | Some n => str_int n
  end.

(** Truth value of an optional [int]: [None] and [0] are false. *)
Definition truthy_int (x : option Z) : bool :=
  match x with
  | None => false
  | Some n => negb (Z.eqb n 0)
  end.

(** Truth value of an optional [str]: [None] and the empty string are
    false. *)
Definition truthy_str (x : option string) : bool :=
  match x with
  | None => false
  | Some EmptyString => false
  | Some _ => true
  end.

(** [d[k] = v] on a dict: an existing key keeps its place. *)
Fixpoint dict_set (m : list (string * json)) (k : string) (v : json)
  : list (string * json) :=
  match m with
  | [] => [(k, v)]
  | (k', v') :: m' =>
      if String.eqb k' k then (k', v) :: m' else (k', v') :: dict_set m' k v
  end.

Fixpoint dict_get (m : list (string * json)) (k : string) : option json :=
  match m with
  | [] => None
  | (k', v) :: m' => if String.eqb k' k then Some v else dict_get m' k
  end.

Definition dict_of_members (ms : list (string * json)) : list (string * json) :=
  fold_left (fun m kv => dict_set m (fst kv) (snd kv)) ms [].

(** [x[k]] with a string key. *)
Definition getitem (x : json) (k : string) : Result json :=
  match x with
  | JObj m => match dict_get m k with
              | Some v => Ok v
              | None => Raise (KeyError k)
              end
  | _ => Raise TypeError
  end.

(** [x[0]]. *)
Definition getitem0 (x : json) : Result json :=
  match x with
  | JArr (v :: _) => Ok v
  | JArr [] => Raise IndexError
  | JStr (String c _) => Ok (JStr (String c EmptyString))
  | JStr EmptyString => Raise IndexError
  | JObj _ => Raise (KeyError "0")
  | _ => Raise TypeError
  end.

(* ================================================================= *)
(** ** json.loads

    The parser covers the JSON that the module builds and reads: objects,
    arrays, strings with the two-character escapes, integers, [true],
    [false], [null].  Fractions, exponents, [\u] escapes and the
    non-standard [NaN] and [Infinity] are outside the fragment and are
    rejected.  [fuel] bounds the number of values, members and elements
    opened, each of which takes at least one character of its own, so the
    length of the text is given as fuel. *)

Fixpoint skip_ws (s : string) : string :=
  match s with
  | String c s' => if is_ws c then skip_ws s' else s
  | EmptyString => s
  end.

Definition unescape (c : ascii) : option ascii :=
  if Ascii.eqb c dq_char then Some dq_char
  else if Ascii.eqb c bs_char then Some bs_char
  else if Ascii.eqb c "/" then Some "/"%char
  else if Ascii.eqb c "b" then Some "008"%char
  else if Ascii.eqb c "f" then Some "012"%char
  else if Ascii.eqb c "n" then Some "010"%char
  else if Ascii.eqb c "r" then Some "013"%char
  else if Ascii.eqb c "t" then Some "009"%char
  else None.

(** The text after an opening quote, up to the closing one. *)
Fixpoint parse_string_body (s : string) : option (string * string) :=
  match s with
  | EmptyString => None
  | String c s' =>
      if Ascii.eqb c dq_char then Some (EmptyString, s')
      else if Ascii.eqb c bs_char then
        match s' with
        | String e s'' =>
            match unescape e, parse_string_body s'' with
            | Some c', Some (t, r) => Some (String c' t, r)
            | _, _ => None
            end
        | EmptyString => None
        end
      else if (nat_of_ascii c <? 32)%nat then None
      else match parse_string_body s' with
           | Some (t, r) => Some (String c t, r)
           | None => None
           end
  end.

Fixpoint span_digits (s : string) : string * string :=
  match s with
  | String c s' =>
      if is_digit c then let (d, r) := span_digits s' in (String c d, r)
      else (EmptyString, s)
  | EmptyString => (EmptyString, s)
  end.

(** No leading zero: the digits are ["0"] or start with a non-zero digit. *)
Definition no_leading_zero (d : string) : bool :=
  match d with
  | String c (String _ _) => negb (Ascii.eqb c "0")
  | _ => true
  end.

Definition starts_fraction (r : string) : bool :=
  match r with
  | String c _ => Ascii.eqb c "." || Ascii.eqb c "e" || Ascii.eqb c "E"
  | EmptyString => false
  end.

(** An integer literal: an optional minus sign, then either 0 or a non-zero
    digit followed by digits; not followed by a fraction or an exponent. *)
Definition parse_number (s : string) : option (Z * string) :=
  let (neg, s1) := match s with
                   | String c s' => if Ascii.eqb c "-" then (true, s') else (false, s)
                   | EmptyString => (false, s)
                   end in
  let (d, r) := span_digits s1 in
  if no_leading_zero d && negb (starts_fraction r) then
    match NilZero.uint_of_string d with
    | Some u => Some (if neg then Z.of_int (Neg u) else Z.of_int (Pos u), r)
    | None => None
    end
  else None.

Fixpoint drop_prefix (p s : string) : option string :=
  match p with
  | EmptyString => Some s
  | String c p' =>
      match s with
      | String c' s' => if Ascii.eqb c c' then drop_prefix p' s' else None
      | EmptyString => None
      end
  end.

Definition is_number_start (c : ascii) : bool := is_digit c || Ascii.eqb c "-".

Fixpoint parse_value (fuel : nat) (s : string) : option (json * string) :=
  match fuel with
  | O => None
  | S fuel' =>
      match skip_ws s with
      | EmptyString => None
      | String c r =>
          if is_number_start c then
            match parse_number (String c r) with
            | Some (n, r') => Some (JNum n, r')
            | None => None
            end
          else if Ascii.eqb c dq_char then
            match parse_string_body r with
            | Some (t, r') => Some (JStr t, r')
            | None => None
            end
          else if Ascii.eqb c "{" then
            match skip_ws r with
            | String "}" r' => Some (JObj [], r')
            | _ => match parse_members fuel' r with
                   | Some (ms, r') => Some (JObj (dict_of_members ms), r')
                   | None => None
                   end
            end
          else if Ascii.eqb c "[" then
            match skip_ws r with
            | String "]" r' => Some (JArr [], r')
            | _ => match parse_elements fuel' r with
                   | Some (vs, r') => Some (JArr vs, r')
                   | None => None
                   end
            end
          else if Ascii.eqb c "n" then
            option_map (fun r' => (JNull, r')) (drop_prefix "ull" r)
          else if Ascii.eqb c "t" then
            option_map (fun r' => (JBool true, r')) (drop_prefix "rue" r)
          else if Ascii.eqb c "f" then
            option_map (fun r' => (JBool false, r')) (drop_prefix "alse" r)
          else None
      end
  end

with parse_members (fuel : nat) (s : string)
  : option (list (string * json) * string) :=
  match fuel with
  | O => None
  | S fuel' =>
      match skip_ws s with
      | String c r =>
          if Ascii.eqb c dq_char then
            match parse_string_body r with
            | Some (k, r1) =>
                match skip_ws r1 with
                | String ":" r2 =>
                    match parse_value fuel' r2 with
                    | Some (v, r3) =>
                        match skip_ws r3 with
                        | String "," r4 =>
                            match parse_members fuel' r4 with
                            | Some (ms, r5) => Some ((k, v) :: ms, r5)
                            | None => None
                            end
                        | String "}" r4 => Some ([(k, v)], r4)
                        | _ => None
                        end
                    | None => None
                    end
                | _ => None
                end
            | None => None
            end
          else None
      | EmptyString => None
      end
  end

with parse_elements (fuel : nat) (s : string) : option (list json * string) :=
  match fuel with
  | O => None
  | S fuel' =>
      match parse_value fuel' s with
      | Some (v, r1) =>
          match skip_ws r1 with
          | String "," r2 =>
              match parse_elements fuel' r2 with
              | Some (vs, r3) => Some (v :: vs, r3)
              | None => None
              end
          | String "]" r2 => Some ([v], r2)
          | _ => None
          end
      | None => None
      end
  end.

(** [json.loads(s)]: one value, then nothing but whitespace.  [None] stands
    for [JSONDecodeError]. *)
Definition json_loads (s : string) : option json :=
  match parse_value (String.length s) s with
  | Some (v, r) => match skip_ws r with
                   | EmptyString => Some v
                   | _ => None
                   end
  | None => None
  end.

(* ================================================================= *)
(** ** json.dumps

    With the default separators [", "] and [": "].  Characters that
    [json.dumps] escapes with [\u] (controls other than the named ones,
    and everything outside ASCII) are written as they are. *)

Fixpoint escape_string (s : string) : string :=
  match s with
  | EmptyString => EmptyString
  | String c s' =>
      (if Ascii.eqb c dq_char then String bs_char dq
       else if Ascii.eqb c bs_char then String bs_char (String bs_char EmptyString)
       else if Ascii.eqb c "010" then String bs_char "n"
       else if Ascii.eqb c "013" then String bs_char "r"
       else if Ascii.eqb c "009" then String bs_char "t"
       else if Ascii.eqb c "008" then String bs_char "b"
       else if Ascii.eqb c "012" then String bs_char "f"
       else String c EmptyString) ++ escape_string s'
  end.

Fixpoint json_dumps (v : json) : string :=
  match v with
  | JNull => "null"
  | JBool true => "true"
  | JBool false => "false"
  | JNum n => str_int n
  | JStr s => quoted (escape_string s)
  | JArr l =>
      "[" ++ (fix elems (l : list json) : string :=
                match l with
                | [] => EmptyString
                | [x] => json_dumps x
                | x :: l' => json_dumps x ++ ", " ++ elems l'
                end) l ++ "]"
  | JObj m =>
      "{" ++ (fix members (m : list (string * json)) : string :=
                match m with
                | [] => EmptyString
                | [(k, x)] => quoted (escape_string k) ++ ": " ++ json_dumps x
                | (k, x) :: m' =>
                    quoted (escape_string k) ++ ": " ++ json_dumps x ++ ", "
                    ++ members m'
                end) m ++ "}"
  end.

(** [str(x)] for a value read from a response, as an f-string renders it.
    Lists and dicts are rendered as JSON text here (Python would use
    single quotes); the module only interpolates identifiers. *)
Definition py_str (x : json) : string :=
  match x with
  | JNull => "None"
  | JBool true => "True"
  | JBool false => "False"
  | JNum n => str_int n
  | JStr s => s
  | _ => json_dumps x
  end.

(* ================================================================= *)
(** ** The environment of the module *)

(** A command line, as the list of words it is built from. *)
Definition Cmd : Type := list string.

(** What [vm_util.IssueCommand] gives back: standard output and the return
    code. *)
Record Response : Type := mkResponse { stdout : string; retcode : Z }.

(** What the module reads but does not define: flags, the constants and
    helpers of [util] and [vm_util], and the control plane, which answers a
    command knowing the time and the commands issued before it. *)
Record Env : Type := mkEnv {
  OCI_PREFIX : list string;            (* util.OCI_PREFIX *)
  run_uri : string;                    (* FLAGS.run_uri *)
  oci_network_name : option string;    (* FLAGS.oci_network_name *)
  oci_use_vcn : bool;                  (* FLAGS.oci_use_vcn *)
  default_tags : string;               (* util.MakeFormattedDefaultTags() *)
  uuid4 : string;                      (* str(uuid.uuid4()) *)
  POLL_INTERVAL : Z;                   (* vm_util.POLL_INTERVAL *)
  control_plane : Z -> list Cmd -> Cmd -> Response
}.

(** The calls to [logging]. *)
Inductive LogRecord : Type :=
| Info (msg : string)
| InfoCmd (cmd : Cmd)
| InfoValue (v : json)
| InfoWaiting (status_list : list string)
| Error (msg : string).

Record World : Type := mkWorld {
  env : Env;
  clock : Z;                 (* seconds *)
  issued : list Cmd;         (* commands sent to the control plane, oldest first *)
  log : list LogRecord       (* oldest first *)
}.

(** A method of an object of type [Self]: it may change the object and the
    world, and returns or raises. *)
Definition M (Self A : Type) : Type := Self -> World -> Result A * Self * World.

Definition ret {Self A : Type} (a : A) : M Self A :=
  fun self w => (Ok a, self, w).

Definition raise {Self A : Type} (e : exn) : M Self A :=
  fun self w => (Raise e, self, w).

Definition bind {Self A B : Type} (m : M Self A) (k : A -> M Self B) : M Self B :=
  fun self w =>
    match m self w with
    | (Ok a, self', w') => k a self' w'
    | (Raise e, self', w') => (Raise e, self', w')
    end.

Notation "x <- m ;; k" := (bind m (fun x => k))
  (at level 61, m at next level, right associativity).
Notation "m ;;; k" := (bind m (fun _ => k))
  (at level 61, right associativity).

Definition lift {Self A : Type} (r : Result A) : M Self A :=
  fun self w => (r, self, w).

Definition get_self {Self : Type} : M Self Self :=
  fun self w => (Ok self, self, w).

Definition modify {Self : Type} (f : Self -> Self) : M Self unit :=
  fun self w => (Ok tt, f self, w).

Definition get_env {Self : Type} : M Self Env :=
  fun self w => (Ok (env w), self, w).

Definition logging {Self : Type} (r : LogRecord) : M Self unit :=
  fun self w => (Ok tt, self, mkWorld (env w) (clock w) (issued w) (List.app (log w) [r])).

Definition sleep (seconds : Z) (w : World) : World :=
  mkWorld (env w) (clock w + seconds) (issued w) (log w).

(** One command sent to the control plane. *)
Definition issue {Self : Type} (cmd : Cmd) : M Self Response :=
  fun self w =>
    (Ok (control_plane (env w) (clock w) (issued w) cmd), self,
     mkWorld (env w) (clock w) (List.app (issued w) [cmd]) (log w)).

(** [json.loads(out)] *)
Definition loads {Self : Type} (out : string) : M Self json :=
  match json_loads out with
  | Some v => ret v
  | None => raise JSONDecodeError
  end.

(** Modelled from the spec: [util.GetEncodedCmd], which is not in the
    sources.  The spec leaves the encoding of commands to the transport; a
    command is kept as the list of words the module built. *)
Definition GetEncodedCmd (cmd : list string) : Cmd := cmd.

(** Modelled from the spec: the wall-clock ceiling of a wait, ten minutes
    ([vm_util]'s default timeout is not in the sources). *)
Definition DEFAULT_TIMEOUT : Z := 600.

(** Modelled from the spec: the decorator [vm_util.Retry], which is not in
    the sources.  The decorated call is made again, a fixed [poll_interval]
    after each failure, until it returns; once the next attempt would start
    at or after the ceiling, the last failure is surfaced.  Time passes only
    while sleeping.  For a positive interval at most
    [timeout / poll_interval] sleeps fit under the ceiling, which is the
    [fuel] given to the loop. *)
Fixpoint retry_loop {Self A : Type} (fuel : nat) (poll_interval deadline : Z)
  (f : M Self A) : M Self A :=
  fun self w =>
    match f self w with
    | (Ok a, self', w') => (Ok a, self', w')
    | (Raise e, self', w') =>
        match fuel with
        | O => (Raise e, self', w')
        | S fuel' =>
            if clock w' + poll_interval >=? deadline then (Raise e, self', w')
            else retry_loop fuel' poll_interval deadline f self'
                   (sleep poll_interval w')
        end
    end.

Definition Retry {Self A : Type} (poll_interval timeout : Z) (f : M Self A)
  : M Self A :=
  fun self w =>
    retry_loop (Z.to_nat (timeout / poll_interval)) poll_interval
      (clock w + timeout) f self w.

(** Modelled from the spec: [vm_util.IssueCommand(cmd, raise_on_failure=...)],
    which is not in the sources: the command goes to the control plane and
    its standard output comes back; a non-zero return code raises when
    [raise_on_failure] is set. *)
Definition IssueCommand {Self : Type} (cmd : Cmd) (raise_on_failure : bool)
  : M Self string :=
  r <- issue cmd ;;
  if raise_on_failure && negb (retcode r =? 0)%Z then raise IssueCommandError
  else ret (stdout r).

(** Modelled from the spec: [vm_util.IssueRetryableCommand], which is not in
    the sources: a command whose transport failures are retried by the
    command layer itself. *)
Definition IssueRetryableCommand {Self : Type} (cmd : Cmd) : M Self string :=
  e <- get_env ;;
  Retry (POLL_INTERVAL e) DEFAULT_TIMEOUT (IssueCommand cmd true).

(* ================================================================= *)
(** ** Module constants *)

Definition MAX_NAME_LENGTH : Z := 128.
Definition WAIT_INTERVAL_SECONDS : Z := 600.

Definition VCN_CREATE_STATUSES : list string :=
  ["AVAILABLE"; "PROVISIONING"; "TERMINATED"; "TERMINATING"; "UPDATING"].

Definition SUBNET_CREATE_STATUSES : list string :=
  ["AVAILABLE"; "PROVISIONING"; "TERMINATED"; "TERMINATING"; "UPDATING"].

Definition IG_CREATE_STATUSES : list string :=
  ["AVAILABLE"; "PROVISIONING"; "TERMINATED"; "TERMINATING"].

Definition ROUTE_TABLE_UPDATE_STATUSES : list string :=
  ["AVAILABLE"; "PROVISIONING"; "TERMINATED"; "TERMINATING"].

Definition SECURITY_LIST_UPDATE_STATUSES : list string :=
  ["AVAILABLE"; "PROVISIONING"; "TERMINATED"; "TERMINATING"].

(* ================================================================= *)
(** ** class OciVcn *)

Record OciVcn : Type := mkOciVcn {
  status : json;
  vcn_region : string;
  vcn_profile : string;
  id : json;
  vcn_name : string;
  cidr_blocks : list string;
  cidr_block : json;
  vcn_id : json;
  subnet_id : json;
  ig_id : json;
  rt_id : json;
  security_list_id : json;
  tags : string
}.

Definition set_status (x : json) (v : OciVcn) : OciVcn :=
  mkOciVcn x (vcn_region v) (vcn_profile v) (id v) (vcn_name v) (cidr_blocks v)
    (cidr_block v) (vcn_id v) (subnet_id v) (ig_id v) (rt_id v)
    (security_list_id v) (tags v).
Definition set_cidr_block (x : json) (v : OciVcn) : OciVcn :=
  mkOciVcn (status v) (vcn_region v) (vcn_profile v) (id v) (vcn_name v)
    (cidr_blocks v) x (vcn_id v) (subnet_id v) (ig_id v) (rt_id v)
    (security_list_id v) (tags v).
Definition set_vcn_id (x : json) (v : OciVcn) : OciVcn :=
  mkOciVcn (status v) (vcn_region v) (vcn_profile v) (id v) (vcn_name v)
    (cidr_blocks v) (cidr_block v) x (subnet_id v) (ig_id v) (rt_id v)
    (security_list_id v) (tags v).
Definition set_subnet_id (x : json) (v : OciVcn) : OciVcn :=
  mkOciVcn (status v) (vcn_region v) (vcn_profile v) (id v) (vcn_name v)
    (cidr_blocks v) (cidr_block v) (vcn_id v) x (ig_id v) (rt_id v)
    (security_list_id v) (tags v).
Definition set_ig_id (x : json) (v : OciVcn) : OciVcn :=
  mkOciVcn (status v) (vcn_region v) (vcn_profile v) (id v) (vcn_name v)
    (cidr_blocks v) (cidr_block v) (vcn_id v) (subnet_id v) x (rt_id v)
    (security_list_id v) (tags v).
Definition set_rt_id (x : json) (v : OciVcn) : OciVcn :=
  mkOciVcn (status v) (vcn_region v) (vcn_profile v) (id v) (vcn_name v)
    (cidr_blocks v) (cidr_block v) (vcn_id v) (subnet_id v) (ig_id v) x
    (security_list_id v) (tags v).
Definition set_security_list_id (x : json) (v : OciVcn) : OciVcn :=
  mkOciVcn (status v) (vcn_region v) (vcn_profile v) (id v) (vcn_name v)
    (cidr_blocks v) (cidr_block v) (vcn_id v) (subnet_id v) (ig_id v) (rt_id v)
    x (tags v).

(** [OciVcn.__init__(name, region, profile)] *)
Definition OciVcn_init (e : Env) (name region profile : string) : OciVcn :=
  {| status := JNull;
     vcn_region := region;
     vcn_profile := profile;
     id := JNull;
     vcn_name := name;
     cidr_blocks := ["172.16.0.0/16"];
     cidr_block := JNull;
     vcn_id := JNull;
     subnet_id := JNull;
     ig_id := JNull;
     rt_id := JNull;
     security_list_id := JNull;
     tags := default_tags e |}.

(** [check_state in status_list], for a list of strings. *)
Definition state_in (check_state : json) (status_list : list string) : bool :=
  match check_state with
  | JStr s => existsb (String.eqb s) status_list
  | _ => false
  end.

(** [assert check_state in status_list] *)
Definition assert_ {Self : Type} (b : bool) : M Self unit :=
  if b then ret tt else raise AssertionError.

(** The body shared, word for word, by the five wait methods: log, query
    the resource once, cache the observed state, assert membership. *)
Definition wait_body (resource id_flag : string) (the_id : OciVcn -> json)
  (status_list : list string) : M OciVcn unit :=
  logging (InfoWaiting status_list) ;;;
  self <- get_self ;;
  e <- get_env ;;
  let status_cmd := List.app (OCI_PREFIX e)
    ["network"; resource; "get";
     id_flag ++ " " ++ py_str (the_id self);
     "--profile " ++ vcn_profile self] in
  let status_cmd := GetEncodedCmd status_cmd in
  out <- IssueRetryableCommand status_cmd ;;
  state <- loads out ;;
  data <- lift (getitem state "data") ;;
  check_state <- lift (getitem data "lifecycle-state") ;;
  modify (set_status check_state) ;;;
  assert_ (state_in check_state status_list).

(** [@vm_util.Retry(poll_interval=60, log_errors=False)] *)
Definition WaitForVcnStatus (status_list : list string) : M OciVcn unit :=
  Retry 60 DEFAULT_TIMEOUT (wait_body "vcn" "--vcn-id" vcn_id status_list).

Definition GetVcnIDFromName : M OciVcn unit :=
  self <- get_self ;;
  e <- get_env ;;
  let get_cmd := List.app (OCI_PREFIX e)
    ["network"; "vcn"; "list"; "--display-name " ++ vcn_name self] in
  let get_cmd := GetEncodedCmd get_cmd in
  logging (InfoCmd get_cmd) ;;;
  stdout <- IssueCommand get_cmd false ;;
  response <- loads stdout ;;
  data <- lift (getitem response "data") ;;
  first <- lift (getitem0 data) ;;
  the_id <- lift (getitem first "id") ;;
  modify (set_vcn_id the_id) ;;;
  logging (InfoValue the_id).

Definition _Create : M OciVcn unit :=
  logging (Info "Creating custom CIDR Block") ;;;
  self <- get_self ;;
  e <- get_env ;;
  let create_cmd := List.app (OCI_PREFIX e)
    ["network"; "vcn"; "create";
     "--display-name pkb-" ++ run_uri e;
     "--dns-label vcn" ++ run_uri e;
     "--freeform-tags " ++ tags self;
     "--from-json '{" ++ quoted "cidr-blocks" ++ ":[" ++ quoted "172.16.0.0/16"
       ++ "]}'";
     "--profile " ++ vcn_profile self] in
  let create_cmd := GetEncodedCmd create_cmd in
  logging (InfoCmd create_cmd) ;;;
  stdout <- IssueCommand create_cmd false ;;
  response <- loads stdout ;;
  data <- lift (getitem response "data") ;;
  the_id <- lift (getitem data "id") ;;
  modify (set_vcn_id the_id) ;;;
  data <- lift (getitem response "data") ;;
  block <- lift (getitem data "cidr-block") ;;
  modify (set_cidr_block block).

Definition _Delete : M OciVcn unit :=
  self <- get_self ;;
  e <- get_env ;;
  let delete_cmd := List.app (OCI_PREFIX e)
    ["network"; "vcn"; "delete";
     "--vcn-id " ++ py_str (vcn_id self);
     "--profile " ++ vcn_profile self;
     "--force"] in
  let delete_cmd := GetEncodedCmd delete_cmd in
  _ <- IssueCommand delete_cmd false ;;
  ret tt.

(** Modelled from the spec: [resource.BaseResource.Create] and
    [resource.BaseResource.Delete], which are not in the sources.  The spec
    has the network created, and deleted, by one call each: they run the
    subclass's [_Create] and [_Delete]. *)
Definition OciVcn_Create : M OciVcn unit := _Create.
Definition OciVcn_Delete : M OciVcn unit := _Delete.

Definition GetSubnetIdFromVCNId : M OciVcn unit :=
  self <- get_self ;;
  e <- get_env ;;
  let get_cmd := List.app (OCI_PREFIX e)
    ["network"; "subnet"; "list";
     "--vcn-id " ++ py_str (vcn_id self);
     "--profile " ++ vcn_profile self] in
  let get_cmd := GetEncodedCmd get_cmd in
  logging (InfoCmd get_cmd) ;;;
  stdout <- IssueCommand get_cmd false ;;
  response <- loads stdout ;;
  data <- lift (getitem response "data") ;;
  first <- lift (getitem0 data) ;;
  the_id <- lift (getitem first "id") ;;
  modify (set_subnet_id the_id).

(** [@vm_util.Retry(poll_interval=60, log_errors=False)] *)
Definition WaitForSubnetStatus (status_list : list string) : M OciVcn unit :=
  Retry 60 DEFAULT_TIMEOUT
    (wait_body "subnet" "--subnet-id" subnet_id status_list).

Definition CreateSubnet : M OciVcn unit :=
  logging (Info "Creating custom subnet Block") ;;;
  self <- get_self ;;
  e <- get_env ;;
  let create_cmd := List.app (OCI_PREFIX e)
    ["network"; "subnet"; "create";
     "--display-name pkb-" ++ run_uri e;
     "--dns-label sub" ++ run_uri e;
     "--cidr-block " ++ py_str (cidr_block self);
     "--vcn-id " ++ py_str (vcn_id self);
     "--profile " ++ vcn_profile self] in
  let create_cmd := GetEncodedCmd create_cmd in
  stdout <- IssueCommand create_cmd false ;;
  response <- loads stdout ;;
  data <- lift (getitem response "data") ;;
  the_id <- lift (getitem data "id") ;;
  modify (set_subnet_id the_id).

Definition DeleteSubnet : M OciVcn unit :=
  logging (Info "Creating custom subnet Block") ;;;
  self <- get_self ;;
  e <- get_env ;;
  let create_cmd := List.app (OCI_PREFIX e)
    ["network"; "subnet"; "delete";
     "--subnet-id " ++ py_str (subnet_id self);
     "--profile " ++ vcn_profile self;
     "--force"] in
  let create_cmd := GetEncodedCmd create_cmd in
  _ <- IssueCommand create_cmd false ;;
  ret tt.

(** Not decorated: one query, one assertion. *)
Definition WaitForInternetGatewayStatus (status_list : list string)
  : M OciVcn unit :=
  wait_body "internet-gateway" "--ig-id" ig_id status_list.

Definition CreateInternetGateway : M OciVcn unit :=
  logging (Info "Creating custom Internet Gateway") ;;;
  self <- get_self ;;
  e <- get_env ;;
  let create_cmd := List.app (OCI_PREFIX e)
    ["network"; "internet-gateway"; "create";
     "--display-name pkb-" ++ run_uri e;
     "--vcn-id " ++ py_str (vcn_id self);
     "--profile " ++ vcn_profile self;
     "--is-enabled  True"] in
  let create_cmd := GetEncodedCmd create_cmd in
  stdout <- IssueCommand create_cmd false ;;
  response <- loads stdout ;;
  data <- lift (getitem response "data") ;;
  the_id <- lift (getitem data "id") ;;
  modify (set_ig_id the_id).

Definition DeleteInternetGateway : M OciVcn unit :=
  logging (Info "Creating custom subnet Block") ;;;
  self <- get_self ;;
  e <- get_env ;;
  let create_cmd := List.app (OCI_PREFIX e)
    ["network"; "internet-gateway"; "delete";
     "--ig-id " ++ py_str (ig_id self);
     "--profile " ++ vcn_profile self;
     "--force"] in
  let create_cmd := GetEncodedCmd create_cmd in
  _ <- IssueCommand create_cmd false ;;
  ret tt.

(** Not decorated. *)
Definition WaitForRouteTableStatus (status_list : list string)
  : M OciVcn unit :=
  wait_body "route-table" "--rt-id" rt_id status_list.

(** Not decorated. *)
Definition WaitForSecurityListStatus (status_list : list string)
  : M OciVcn unit :=
  wait_body "security-list" "--security-list-id" security_list_id status_list.

Definition UpdateRouteTable : M OciVcn unit :=
  logging (Info "Update Routing Table with Internet Gateway") ;;;
  self <- get_self ;;
  e <- get_env ;;
  let create_cmd := List.app (OCI_PREFIX e)
    ["network"; "route-table"; "update";
     "--rt-id " ++ py_str (rt_id self);
     "--force";
     "--route-rules '[{" ++ quoted "cidrBlock" ++ ":" ++ quoted "0.0.0.0/0"
       ++ "," ++ quoted "networkEntityId" ++ ":" ++ quoted (py_str (ig_id self))
       ++ "}]'";
     "--profile " ++ vcn_profile self] in
  let create_cmd := GetEncodedCmd create_cmd in
  _ <- IssueCommand create_cmd false ;;
  ret tt.

Definition ClearRouteTable : M OciVcn unit :=
  logging (Info "Update Routing Table with Internet Gateway") ;;;
  self <- get_self ;;
  e <- get_env ;;
  let create_cmd := List.app (OCI_PREFIX e)
    ["network"; "route-table"; "update";
     "--rt-id " ++ py_str (rt_id self);
     "--force";
     "--route-rules '[]'";
     "--profile " ++ vcn_profile self] in
  let create_cmd := GetEncodedCmd create_cmd in
  _ <- IssueCommand create_cmd false ;;
  ret tt.

Definition GetSecurityListFromId : M OciVcn json :=
  self <- get_self ;;
  e <- get_env ;;
  let cmd := List.app (OCI_PREFIX e)
    ["network"; "security-list"; "get";
     "--security-list-id " ++ py_str (security_list_id self);
     "--profile " ++ vcn_profile self] in
  let get_cmd := GetEncodedCmd cmd in
  logging (InfoCmd get_cmd) ;;;
  stdout <- IssueCommand get_cmd false ;;
  response <- loads stdout ;;
  data <- lift (getitem response "data") ;;
  ingress_rules <- lift (getitem data "ingress-security-rules") ;;
  logging (InfoValue ingress_rules) ;;;
  ret ingress_rules.

(** Lines 325-328 of [AddSecurityListIngressRule]: the defaults of the
    port-range end and of the source. *)
Definition default_end_port (start_port end_port : option Z) : option Z :=
  let end_port := if negb (truthy_int end_port) then start_port else end_port in
  if truthy_int end_port then end_port else start_port.

Definition default_source_range (source_range : option string) : string :=
  match source_range with
  | Some s => if truthy_str source_range then s else "0.0.0.0/0"
  | None => "0.0.0.0/0"
  end.

(** Lines 336-367: the text of the new rule, built by string formatting
    from the arguments, [end_port] and [source_range] being already
    defaulted. *)
Definition rule_json_string (protocol : string) (start_port end_port : option Z)
  (source_range : string) (protocol_type protocol_code : option Z) : string :=
  let source := quoted "source" ++ ":" ++ quoted source_range ++ " ," in
  let protocol_str := quoted "protocol" ++ ": " ++ quoted protocol ++ " ," in
  let '(icmp_options, start_port) :=
    if String.eqb protocol "1" then
      (match protocol_type, protocol_code with
       | None, None => quoted "icmp-options" ++ ": null,"
       | _, _ =>
           quoted "icmp-options" ++ ": { " ++ quoted "code" ++ ": "
           ++ str_opt_int protocol_code ++ ", " ++ quoted "type" ++ ": "
           ++ str_opt_int protocol_type ++ "},"
       end, None)
    else (quoted "icmp-options" ++ ": null,", start_port) in
  let tcpOptions :=
    if truthy_int start_port then
      quoted "tcp-options" ++ ":{" ++ quoted "destinationPortRange" ++ ": {"
      ++ quoted "max" ++ ": " ++ str_opt_int end_port ++ ", " ++ quoted "min"
      ++ ": " ++ str_opt_int start_port ++ " }},"
    else quoted "tcp-options" ++ ": null," in
  let udp_options := quoted "udp-options" ++ ": null" in
  "{" ++ source ++ " " ++ icmp_options ++ " " ++ protocol_str ++ " "
  ++ quoted "is-stateless" ++ ": false, " ++ tcpOptions ++ " " ++ udp_options
  ++ " }".

(** [current_security_rules.append]: only a list has it. *)
Definition list_of {Self : Type} (x : json) : M Self (list json) :=
  match x with
  | JArr l => ret l
  | _ => raise (AttributeError "append")
  end.

Definition AddSecurityListIngressRule (protocol : string)
  (start_port end_port : option Z) (source_range : option string)
  (protocol_type protocol_code : option Z) : M OciVcn unit :=
  let end_port := default_end_port start_port end_port in
  let source_range := default_source_range source_range in
  current_security_rules <- GetSecurityListFromId ;;
  logging (Info ("Add ingress rule for ports " ++ str_opt_int start_port
                 ++ " : " ++ str_opt_int end_port)) ;;;
  let rule_json_string :=
    rule_json_string protocol start_port end_port source_range
      protocol_type protocol_code in
  rules <- list_of current_security_rules ;;
  rule <- loads rule_json_string ;;
  let current_security_rules := JArr (List.app rules [rule]) in
  let current_security_rules_str := json_dumps current_security_rules in
  let current_security_rules_str := "'" ++ current_security_rules_str ++ "'" in
  self <- get_self ;;
  e <- get_env ;;
  let cmd := List.app (OCI_PREFIX e)
    ["network"; "security-list"; "update";
     "--security-list-id " ++ py_str (security_list_id self);
     "--force";
     "--ingress-security-rules " ++ current_security_rules_str;
     "--profile " ++ vcn_profile self] in
  let cmd := GetEncodedCmd cmd in
  _ <- IssueCommand cmd false ;;
  ret tt.

Definition GetDefaultRouteTableId : M OciVcn unit :=
  self <- get_self ;;
  e <- get_env ;;
  let status_cmd := List.app (OCI_PREFIX e)
    ["network"; "vcn"; "get";
     "--vcn-id " ++ py_str (vcn_id self);
     "--profile " ++ vcn_profile self] in
  let status_cmd := GetEncodedCmd status_cmd in
  out <- IssueCommand status_cmd true ;;
  state <- loads out ;;
  data <- lift (getitem state "data") ;;
  x <- lift (getitem data "default-route-table-id") ;;
  modify (set_rt_id x).

Definition GetDefaultSecurityListId : M OciVcn unit :=
  self <- get_self ;;
  e <- get_env ;;
  let status_cmd := List.app (OCI_PREFIX e)
    ["network"; "vcn"; "get";
     "--vcn-id " ++ py_str (vcn_id self);
     "--profile " ++ vcn_profile self] in
  let status_cmd := GetEncodedCmd status_cmd in
  out <- IssueCommand status_cmd true ;;
  state <- loads out ;;
  data <- lift (getitem state "data") ;;
  x <- lift (getitem data "default-security-list-id") ;;
  modify (set_security_list_id x).

(* ================================================================= *)
(** ** class OciNetwork *)

(** An attribute that holds an object: not set at all, [None], or the
    object. *)
Inductive attr (A : Type) : Type :=
| Unset
| PyNone
| Obj (a : A).
Arguments Unset {A}.
Arguments PyNone {A}.
Arguments Obj {A} a.

Record OciNetwork : Type := mkOciNetwork {
  name : string;
  profile : string;
  region : string;
  use_vcn : bool;
  network_id : json;
  net_vcn_id : json;
  vcn : attr OciVcn;
  security_group : attr unit
}.

Definition set_vcn (x : attr OciVcn) (n : OciNetwork) : OciNetwork :=
  mkOciNetwork (name n) (profile n) (region n) (use_vcn n) (network_id n)
    (net_vcn_id n) x (security_group n).
Definition set_network_id (x : json) (n : OciNetwork) : OciNetwork :=
  mkOciNetwork (name n) (profile n) (region n) (use_vcn n) x (net_vcn_id n)
    (vcn n) (security_group n).

(** [s[-12:]] *)
Definition last12 (s : string) : string :=
  substring (String.length s - 12) 12 s.

(** [OciNetwork.__init__(spec)], with [zone] for [spec.zone].  The
    attributes [vcn] and [security_group] are assigned only under
    [if self.use_vcn].
    Modelled from the spec: [network.BaseNetwork.__init__], which is not in
    the sources; the spec gives a network no stack other than the one
    attached here, so the base class assigns no [vcn]. *)
Definition OciNetwork_init (e : Env) (zone : string) : OciNetwork :=
  let name :=
    if truthy_str (oci_network_name e)
    then match oci_network_name e with Some s => s | None => EmptyString end
    else "perfkit-" ++ run_uri e ++ "-" ++ last12 (uuid4 e) in
  let use_vcn := oci_use_vcn e in
  {| name := name;
     profile := zone;
     region := zone;
     use_vcn := use_vcn;
     network_id := JNull;
     net_vcn_id := JNull;
     vcn := if use_vcn then Obj (OciVcn_init e name zone zone) else Unset;
     security_group := if use_vcn then PyNone else Unset |}.

(** [self.vcn.method(...)]: the attribute is looked up, then the method
    runs on the object it holds. *)
Definition on_vcn {A : Type} (method : string) (m : M OciVcn A)
  : M OciNetwork A :=
  fun self w =>
    match vcn self with
    | Obj v => let '(r, v', w') := m v w in (r, set_vcn (Obj v') self, w')
    | PyNone => (Raise (AttributeError method), self, w)
    | Unset => (Raise (AttributeError "vcn"), self, w)
    end.

(** [self.network_id = self.vcn.subnet_id] *)
Definition assign_network_id : M OciNetwork unit :=
  x <- on_vcn "subnet_id" (v <- get_self ;; ret (subnet_id v)) ;;
  modify (set_network_id x).

Definition Create_body : M OciNetwork unit :=
  self <- get_self ;;
  if use_vcn self then
    on_vcn "Create" OciVcn_Create ;;;
    on_vcn "WaitForVcnStatus" (WaitForVcnStatus ["AVAILABLE"]) ;;;
    on_vcn "GetDefaultRouteTableId" GetDefaultRouteTableId ;;;
    on_vcn "GetDefaultSecurityListId" GetDefaultSecurityListId ;;;
    on_vcn "CreateSubnet" CreateSubnet ;;;
    on_vcn "WaitForSubnetStatus" (WaitForSubnetStatus ["AVAILABLE"]) ;;;
    assign_network_id ;;;
    on_vcn "CreateInternetGateway" CreateInternetGateway ;;;
    on_vcn "WaitForInternetGatewayStatus"
      (WaitForInternetGatewayStatus ["AVAILABLE"]) ;;;
    on_vcn "UpdateRouteTable" UpdateRouteTable ;;;
    on_vcn "WaitForRouteTableStatus" (WaitForRouteTableStatus ["AVAILABLE"]) ;;;
    on_vcn "AddSecurityListIngressRule"
      (AddSecurityListIngressRule "6" (Some 22) None None None None) ;;;
    on_vcn "WaitForSecurityListStatus"
      (WaitForSecurityListStatus ["AVAILABLE"]) ;;;
    on_vcn "AddSecurityListIngressRule"
      (AddSecurityListIngressRule "1" (Some 22) None None None None) ;;;
    on_vcn "WaitForSecurityListStatus"
      (WaitForSecurityListStatus ["AVAILABLE"])
  else
    on_vcn "GetVcnIDFromName" GetVcnIDFromName ;;;
    on_vcn "GetSubnetIdFromVCNId" GetSubnetIdFromVCNId ;;;
    assign_network_id.

(** [@vm_util.Retry()]: the decorator's defaults. *)
Definition Create : M OciNetwork unit :=
  e <- get_env ;;
  Retry (POLL_INTERVAL e) DEFAULT_TIMEOUT Create_body.

Definition Delete : M OciNetwork unit :=
  self <- get_self ;;
  if use_vcn self then
    on_vcn "ClearRouteTable" ClearRouteTable ;;;
    on_vcn "DeleteInternetGateway" DeleteInternetGateway ;;;
    on_vcn "DeleteSubnet" DeleteSubnet ;;;
    on_vcn "Delete" OciVcn_Delete
  else ret tt.

(* ================================================================= *)
(** ** class OCIFirewall *)

(** The [vm] argument, of which the firewall reads [vm.network]. *)
Record VirtualMachine : Type := mkVirtualMachine { network : OciNetwork }.

(** [vm.network.vcn.method(...)] *)
Definition on_network {A : Type} (m : M OciNetwork A) : M VirtualMachine A :=
  fun vm w =>
    let '(r, n', w') := m (network vm) w in (r, mkVirtualMachine n', w').

(** [not vm.network.vcn]: the attribute must exist; [None] is false, an
    object is true. *)
Definition not_vcn : M VirtualMachine bool :=
  vm <- get_self ;;
  match vcn (network vm) with
  | Unset => raise (AttributeError "vcn")
  | PyNone => ret true
  | Obj _ => ret false
  end.

Definition AllowPort (start_port end_port : option Z)
  (source_range : option string) : M VirtualMachine unit :=
  no_vcn <- not_vcn ;;
  if no_vcn then
    logging (Error
      "Opening ports with OCI cloud only supported when using a VCN for now!")
  else
    on_network (on_vcn "AddSecurityListIngressRule"
      (AddSecurityListIngressRule "6" start_port end_port source_range
         None None)) ;;;
    on_network (on_vcn "WaitForRouteTableStatus"
      (WaitForRouteTableStatus ["AVAILABLE"])).

Definition AllowIcmp (protocol_type protocol_code : option Z)
  (source_range : option string) : M VirtualMachine unit :=
  no_vcn <- not_vcn ;;
  if no_vcn then
    logging (Error
      "Allow ICMP with OCI cloud only supported when using a VCN for now!")
  else
    on_network (on_vcn "AddSecurityListIngressRule"
      (AddSecurityListIngressRule "1" (Some 22) None source_range
         protocol_type protocol_code)) ;;;
    on_network (on_vcn "WaitForRouteTableStatus"
      (WaitForRouteTableStatus ["AVAILABLE"])).

(* ================================================================= *)
(** ** A fault-free control plane

    Modelled from the spec: the control plane is an external collaborator.
    This one answers every command with return code 0.  A [create] returns
    a fresh identifier, a [list] the single resource of that kind, a [get]
    the resource with its defaults, its lifecycle state and the ingress
    rules last written by a security-list [update] (full replace).  The
    lifecycle states observed by successive [get]s are read from [script];
    once it is exhausted every resource is [AVAILABLE]. *)

Fixpoint find_arg (flag : string) (args : list string) : option string :=
  match args with
  | [] => None
  | a :: args' =>
      match drop_prefix flag a with
      | Some v => Some v
      | None => find_arg flag args'
      end
  end.

Fixpoint drop_last (s : string) : string :=
  match s with
  | EmptyString => EmptyString
  | String _ EmptyString => EmptyString
  | String c s' => String c (drop_last s')
  end.

Definition is_op (op : string) (cmd : Cmd) : bool :=
  match cmd with
  | _ :: _ :: _ :: op' :: _ => String.eqb op op'
  | _ => false
  end.

(** The rules written by one command, if it is a security-list update. *)
Definition written_rules (cmd : Cmd) : option json :=
  match cmd with
  | _ :: _ :: "security-list" :: "update" :: args =>
      match find_arg "--ingress-security-rules '" args with
      | Some v => json_loads (drop_last v)
      | None => None
      end
  | _ => None
  end.

Fixpoint current_rules (init : json) (history : list Cmd) : json :=
  match history with
  | [] => init
  | c :: h => current_rules (match written_rules c with
                             | Some r => r
                             | None => init
                             end) h
  end.

Definition fault_free (script : list string) (init_rules : json)
  (clock : Z) (history : list Cmd) (cmd : Cmd) : Response :=
  match cmd with
  | _ :: _ :: resource :: op :: _ =>
      let ocid := JStr ("ocid1." ++ resource) in
      if String.eqb op "get" then
        let state :=
          nth (List.length (filter (is_op "get") history)) script "AVAILABLE" in
        mkResponse (json_dumps (JObj [("data", JObj
          [("id", ocid);
           ("lifecycle-state", JStr state);
           ("cidr-block", JStr "172.16.0.0/16");
           ("default-route-table-id", JStr "ocid1.route-table");
           ("default-security-list-id", JStr "ocid1.security-list");
           ("ingress-security-rules", current_rules init_rules history)])])) 0
      else if String.eqb op "create" then
        mkResponse (json_dumps (JObj [("data", JObj
          [("id", ocid);
           ("lifecycle-state", JStr "PROVISIONING");
           ("cidr-block", JStr "172.16.0.0/16")])])) 0
      else if String.eqb op "list" then
        mkResponse (json_dumps (JObj [("data", JArr [JObj [("id", ocid)]])])) 0
      else mkResponse EmptyString 0
  | _ => mkResponse EmptyString 0
  end.

(** An environment around it. *)
Definition test_env (managed : bool) (script : list string) (init_rules : json)
  : Env :=
  {| OCI_PREFIX := ["oci"];
     run_uri := "4f2a";
     oci_network_name := None;
     oci_use_vcn := managed;
     default_tags := "{}";
     uuid4 := "0f8fad5b-d9cb-469f-a165-70867728950e";
     POLL_INTERVAL := 30;
     control_plane := fault_free script init_rules |}.

Definition start (e : Env) : World := mkWorld e 0 [] [].

Definition test_vcn (e : Env) : OciVcn :=
  set_security_list_id (JStr "ocid1.security-list")
    (set_rt_id (JStr "ocid1.route-table")
       (set_ig_id (JStr "ocid1.internet-gateway")
          (set_subnet_id (JStr "ocid1.subnet")
             (set_vcn_id (JStr "ocid1.vcn") (OciVcn_init e "net-A" "zone-1" "zone-1"))))).

(* ================================================================= *)
(** ** Observing a run *)

Definition result_of {S A : Type} (x : Result A * S * World) : Result A :=
  fst (fst x).
Definition self_of {S A : Type} (x : Result A * S * World) : S := snd (fst x).
Definition world_of {S A : Type} (x : Result A * S * World) : World := snd x.

(** Result, object, clock, commands and log after a run. *)
Definition view {S A : Type} (x : Result A * S * World)
  : Result A * S * Z * list Cmd * list LogRecord :=
  (result_of x, self_of x, clock (world_of x), issued (world_of x),
   log (world_of x)).

(** The log records and the commands added by a run. *)
Definition emitted {S A : Type} (m : M S A) (self : S) (w : World)
  : list LogRecord :=
  skipn (List.length (log w)) (log (world_of (m self w))).

Definition sent {S A : Type} (m : M S A) (self : S) (w : World) : list Cmd :=
  skipn (List.length (issued w)) (issued (world_of (m self w))).

(** The expected-state lists announced by the waits in a log. *)
Fixpoint waiting_lists (l : list LogRecord) : list (list string) :=
  match l with
  | [] => []
  | InfoWaiting sl :: l' => sl :: waiting_lists l'
  | _ :: l' => waiting_lists l'
  end.

(** Two lists holding the same set of states. *)
Definition same_set (a b : list string) : Prop := incl a b /\ incl b a.

(** The five identifiers a stack owns: [vcnId], [subnetId],
    [internetGatewayId], [routeTableId], [securityListId]. *)
Definition stack_ids (n : OciNetwork) : list json :=
  match vcn n with
  | Obj v => [vcn_id v; subnet_id v; ig_id v; rt_id v; security_list_id v]
  | _ => []
  end.

(** [m1] then [m2], the second on the object and world the first left. *)
Definition then_run {S A B : Type} (m1 : M S A) (m2 : M S B) : M S B :=
  fun self w => m2 (self_of (m1 self w)) (world_of (m1 self w)).

(* ================================================================= *)
(** ** Definitions used in the statements *)

(** Environments and objects for the concrete runs. *)
Definition managed_env : Env := test_env true [] (JArr []).

Definition unmanaged_env : Env := test_env false [] (JArr []).

Definition provisioning_once : Env := test_env true ["PROVISIONING"] (JArr []).

Definition test_network (e : Env) : OciNetwork :=
  {| name := "net-A"; profile := "zone-1"; region := "zone-1";
     use_vcn := true; network_id := JStr "ocid1.subnet"; net_vcn_id := JNull;
     vcn := Obj (test_vcn e); security_group := PyNone |}.


Definition icmp_vm : VirtualMachine :=
  mkVirtualMachine (test_network managed_env).

(** [emits P m]: whatever the object and the world, running [m] only adds
    records to the log, and each added record satisfies [P]. *)
Definition emits {S A : Type} (P : LogRecord -> Prop) (m : M S A) : Prop :=
  forall self w,
    exists l, log (world_of (m self w)) = List.app (log w) l /\ Forall P l.

(** A wait announces the list it was given, and nothing else is logged by
    it. *)
Definition announces (sl : list string) (r : LogRecord) : Prop :=
  match r with
  | InfoWaiting sl' => sl' = sl
  | _ => True
  end.

(** The four commands of the teardown, for a stack [v] in environment [e]. *)
Definition teardown_commands (e : Env) (v : OciVcn) : list Cmd :=
  [ List.app (OCI_PREFIX e)
      ["network"; "route-table"; "update"; "--rt-id " ++ py_str (rt_id v);
       "--force"; "--route-rules '[]'"; "--profile " ++ vcn_profile v];
    List.app (OCI_PREFIX e)
      ["network"; "internet-gateway"; "delete"; "--ig-id " ++ py_str (ig_id v);
       "--profile " ++ vcn_profile v; "--force"];
    List.app (OCI_PREFIX e)
      ["network"; "subnet"; "delete"; "--subnet-id " ++ py_str (subnet_id v);
       "--profile " ++ vcn_profile v; "--force"];
    List.app (OCI_PREFIX e)
      ["network"; "vcn"; "delete"; "--vcn-id " ++ py_str (vcn_id v);
       "--profile " ++ vcn_profile v; "--force"] ].

(** What may follow the digits of an integer literal. *)
Definition number_end (r : string) : bool :=
  match r with
  | String c _ => negb (is_digit c) && negb (starts_fraction r)
  | EmptyString => true
  end.

(** What [json.loads] makes of the rule text, stated directly on the
    arguments.  The word [None], which [str] writes for a missing integer,
    is not JSON: the text then does not parse. *)
Definition rule_dict (protocol : string) (start_port end_port : option Z)
  (source_range : string) (protocol_type protocol_code : option Z)
  : option json :=
  let icmp :=
    if String.eqb protocol "1" then
      match protocol_type, protocol_code with
      | None, None => Some JNull
      | Some t, Some c => Some (JObj [("code", JNum c); ("type", JNum t)])
      | _, _ => None
      end
    else Some JNull in
  let tcp :=
    if String.eqb protocol "1" then Some JNull
    else if truthy_int start_port then
      match start_port, end_port with
      | Some s, Some e =>
          Some (JObj [("destinationPortRange",
                       JObj [("max", JNum e); ("min", JNum s)])])
      | _, _ => None
      end
    else Some JNull in
  match icmp, tcp with
  | Some i, Some t =>
      Some (JObj [("source", JStr source_range); ("icmp-options", i);
                  ("protocol", JStr protocol); ("is-stateless", JBool false);
                  ("tcp-options", t); ("udp-options", JNull)])
  | _, _ => None
  end.

(** The rule [AddSecurityListIngressRule] builds from its arguments: the
    defaults are applied, the text is formatted and handed to
    [json.loads]. *)
Definition constructed_rule (protocol : string) (start_port end_port : option Z)
  (source_range : option string) (protocol_type protocol_code : option Z)
  : option json :=
  json_loads
    (rule_json_string protocol start_port
       (default_end_port start_port end_port)
       (default_source_range source_range) protocol_type protocol_code).

(** The command that reads the security list. *)
Definition security_list_get (e : Env) (self : OciVcn) : Cmd :=
  List.app (OCI_PREFIX e)
    ["network"; "security-list"; "get";
     "--security-list-id " ++ py_str (security_list_id self);
     "--profile " ++ vcn_profile self].

(** The status query of a wait. *)
Definition status_query (e : Env) (resource id_flag : string) (the_id : json)
  (self : OciVcn) : Cmd :=
  List.app (OCI_PREFIX e)
    ["network"; resource; "get"; id_flag ++ " " ++ py_str the_id;
     "--profile " ++ vcn_profile self].

(** The command that writes a whole rule list back. *)
Definition security_list_update (e : Env) (self : OciVcn) (rules : list json)
  : Cmd :=
  List.app (OCI_PREFIX e)
    ["network"; "security-list"; "update";
     "--security-list-id " ++ py_str (security_list_id self);
     "--force";
     "--ingress-security-rules " ++ "'" ++ json_dumps (JArr rules) ++ "'";
     "--profile " ++ vcn_profile self].

(** A port range as the rule carries it. *)
Definition port_range (min max : Z) : json :=
  JObj [("destinationPortRange", JObj [("max", JNum max); ("min", JNum min)])].

(** An inbound TCP rule from anywhere for the ports [min] to [max]. *)
Definition tcp_rule (min max : Z) : json :=
  JObj [("source", JStr "0.0.0.0/0"); ("icmp-options", JNull);
        ("protocol", JStr "6"); ("is-stateless", JBool false);
        ("tcp-options", port_range min max); ("udp-options", JNull)].

(* ================================================================= *)
(** ** Definitions used in the further properties *)

(** [preserves f m]: whatever the object and the world, the view [f] of the
    object is after [m] what it was before, also when [m] raises. *)
Definition preserves {S A X : Type} (f : S -> X) (m : M S A) : Prop :=
  forall self w, f (self_of (m self w)) = f self.

(** [ensures Q m]: when [m] returns normally, the object satisfies [Q]. *)
Definition ensures {S A : Type} (Q : S -> Prop) (m : M S A) : Prop :=
  forall self w a, result_of (m self w) = Ok a -> Q (self_of (m self w)).

(** [sends P m]: running [m] keeps the environment and only adds commands
    to those issued, each of which satisfies [P] in that environment. *)
Definition sends {S A : Type} (P : Env -> Cmd -> Prop) (m : M S A) : Prop :=
  forall self w,
    env (world_of (m self w)) = env w
    /\ exists l, issued (world_of (m self w)) = List.app (issued w) l
                 /\ Forall (P (env w)) l.

(** The stack with its cached status blanked: what a wait must not change. *)
Definition but_status (v : OciVcn) : OciVcn := set_status JNull v.

(** A command [<prefix> network <resource> <operation> ...] whose resource
    and operation are among [allowed]. *)
Definition among (allowed : list (string * string)) (e : Env) (c : Cmd)
  : Prop :=
  exists resource operation args,
    c = List.app (OCI_PREFIX e) ("network" :: resource :: operation :: args)
    /\ In (resource, operation) allowed.

(** [sends_in e P m] is [sends P m] for the worlds whose environment is
    [e]: the form in which the command built from [e] can be checked. *)
Definition sends_in {S A : Type} (e : Env) (P : Env -> Cmd -> Prop)
  (m : M S A) : Prop :=
  forall self w,
    env w = e ->
    env (world_of (m self w)) = e
    /\ exists l, issued (world_of (m self w)) = List.app (issued w) l
                 /\ Forall (P e) l.

(** The commands of [Create]: no delete among them. *)
Definition create_commands : list (string * string) :=
  [("vcn", "create"); ("vcn", "get"); ("subnet", "create"); ("subnet", "get");
   ("internet-gateway", "create"); ("internet-gateway", "get");
   ("route-table", "update"); ("route-table", "get");
   ("security-list", "get"); ("security-list", "update");
   ("vcn", "list"); ("subnet", "list")].

(** The five waits. *)
Definition all_waits : list (list string -> M OciVcn unit) :=
  [WaitForVcnStatus; WaitForSubnetStatus; WaitForInternetGatewayStatus;
   WaitForRouteTableStatus; WaitForSecurityListStatus].

(** The stack with one (or two) of its fields blanked. *)
Definition but_vcn_id (v : OciVcn) : OciVcn := set_vcn_id JNull v.
Definition but_vcn_id_and_cidr_block (v : OciVcn) : OciVcn :=
  set_cidr_block JNull (set_vcn_id JNull v).
Definition but_subnet_id (v : OciVcn) : OciVcn := set_subnet_id JNull v.
Definition but_ig_id (v : OciVcn) : OciVcn := set_ig_id JNull v.
Definition but_rt_id (v : OciVcn) : OciVcn := set_rt_id JNull v.
Definition but_security_list_id (v : OciVcn) : OciVcn :=
  set_security_list_id JNull v.

(** The stack as it is. *)
Definition unchanged (v : OciVcn) : OciVcn := v.

(** The answer the control plane gives, in world [w], to [cmd]. *)
Definition answer_to (cmd : Cmd) (w : World) : Response :=
  control_plane (env w) (clock w) (issued w) cmd.

(** [response["data"]] of an answer's text. *)
Definition data_of (out : string) : Result json :=
  match json_loads out with
  | Some response => getitem response "data"
  | None => Raise JSONDecodeError
  end.

(** The command [_Create] sends. *)
Definition vcn_create_command (e : Env) (self : OciVcn) : Cmd :=
  List.app (OCI_PREFIX e)
    ["network"; "vcn"; "create";
     "--display-name pkb-" ++ run_uri e;
     "--dns-label vcn" ++ run_uri e;
     "--freeform-tags " ++ tags self;
     "--from-json '{" ++ quoted "cidr-blocks" ++ ":[" ++ quoted "172.16.0.0/16"
       ++ "]}'";
     "--profile " ++ vcn_profile self].

(** The command [GetVcnIDFromName] sends. *)
Definition vcn_list_command (e : Env) (self : OciVcn) : Cmd :=
  List.app (OCI_PREFIX e)
    ["network"; "vcn"; "list"; "--display-name " ++ vcn_name self].

(** The command [GetSubnetIdFromVCNId] sends. *)
Definition subnet_list_command (e : Env) (self : OciVcn) : Cmd :=
  List.app (OCI_PREFIX e)
    ["network"; "subnet"; "list";
     "--vcn-id " ++ py_str (vcn_id self);
     "--profile " ++ vcn_profile self].

(** The outcome of a lookup whose answer lists [found]: the identifier of
    the first entry, or the error of reading it. *)
Definition first_id (found : json) : Result json :=
  match getitem0 found with
  | Ok first => getitem first "id"
  | Raise e => Raise e
  end.



(** [hoare P m Q]: from an object satisfying [P], when [m] returns normally
    the object satisfies [Q]. *)
Definition hoare {S A : Type} (P : S -> Prop) (m : M S A) (Q : S -> Prop)
  : Prop :=
  forall self w a,
    P self -> result_of (m self w) = Ok a -> Q (self_of (m self w)).

(** The network's attributes that are set once, in [__init__]. *)
Definition fixed_attributes (n : OciNetwork)
  : string * string * string * bool * json * attr unit :=
  (name n, profile n, region n, use_vcn n, net_vcn_id n, security_group n).

(** The network's [network_id] is the subnet identifier of the stack it
    holds. *)
Definition attached_to_subnet (n : OciNetwork) : Prop :=
  exists v, vcn n = Obj v /\ network_id n = subnet_id v.

(** The cached status of the stack the network holds is [AVAILABLE]. *)
Definition stack_available (n : OciNetwork) : Prop :=
  exists v, vcn n = Obj v /\ status v = JStr "AVAILABLE".



(** The vm with the cached status of its stack blanked. *)
Definition vm_but_status (vm : VirtualMachine) : VirtualMachine :=
  match vcn (network vm) with
  | Obj v => mkVirtualMachine (set_vcn (Obj (but_status v)) (network vm))
  | _ => vm
  end.



(** The keys of a dict are pairwise different. *)
Fixpoint distinct (keys : list string) : bool :=
  match keys with
  | [] => true
  | k :: keys' => negb (existsb (String.eqb k) keys') && distinct keys'
  end.

(** A value whose strings and keys need no escape, and whose dicts have
    distinct keys. *)
Fixpoint writable (v : json) : bool :=
  match v with
  | JStr s => json_plain s
  | JArr l => forallb writable l
  | JObj m =>
      forallb (fun kv => json_plain (fst kv) && writable (snd kv)) m
      && distinct (map fst m)
  | _ => true
  end.

(** The fuel that reading a value back takes. *)
Fixpoint need (v : json) : nat :=
  match v with
  | JArr l => S (list_sum (map (fun x => S (need x)) l))
  | JObj m => S (list_sum (map (fun kv => S (need (snd kv))) m))
  | _ => 1
  end.

(** The elements and the members as [json_dumps] writes them. *)
Fixpoint dumps_elems (l : list json) : string :=
  match l with
  | [] => EmptyString
  | [x] => json_dumps x
  | x :: l' => json_dumps x ++ ", " ++ dumps_elems l'
  end.

Fixpoint dumps_members (m : list (string * json)) : string :=
  match m with
  | [] => EmptyString
  | [(k, x)] => quoted (escape_string k) ++ ": " ++ json_dumps x
  | (k, x) :: m' =>
      quoted (escape_string k) ++ ": " ++ json_dumps x ++ ", "
      ++ dumps_members m'
  end.

(** Induction on a value, with the elements of an array and the members of
    a dict as smaller values. *)
Section JsonInduction.
Variable P : json -> Prop.
Hypothesis Hnull : P JNull.
Hypothesis Hbool : forall b, P (JBool b).
Hypothesis Hnum : forall n, P (JNum n).
Hypothesis Hstr : forall s, P (JStr s).
Hypothesis Harr : forall l, Forall P l -> P (JArr l).
Hypothesis Hobj : forall m, Forall (fun kv => P (snd kv)) m -> P (JObj m).

Fixpoint json_nested_ind (v : json) : P v :=
  match v with
  | JNull => Hnull
  | JBool b => Hbool b
  | JNum n => Hnum n
  | JStr s => Hstr s
  | JArr l =>
      Harr l ((fix all (l : list json) : Forall P l :=
                 match l with
                 | [] => Forall_nil P
                 | x :: l' => Forall_cons x (json_nested_ind x) (all l')
                 end) l)
  | JObj m =>
      Hobj m ((fix all (m : list (string * json))
                 : Forall (fun kv => P (snd kv)) m :=
                 match m with
                 | [] => Forall_nil _
                 | kv :: m' =>
                     Forall_cons kv (json_nested_ind (snd kv)) (all m')
                 end) m)
  end.
End JsonInduction.

(** A character a value can start with, as seen by the parser of arrays. *)
Definition opens_value (c : ascii) : bool :=
  negb (is_ws c) && negb (Ascii.eqb c "]").

(** The command carries the word [--profile p]. *)
Definition under_profile (p : string) (c : Cmd) : Prop :=
  In ("--profile " ++ p) c.

(** Run on a stack whose profile is [p], the method leaves the profile as
    it is and sends only commands that name it. *)
Definition profiled {A : Type} (p : string) (m : M OciVcn A) : Prop :=
  forall self w,
    vcn_profile self = p ->
    vcn_profile (self_of (m self w)) = p
    /\ exists l, issued (world_of (m self w)) = List.app (issued w) l
                 /\ Forall (under_profile p) l.

(** No word of the command names a profile. *)
Definition names_no_profile (e : Env) (c : Cmd) : Prop :=
  exists args, c = List.app (OCI_PREFIX e) args
               /\ Forall (fun a => drop_prefix "--profile " a = None) args.



(** The display name a command carries, if any. *)
Definition display_name (e : Env) (c : Cmd) : option string :=
  find_arg "--display-name " (skipn (List.length (OCI_PREFIX e)) c).


(* ================================================================= *)
(** * Properties *)

(** ** What a method adds to the log *)

Section Emits.
Context {S : Type} (P : LogRecord -> Prop).

Lemma emits_silent {A : Type} (m : M S A) :
  (forall self w, log (world_of (m self w)) = log w) -> emits P m.
Proof.
  intros H self w. exists []. rewrite H, List.app_nil_r. split; constructor.
Qed.

Lemma emits_ret {A : Type} (a : A) : emits P (@ret S A a).
Proof. apply emits_silent; reflexivity. Qed.

Lemma emits_raise {A : Type} (e : exn) : emits P (@raise S A e).
Proof. apply emits_silent; reflexivity. Qed.

Lemma emits_lift {A : Type} (r : Result A) : emits P (@lift S A r).
Proof. apply emits_silent; reflexivity. Qed.

Lemma emits_get_self : emits P (@get_self S).
Proof. apply emits_silent; reflexivity. Qed.

Lemma emits_get_env : emits P (@get_env S).
Proof. apply emits_silent; reflexivity. Qed.

Lemma emits_modify (f : S -> S) : emits P (modify f).
Proof. apply emits_silent; reflexivity. Qed.

Lemma emits_issue (cmd : Cmd) : emits P (@issue S cmd).
Proof. apply emits_silent; reflexivity. Qed.

Lemma emits_loads (out : string) : emits P (@loads S out).
Proof.
  apply emits_silent; intros; unfold loads.
  destruct (json_loads out); reflexivity.
Qed.

Lemma emits_assert (b : bool) : emits P (@assert_ S b).
Proof. apply emits_silent; intros; destruct b; reflexivity. Qed.

Lemma emits_list_of (x : json) : emits P (@list_of S x).
Proof. apply emits_silent; intros; destruct x; reflexivity. Qed.

Lemma emits_logging (r : LogRecord) : P r -> emits P (@logging S r).
Proof.
  intros H self w. exists [r]. split; [reflexivity | repeat constructor; exact H].
Qed.

Lemma emits_bind {A B : Type} (m : M S A) (k : A -> M S B) :
  emits P m -> (forall a, emits P (k a)) -> emits P (bind m k).
Proof.
  intros Hm Hk self w. unfold bind.
  destruct (Hm self w) as [l1 [E1 F1]].
  destruct (m self w) as [[[a | e] self'] w']; cbn in E1.
  - destruct (Hk a self' w') as [l2 [E2 F2]].
    exists (List.app l1 l2). rewrite E2, E1, List.app_assoc. split; [reflexivity |].
    apply Forall_app; split; assumption.
  - exists l1. split; assumption.
Qed.

Lemma emits_if {A : Type} (b : bool) (m1 m2 : M S A) :
  emits P m1 -> emits P m2 -> emits P (if b then m1 else m2).
Proof. destruct b; auto. Qed.

Lemma emits_retry_loop {A : Type} (f : M S A) (fuel : nat) (p d : Z) :
  emits P f -> emits P (retry_loop fuel p d f).
Proof.
  intros Hf. induction fuel as [| fuel IH]; intros self w; cbn.
  - destruct (Hf self w) as [l [E F]].
    destruct (f self w) as [[[a | e] self'] w']; exists l; split; assumption.
  - destruct (Hf self w) as [l [E F]].
    destruct (f self w) as [[[a | e] self'] w']; cbn in E.
    + exists l; split; assumption.
    + destruct (clock w' + p >=? d)%Z.
      * exists l; split; assumption.
      * destruct (IH self' (sleep p w')) as [l2 [E2 F2]].
        exists (List.app l l2). rewrite E2. cbn. rewrite E, List.app_assoc.
        split; [reflexivity | apply Forall_app; split; assumption].
Qed.

Lemma emits_Retry {A : Type} (f : M S A) (p t : Z) :
  emits P f -> emits P (Retry p t f).
Proof. intros Hf self w. unfold Retry. apply emits_retry_loop, Hf. Qed.

Lemma emits_IssueCommand (cmd : Cmd) (b : bool) :
  emits P (@IssueCommand S cmd b).
Proof.
  unfold IssueCommand. apply emits_bind; [apply emits_issue | intros r].
  apply emits_if; [apply emits_raise | apply emits_ret].
Qed.

Lemma emits_IssueRetryableCommand (cmd : Cmd) :
  emits P (@IssueRetryableCommand S cmd).
Proof.
  unfold IssueRetryableCommand.
  apply emits_bind; [apply emits_get_env | intros e].
  apply emits_Retry, emits_IssueCommand.
Qed.
End Emits.

Lemma emits_on_vcn {A : Type} (P : LogRecord -> Prop) (method : string)
  (m : M OciVcn A) : emits P m -> emits P (on_vcn method m).
Proof.
  intros Hm self w. unfold on_vcn.
  destruct (vcn self) as [| | v].
  - exists []. cbn. rewrite List.app_nil_r. split; constructor.
  - exists []. cbn. rewrite List.app_nil_r. split; constructor.
  - destruct (Hm v w) as [l [E F]].
    destruct (m v w) as [[r v'] w']. exists l. split; assumption.
Qed.

Lemma emitted_of_emits {S A : Type} (P : LogRecord -> Prop) (m : M S A) :
  emits P m -> forall self w, Forall P (emitted m self w).
Proof.
  intros Hm self w. unfold emitted. destruct (Hm self w) as [l [E F]].
  rewrite E, skipn_app, skipn_all, Nat.sub_diag. exact F.
Qed.

(** The steps that close an [emits] goal for straight-line code. *)
Ltac emits_step :=
  first
    [ apply emits_bind; [| intros ?]
    | apply emits_ret | apply emits_raise | apply emits_lift
    | apply emits_get_self | apply emits_get_env | apply emits_modify
    | apply emits_loads | apply emits_assert | apply emits_list_of
    | apply emits_IssueCommand | apply emits_IssueRetryableCommand
    | apply emits_Retry | apply emits_on_vcn | apply emits_if
    | apply emits_logging; exact I ].

Ltac emits_auto := cbv zeta; repeat emits_step.

(* ================================================================= *)
(** ** The waits of Create *)

Lemma emits_wait_body (sl : list string) (resource id_flag : string)
  (the_id : OciVcn -> json) :
  emits (announces sl) (wait_body resource id_flag the_id sl).
Proof.
  unfold wait_body. emits_auto. apply emits_logging. reflexivity.
Qed.

Lemma emits_AddSecurityListIngressRule (sl : list string) (protocol : string)
  (start_port end_port : option Z) (source_range : option string)
  (protocol_type protocol_code : option Z) :
  emits (announces sl)
    (AddSecurityListIngressRule protocol start_port end_port source_range
       protocol_type protocol_code).
Proof.
  unfold AddSecurityListIngressRule, GetSecurityListFromId. emits_auto.
Qed.

Lemma emits_Create_body : emits (announces ["AVAILABLE"]) Create_body.
Proof.
  unfold Create_body.
  apply emits_bind; [apply emits_get_self | intros self].
  apply emits_if.
  - unfold OciVcn_Create, _Create, WaitForVcnStatus, WaitForSubnetStatus,
      WaitForInternetGatewayStatus, WaitForRouteTableStatus,
      WaitForSecurityListStatus, GetDefaultRouteTableId,
      GetDefaultSecurityListId, CreateSubnet, CreateInternetGateway,
      UpdateRouteTable, assign_network_id.
    repeat first [ apply emits_wait_body
                 | apply emits_AddSecurityListIngressRule
                 | emits_step ].
  - unfold GetVcnIDFromName, GetSubnetIdFromVCNId, assign_network_id.
    emits_auto.
Qed.

Lemma waiting_lists_announced (sl : list string) (l : list LogRecord) :
  Forall (announces sl) l -> Forall (eq sl) (waiting_lists l).
Proof.
  induction 1 as [| r l Hr Hl IH]; cbn; [constructor |].
  destruct r; cbn in *; try exact IH. constructor; [symmetry; exact Hr | exact IH].
Qed.

(** C2 (amended): whatever the control plane answers and however often the
    retry wrapper re-runs the sequence, every wait made by [Create] is given
    the one-element list [["AVAILABLE"]] as its expected states. *)
Theorem Create_waits_expect_AVAILABLE (self : OciNetwork) (w : World) :
  Forall (eq ["AVAILABLE"]) (waiting_lists (emitted Create self w)).
Proof.
  apply waiting_lists_announced, emitted_of_emits.
  unfold Create. apply emits_bind; [apply emits_get_env | intros e].
  apply emits_Retry, emits_Create_body.
Qed.

(** On the fault-free control plane the managed [Create] returns after its
    six waits: network, subnet, gateway, route table, and the security list
    twice. *)
Example Create_managed_run :
  result_of (Create (OciNetwork_init managed_env "zone-1") (start managed_env))
  = Ok tt
  /\ waiting_lists
       (emitted Create (OciNetwork_init managed_env "zone-1") (start managed_env))
     = [["AVAILABLE"]; ["AVAILABLE"]; ["AVAILABLE"]; ["AVAILABLE"];
        ["AVAILABLE"]; ["AVAILABLE"]].
Proof. vm_compute. split; reflexivity. Qed.

(** C2 (as stated) fails: on the fault-free control plane the lists given
    to the waits of [Create] are not all the recognized-state set
    [VCN_CREATE_STATUSES]. *)
Lemma Create_waits_not_recognized_set :
  ~ Forall (fun sl => same_set sl VCN_CREATE_STATUSES)
      (waiting_lists
         (emitted Create (OciNetwork_init managed_env "zone-1")
            (start managed_env))).
Proof.
  destruct Create_managed_run as [_ E]. rewrite E. intros H.
  inversion H as [| sl l [_ Hincl] _]; subst.
  assert (Hin : In "PROVISIONING" ["AVAILABLE"]).
  { apply Hincl. unfold VCN_CREATE_STATUSES. cbn. auto. }
  cbn in Hin. destruct Hin as [Hin | []]. discriminate Hin.
Qed.

(** A network that stays [PROVISIONING], a recognized state, does not
    satisfy the first wait of [Create]: the wait gives up at its ceiling
    with the assertion's failure. *)
Example WaitForVcnStatus_PROVISIONING_not_accepted :
  let e := test_env true (repeat "PROVISIONING" 20) (JArr []) in
  In "PROVISIONING" VCN_CREATE_STATUSES
  /\ (let r := WaitForVcnStatus ["AVAILABLE"] (test_vcn e) (start e) in
      result_of r = Raise AssertionError /\ clock (world_of r) = 540
      /\ List.length (issued (world_of r)) = 10%nat).
Proof. cbn zeta. split; [cbn; auto | vm_compute; auto]. Qed.

(* ================================================================= *)
(** ** Delete *)

Lemma set_vcn_same (n : OciNetwork) (v : OciVcn) :
  vcn n = Obj v -> set_vcn (Obj v) n = n.
Proof. destruct n; cbn; intros ->; reflexivity. Qed.

Lemma Delete_managed (n : OciNetwork) (v : OciVcn) (w : World) :
  use_vcn n = true -> vcn n = Obj v ->
  Delete n w =
    (Ok tt, n,
     mkWorld (env w) (clock w)
       (List.app (issued w) (teardown_commands (env w) v))
       (List.app (log w)
          [Info "Update Routing Table with Internet Gateway";
           Info "Creating custom subnet Block";
           Info "Creating custom subnet Block"])).
Proof.
  intros Hu Hv. unfold Delete, bind, get_self. rewrite Hu.
  unfold on_vcn, ClearRouteTable, DeleteInternetGateway, DeleteSubnet,
    OciVcn_Delete, _Delete, IssueCommand, GetEncodedCmd, bind, get_self,
    get_env, logging, issue, ret.
  cbn. rewrite Hv. cbn. rewrite !(set_vcn_same n v Hv).
  rewrite <- !List.app_assoc. reflexivity.
Qed.

(** C9: [Delete] on a managed stack sends exactly four commands, in this
    order: the route-table update with the empty rule list, then the
    deletions of the internet gateway, the subnet and the network; each
    carries [--force]; no status query follows any of them, no wait is
    announced and no time passes. *)
Theorem Delete_issues_four_forced_mutations (n : OciNetwork) (v : OciVcn)
  (w : World) :
  use_vcn n = true -> vcn n = Obj v ->
  result_of (Delete n w) = Ok tt
  /\ sent Delete n w = teardown_commands (env w) v
  /\ Forall (fun c => In "--force" c) (sent Delete n w)
  /\ waiting_lists (emitted Delete n w) = []
  /\ clock (world_of (Delete n w)) = clock w.
Proof.
  intros Hu Hv. unfold sent, emitted. rewrite (Delete_managed n v w Hu Hv). cbn.
  rewrite !skipn_app, !skipn_all, !Nat.sub_diag. cbn.
  repeat split; try reflexivity.
  unfold teardown_commands.
  repeat constructor; apply in_or_app; right; cbn; auto 10.
Qed.

Lemma Delete_issues_four_forced_mutations_witness :
  sent Delete (test_network managed_env) (start managed_env) =
    [ ["oci"; "network"; "route-table"; "update"; "--rt-id ocid1.route-table";
       "--force"; "--route-rules '[]'"; "--profile zone-1"];
      ["oci"; "network"; "internet-gateway"; "delete";
       "--ig-id ocid1.internet-gateway"; "--profile zone-1"; "--force"];
      ["oci"; "network"; "subnet"; "delete"; "--subnet-id ocid1.subnet";
       "--profile zone-1"; "--force"];
      ["oci"; "network"; "vcn"; "delete"; "--vcn-id ocid1.vcn";
       "--profile zone-1"; "--force"] ].
Proof.
  exact (proj1 (proj2 (Delete_issues_four_forced_mutations
                         (test_network managed_env) (test_vcn managed_env)
                         (start managed_env) eq_refl eq_refl))).
Defined.

(** C8 (amended): [Delete] assigns no attribute: whatever the control plane
    answers, the network object and the stack it holds, with its five
    identifiers, are after [Delete] what they were before. *)
Theorem Delete_keeps_identifiers (n : OciNetwork) (w : World) :
  self_of (Delete n w) = n /\ stack_ids (self_of (Delete n w)) = stack_ids n.
Proof.
  assert (H : self_of (Delete n w) = n).
  { destruct (use_vcn n) eqn:Hu.
    - destruct (vcn n) as [| | v] eqn:Hv.
      + unfold Delete, bind, get_self, on_vcn. rewrite Hu. cbn. rewrite Hv.
        reflexivity.
      + unfold Delete, bind, get_self, on_vcn. rewrite Hu. cbn. rewrite Hv.
        reflexivity.
      + rewrite (Delete_managed n v w Hu Hv). reflexivity.
    - unfold Delete, bind, get_self. rewrite Hu. reflexivity. }
  rewrite H. split; reflexivity.
Qed.

(** C8 (as stated) fails: after [Create] and then [Delete] on the
    fault-free control plane, none of the five identifiers is null. *)
Lemma Delete_does_not_clear_identifiers :
  let after := then_run Create Delete (OciNetwork_init managed_env "zone-1")
                 (start managed_env) in
  result_of after = Ok tt
  /\ stack_ids (self_of after) =
       [JStr "ocid1.vcn"; JStr "ocid1.subnet"; JStr "ocid1.internet-gateway";
        JStr "ocid1.route-table"; JStr "ocid1.security-list"]
  /\ ~ Forall (eq JNull) (stack_ids (self_of after)).
Proof.
  cbn zeta.
  assert (E : stack_ids (self_of (then_run Create Delete
                (OciNetwork_init managed_env "zone-1") (start managed_env))) =
       [JStr "ocid1.vcn"; JStr "ocid1.subnet"; JStr "ocid1.internet-gateway";
        JStr "ocid1.route-table"; JStr "ocid1.security-list"])
    by (vm_compute; reflexivity).
  split; [vm_compute; reflexivity | split; [exact E |]].
  rewrite E. intros H. inversion H as [| x l Hx _]; subst. discriminate Hx.
Qed.

(* ================================================================= *)
(** ** The firewall without a stack *)



(* ================================================================= *)
(** ** Create on a pre-existing network *)

Lemma retry_loop_fails {S A : Type} (f : M S A) (self : S) (e : exn)
  (p d : Z) :
  (forall w, f self w = (Raise e, self, w)) ->
  forall fuel w,
    exists t, retry_loop fuel p d f self w =
                (Raise e, self, mkWorld (env w) t (issued w) (log w)).
Proof.
  intros Hf. induction fuel as [| fuel IH]; intros w; cbn; rewrite Hf.
  - exists (clock w). destruct w; reflexivity.
  - destruct (clock w + p >=? d)%Z.
    + exists (clock w). destruct w; reflexivity.
    + destruct (IH (sleep p w)) as [t Ht]. exists t. rewrite Ht. reflexivity.
Qed.

(** C6 (what the code does): with the flag [oci_use_vcn] false,
    [__init__] attaches no [vcn] object, and [Create] fails on its first
    statement with [AttributeError]: no command is sent, no identifier is
    populated. *)
Theorem Create_unmanaged_raises_AttributeError (e : Env) (zone : string)
  (w : World) :
  oci_use_vcn e = false ->
  result_of (Create (OciNetwork_init e zone) w) = Raise (AttributeError "vcn")
  /\ self_of (Create (OciNetwork_init e zone) w) = OciNetwork_init e zone
  /\ issued (world_of (Create (OciNetwork_init e zone) w)) = issued w
  /\ stack_ids (self_of (Create (OciNetwork_init e zone) w)) = [].
Proof.
  intros Hflag.
  assert (Hbody : forall w', Create_body (OciNetwork_init e zone) w' =
                    (Raise (AttributeError "vcn"), OciNetwork_init e zone, w')).
  { intros w'. unfold Create_body, bind, get_self, on_vcn, OciNetwork_init.
    rewrite Hflag. reflexivity. }
  unfold Create, bind, get_env, Retry.
  destruct (retry_loop_fails Create_body (OciNetwork_init e zone)
              (AttributeError "vcn") (POLL_INTERVAL (env w))
              (clock w + DEFAULT_TIMEOUT) Hbody
              (Z.to_nat (DEFAULT_TIMEOUT / POLL_INTERVAL (env w))) w)
    as [t Ht].
  rewrite Ht. cbn. repeat split.
  unfold stack_ids, OciNetwork_init. rewrite Hflag. reflexivity.
Qed.

Lemma Create_unmanaged_raises_AttributeError_witness :
  result_of (Create (OciNetwork_init unmanaged_env "zone-1")
               (start unmanaged_env)) = Raise (AttributeError "vcn").
Proof.
  exact (proj1 (Create_unmanaged_raises_AttributeError unmanaged_env "zone-1"
                  (start unmanaged_env) eq_refl)).
Defined.

(** Had a stack object been attached, the same branch of [Create] would do
    the two lookups and populate the network and subnet identifiers only. *)
Example Create_body_unmanaged_with_stack :
  let n := set_vcn (Obj (OciVcn_init unmanaged_env "net-A" "zone-1" "zone-1"))
             (OciNetwork_init unmanaged_env "zone-1") in
  let r := Create_body n (start unmanaged_env) in
  result_of r = Ok tt
  /\ stack_ids (self_of r) =
       [JStr "ocid1.vcn"; JStr "ocid1.subnet"; JNull; JNull; JNull]
  /\ issued (world_of r) =
       [ ["oci"; "network"; "vcn"; "list"; "--display-name net-A"];
         ["oci"; "network"; "subnet"; "list"; "--vcn-id ocid1.vcn";
          "--profile zone-1"] ].
Proof. vm_compute. repeat split. Qed.

(** The firewall's guard on such a network: the attribute itself is
    missing. *)
Example AllowPort_on_unmanaged_network :
  result_of (AllowPort (Some 8080) (Some 8090) (Some "10.0.0.0/8")
               (mkVirtualMachine (OciNetwork_init unmanaged_env "zone-1"))
               (start unmanaged_env)) = Raise (AttributeError "vcn").
Proof. reflexivity. Qed.

(* ================================================================= *)
(** ** The waits *)

(** One run of the body of a wait whose query is answered: the state read
    is cached, and the body returns or fails on that one observation,
    without sleeping. *)
Lemma wait_body_one_observation (resource id_flag : string)
  (the_id : OciVcn -> json) (status_list : list string) (self : OciVcn)
  (w : World) (state data check_state : json) :
  let cmd := status_query (env w) resource id_flag (the_id self) self in
  let answer := control_plane (env w) (clock w) (issued w) cmd in
  retcode answer = 0 ->
  json_loads (stdout answer) = Some state ->
  getitem state "data" = Ok data ->
  getitem data "lifecycle-state" = Ok check_state ->
  wait_body resource id_flag the_id status_list self w =
    (if state_in check_state status_list then Ok tt else Raise AssertionError,
     set_status check_state self,
     mkWorld (env w) (clock w) (List.app (issued w) [cmd])
       (List.app (log w) [InfoWaiting status_list])).
Proof.
  intros cmd answer Hrc Hloads Hdata Hstate.
  subst answer cmd. unfold status_query in *.
  unfold wait_body, IssueRetryableCommand, Retry, IssueCommand, loads, lift,
    assert_, modify, bind, get_self, get_env, logging, issue, ret, raise,
    GetEncodedCmd.
  cbn [env clock issued log].
  destruct (Z.to_nat (DEFAULT_TIMEOUT / POLL_INTERVAL (env w))) as [| fuel];
    cbn [retry_loop env clock issued log];
    rewrite Hrc; cbn [Z.eqb negb andb];
    rewrite Hloads; cbn; rewrite Hdata; cbn; rewrite Hstate; cbn;
    destruct (state_in check_state status_list); reflexivity.
Qed.

(** C1 (what the code does): the gateway is observed [PROVISIONING] once
    and [AVAILABLE] from then on.  The wait on the internet gateway, which
    has no retry decorator, queries once and fails on that first
    observation; so do the waits on the route table and the security list.
    The decorated waits on the network and the subnet query again 60
    seconds later and return. *)
Theorem undecorated_waits_fail_on_first_observation :
  let e := provisioning_once in
  let get resource flag :=
    [["oci"; "network"; resource; "get"; flag; "--profile zone-1"]] in
  view (WaitForInternetGatewayStatus ["AVAILABLE"] (test_vcn e) (start e)) =
    (Raise AssertionError, set_status (JStr "PROVISIONING") (test_vcn e), 0,
     get "internet-gateway" "--ig-id ocid1.internet-gateway",
     [InfoWaiting ["AVAILABLE"]])
  /\ view (WaitForRouteTableStatus ["AVAILABLE"] (test_vcn e) (start e)) =
    (Raise AssertionError, set_status (JStr "PROVISIONING") (test_vcn e), 0,
     get "route-table" "--rt-id ocid1.route-table",
     [InfoWaiting ["AVAILABLE"]])
  /\ view (WaitForSecurityListStatus ["AVAILABLE"] (test_vcn e) (start e)) =
    (Raise AssertionError, set_status (JStr "PROVISIONING") (test_vcn e), 0,
     get "security-list" "--security-list-id ocid1.security-list",
     [InfoWaiting ["AVAILABLE"]])
  /\ view (WaitForVcnStatus ["AVAILABLE"] (test_vcn e) (start e)) =
    (Ok tt, set_status (JStr "AVAILABLE") (test_vcn e), 60,
     List.app (get "vcn" "--vcn-id ocid1.vcn") (get "vcn" "--vcn-id ocid1.vcn"),
     [InfoWaiting ["AVAILABLE"]; InfoWaiting ["AVAILABLE"]])
  /\ view (WaitForSubnetStatus ["AVAILABLE"] (test_vcn e) (start e)) =
    (Ok tt, set_status (JStr "AVAILABLE") (test_vcn e), 60,
     List.app (get "subnet" "--subnet-id ocid1.subnet")
       (get "subnet" "--subnet-id ocid1.subnet"),
     [InfoWaiting ["AVAILABLE"]; InfoWaiting ["AVAILABLE"]]).
Proof. vm_compute. repeat split. Qed.

(* ================================================================= *)
(** ** Text lemmas *)

Lemma append_assoc (a b c : string) : (a ++ b) ++ c = a ++ b ++ c.
Proof. induction a as [| x a IH]; cbn; [reflexivity | rewrite IH; reflexivity]. Qed.

Lemma length_append (a b : string) :
  String.length (a ++ b) = (String.length a + String.length b)%nat.
Proof. induction a as [| x a IH]; cbn; [reflexivity | rewrite IH; reflexivity]. Qed.

Lemma plain_char_spec (c : ascii) :
  plain_char c = true ->
  Ascii.eqb c dq_char = false /\ Ascii.eqb c bs_char = false
  /\ (nat_of_ascii c <? 32)%nat = false.
Proof.
  unfold plain_char. intros H.
  apply andb_prop in H. destruct H as [H H3].
  apply andb_prop in H. destruct H as [H1 H2].
  apply negb_true_iff in H1, H2. repeat split; try assumption.
  apply Nat.ltb_ge. apply Nat.leb_le. exact H3.
Qed.

(** A plain text between quotes is read back as it is. *)
Lemma parse_string_body_plain (s r : string) :
  json_plain s = true ->
  parse_string_body (s ++ String dq_char r) = Some (s, r).
Proof.
  induction s as [| c s IH]; cbn [json_plain append]; intros H.
  - reflexivity.
  - apply andb_prop in H. destruct H as [Hc Hs].
    destruct (plain_char_spec c Hc) as [H1 [H2 H3]].
    cbn [parse_string_body]. rewrite H1, H2, H3, (IH Hs). reflexivity.
Qed.

(** *** Decimal numerals *)

Lemma span_digits_uint (u : uint) (r : string) :
  number_end r = true ->
  span_digits (NilEmpty.string_of_uint u ++ r) = (NilEmpty.string_of_uint u, r).
Proof.
  intros Hr. induction u; cbn [NilEmpty.string_of_uint append span_digits];
    try (rewrite IHu; reflexivity).
  destruct r as [| c r']; [reflexivity |].
  cbn [span_digits]. cbn in Hr. apply andb_prop in Hr. destruct Hr as [Hd _].
  apply negb_true_iff in Hd. rewrite Hd. reflexivity.
Qed.

Lemma number_end_not_fraction (r : string) :
  number_end r = true -> starts_fraction r = false.
Proof.
  destruct r as [| c r']; [reflexivity |]. cbn [number_end]. intros H.
  apply andb_prop in H. destruct H as [_ H]. apply negb_true_iff in H. exact H.
Qed.

(** A normalised numeral has no leading zero. *)
Lemma no_leading_zero_unorm (u : uint) :
  unorm u = u -> no_leading_zero (NilEmpty.string_of_uint u) = true.
Proof.
  intros H. destruct u; try reflexivity;
    try (cbn; destruct (NilEmpty.string_of_uint u); reflexivity).
  (* D0 u *)
  rewrite DecimalFacts.unorm_D0 in H.
  unfold unorm in H. destruct (nzhead u) eqn:E.
  - injection H as <-. reflexivity.
  - exfalso. apply (DecimalFacts.nzhead_nonzero u u). rewrite E. congruence.
  - discriminate H.
  - discriminate H.
  - discriminate H.
  - discriminate H.
  - discriminate H.
  - discriminate H.
  - discriminate H.
  - discriminate H.
  - discriminate H.
Qed.

Lemma to_int_norm (z : Z) : norm (Z.to_int z) = Z.to_int z.
Proof.
  rewrite <- DecimalZ.to_of. rewrite DecimalZ.of_to. reflexivity.
Qed.

Lemma first_digit (u : uint) :
  u <> Nil ->
  exists c s, NilEmpty.string_of_uint u = String c s /\ is_digit c = true.
Proof.
  destruct u; intros H; try (now destruct H); cbn; eexists; eexists; split;
    reflexivity.
Qed.

Lemma is_digit_not_minus (c : ascii) :
  is_digit c = true -> Ascii.eqb c "-" = false.
Proof.
  destruct c as [[|] [|] [|] [|] [|] [|] [|] [|]]; cbn; intros H;
    reflexivity || discriminate H.
Qed.

Lemma parse_number_unsigned (c : ascii) (s : string) :
  Ascii.eqb c "-" = false ->
  parse_number (String c s) =
    let (d, r) := span_digits (String c s) in
    if no_leading_zero d && negb (starts_fraction r) then
      match NilZero.uint_of_string d with
      | Some u => Some (Z.of_int (Pos u), r)
      | None => None
      end
    else None.
Proof. intros H. unfold parse_number. rewrite H. reflexivity. Qed.

Lemma parse_number_signed (s : string) :
  parse_number (String "-" s) =
    let (d, r) := span_digits s in
    if no_leading_zero d && negb (starts_fraction r) then
      match NilZero.uint_of_string d with
      | Some u => Some (Z.of_int (Neg u), r)
      | None => None
      end
    else None.
Proof. reflexivity. Qed.

Lemma uint_of_string_of_uint (u : uint) :
  u <> Nil -> NilZero.uint_of_string (NilEmpty.string_of_uint u) = Some u.
Proof.
  intros Hn. rewrite <- (NilZero.usu u Hn).
  destruct u; try reflexivity. now destruct Hn.
Qed.

Lemma parse_number_str_int (z : Z) (r : string) :
  number_end r = true -> parse_number (str_int z ++ r) = Some (z, r).
Proof.
  intros Hr. unfold str_int.
  pose proof (to_int_norm z) as Hnorm. pose proof (DecimalZ.of_to z) as Hz.
  destruct (Z.to_int z) as [u | u]; cbn [norm] in Hnorm.
  - injection Hnorm as Hu.
    assert (Hn : u <> Nil) by (rewrite <- Hu; apply DecimalFacts.unorm_nonnil).
    cbn [NilZero.string_of_int].
    replace (NilZero.string_of_uint u) with (NilEmpty.string_of_uint u)
      by (destruct u; try reflexivity; now destruct Hn).
    destruct (first_digit u Hn) as [c [s [E Hc]]].
    pose proof (span_digits_uint u r Hr) as Hspan.
    rewrite E in Hspan |- *. cbn [append] in Hspan |- *.
    rewrite (parse_number_unsigned c (s ++ r) (is_digit_not_minus c Hc)), Hspan.
    rewrite <- E.
    rewrite (no_leading_zero_unorm u Hu), (number_end_not_fraction r Hr).
    cbn [andb negb]. rewrite (uint_of_string_of_uint u Hn), Hz. reflexivity.
  - assert (Hu : nzhead u = u /\ u <> Nil).
    { destruct (nzhead u) eqn:E; try discriminate Hnorm;
        injection Hnorm as Hu; subst u; split; congruence. }
    destruct Hu as [Hu Hn].
    assert (Hun : unorm u = u).
    { unfold unorm. rewrite Hu. destruct u; try reflexivity. now destruct Hn. }
    cbn [NilZero.string_of_int].
    replace (NilZero.string_of_uint u) with (NilEmpty.string_of_uint u)
      by (destruct u; try reflexivity; now destruct Hn).
    cbn [append]. rewrite parse_number_signed, (span_digits_uint u r Hr).
    rewrite (no_leading_zero_unorm u Hun), (number_end_not_fraction r Hr).
    cbn [andb negb]. rewrite (uint_of_string_of_uint u Hn), Hz. reflexivity.
Qed.

Lemma str_int_first (z : Z) :
  exists c s, str_int z = String c s /\ is_number_start c = true.
Proof.
  unfold str_int. pose proof (to_int_norm z) as Hnorm.
  destruct (Z.to_int z) as [u | u]; cbn [norm] in Hnorm.
  - injection Hnorm as Hu.
    assert (Hn : u <> Nil) by (rewrite <- Hu; apply DecimalFacts.unorm_nonnil).
    destruct (first_digit u Hn) as [c [s [E Hc]]].
    exists c, s. split.
    + rewrite <- E. destruct u; try reflexivity. now destruct Hn.
    + unfold is_number_start. rewrite Hc. reflexivity.
  - eexists. eexists. split; reflexivity.
Qed.

Lemma number_start_not_ws (c : ascii) :
  is_number_start c = true -> is_ws c = false.
Proof.
  destruct c as [[|] [|] [|] [|] [|] [|] [|] [|]]; cbn; intros H;
    reflexivity || discriminate H.
Qed.

(** An integer printed by [str] is read back by the parser. *)
Lemma parse_value_str_int (fuel : nat) (z : Z) (r : string) :
  number_end r = true ->
  parse_value (S fuel) (str_int z ++ r) = Some (JNum z, r).
Proof.
  intros Hr. pose proof (parse_number_str_int z r Hr) as Hp.
  destruct (str_int_first z) as [c [s [E Hc]]].
  rewrite E in Hp |- *. cbn [append] in Hp |- *.
  cbn [parse_value skip_ws]. rewrite (number_start_not_ws c Hc), Hc, Hp.
  reflexivity.
Qed.

(** *** One step of the parser at a time *)

Section ParserSteps.
Variable f : nat.

Lemma pv_ws (s : string) (x : option (json * string)) :
  parse_value f s = x -> parse_value f (String " " s) = x.
Proof. intros <-. destruct f; reflexivity. Qed.

Lemma pm_ws (s : string) (x : option (list (string * json) * string)) :
  parse_members f s = x -> parse_members f (String " " s) = x.
Proof. intros <-. destruct f; reflexivity. Qed.

Lemma pv_string (t r : string) :
  json_plain t = true ->
  parse_value (S f) (String dq_char (t ++ String dq_char r)) = Some (JStr t, r).
Proof.
  intros H. cbn [parse_value skip_ws]. 
  change (is_ws dq_char) with false. change (is_number_start dq_char) with false.
  change (Ascii.eqb dq_char dq_char) with true. cbv iota.
  rewrite (parse_string_body_plain t r H). reflexivity.
Qed.

Lemma pv_null (r : string) :
  parse_value (S f) (String "n" (String "u" (String "l" (String "l" r))))
  = Some (JNull, r).
Proof. reflexivity. Qed.

Lemma pv_false (r : string) :
  parse_value (S f)
    (String "f" (String "a" (String "l" (String "s" (String "e" r)))))
  = Some (JBool false, r).
Proof. reflexivity. Qed.

Lemma pv_None (r : string) : parse_value f (String "N" r) = None.
Proof. destruct f; reflexivity. Qed.

Lemma pv_object (r r0 : string) (ms : list (string * json)) (r' : string) :
  skip_ws r = String dq_char r0 ->
  parse_members f r = Some (ms, r') ->
  parse_value (S f) (String "{" r) = Some (JObj (dict_of_members ms), r').
Proof.
  intros Hr Hm. cbn [parse_value skip_ws].
  change (is_ws "{") with false. change (is_number_start "{") with false.
  change (Ascii.eqb "{" dq_char) with false.
  change (Ascii.eqb "{" "{") with true. cbv iota.
  rewrite Hr, Hm. reflexivity.
Qed.

Lemma pv_object_fails (r r0 : string) :
  skip_ws r = String dq_char r0 ->
  parse_members f r = None ->
  parse_value (S f) (String "{" r) = None.
Proof.
  intros Hr Hm. cbn [parse_value skip_ws].
  change (is_ws "{") with false. change (is_number_start "{") with false.
  change (Ascii.eqb "{" dq_char) with false.
  change (Ascii.eqb "{" "{") with true. cbv iota.
  rewrite Hr, Hm. reflexivity.
Qed.

Lemma pm_unfold (k r2 : string) :
  json_plain k = true ->
  parse_members (S f) (String dq_char (k ++ String dq_char (String ":" r2))) =
    match parse_value f r2 with
    | Some (v, r3) =>
        match skip_ws r3 with
        | String "," r4 =>
            match parse_members f r4 with
            | Some (ms, r5) => Some ((k, v) :: ms, r5)
            | None => None
            end
        | String "}" r4 => Some ([(k, v)], r4)
        | _ => None
        end
    | None => None
    end.
Proof.
  intros H. cbn [parse_members skip_ws].
  change (is_ws dq_char) with false.
  change (Ascii.eqb dq_char dq_char) with true. cbv iota.
  rewrite (parse_string_body_plain k _ H). reflexivity.
Qed.

Lemma pm_more (k r2 : string) (v : json) (r3 r4 : string)
  (ms : list (string * json)) (r5 : string) :
  json_plain k = true ->
  parse_value f r2 = Some (v, r3) ->
  skip_ws r3 = String "," r4 ->
  parse_members f r4 = Some (ms, r5) ->
  parse_members (S f) (String dq_char (k ++ String dq_char (String ":" r2)))
  = Some ((k, v) :: ms, r5).
Proof.
  intros Hk Hv Hs Hm. rewrite (pm_unfold k r2 Hk), Hv, Hs, Hm. reflexivity.
Qed.

Lemma pm_last (k r2 : string) (v : json) (r3 r4 : string) :
  json_plain k = true ->
  parse_value f r2 = Some (v, r3) ->
  skip_ws r3 = String "}" r4 ->
  parse_members (S f) (String dq_char (k ++ String dq_char (String ":" r2)))
  = Some ([(k, v)], r4).
Proof.
  intros Hk Hv Hs. rewrite (pm_unfold k r2 Hk), Hv, Hs. reflexivity.
Qed.

Lemma pm_value_fails (k r2 : string) :
  json_plain k = true ->
  parse_value f r2 = None ->
  parse_members (S f) (String dq_char (k ++ String dq_char (String ":" r2)))
  = None.
Proof. intros Hk Hv. rewrite (pm_unfold k r2 Hk), Hv. reflexivity. Qed.

Lemma pm_rest_fails (k r2 : string) (v : json) (r3 r4 : string) :
  json_plain k = true ->
  parse_value f r2 = Some (v, r3) ->
  skip_ws r3 = String "," r4 ->
  parse_members f r4 = None ->
  parse_members (S f) (String dq_char (k ++ String dq_char (String ":" r2)))
  = None.
Proof.
  intros Hk Hv Hs Hm. rewrite (pm_unfold k r2 Hk), Hv, Hs, Hm. reflexivity.
Qed.
End ParserSteps.


(** Tactics that follow the text: [parses] closes a goal
    [parse_value _ _ = Some _], [members] a goal [parse_members _ _ = Some _],
    [value_fails] and [members_fail] the goals with [None]. *)
Ltac parses :=
  first
    [ eapply pv_ws; parses
    | eapply pv_null
    | eapply pv_false
    | eapply pv_string; assumption
    | eapply parse_value_str_int; reflexivity
    | eapply pv_object; [reflexivity | members] ]
with members :=
  first
    [ eapply pm_ws; members
    | eapply pm_more; [reflexivity | parses | reflexivity | members]
    | eapply pm_last; [reflexivity | parses | reflexivity] ].

Ltac value_fails :=
  first
    [ eapply pv_ws; value_fails
    | eapply pv_None
    | eapply pv_object_fails; [reflexivity | members_fail] ]
with members_fail :=
  first
    [ eapply pm_ws; members_fail
    | eapply pm_value_fails; [reflexivity | value_fails]
    | eapply pm_rest_fails; [reflexivity | parses | reflexivity | members_fail] ].

Lemma json_loads_fuel (s : string) (k : nat) :
  String.length s = (20 + k)%nat ->
  json_loads s =
    match parse_value (20 + k) s with
    | Some (v, r) => match skip_ws r with
                     | EmptyString => Some v
                     | _ => None
                     end
    | None => None
    end.
Proof. intros H. unfold json_loads. rewrite H. reflexivity. Qed.

Lemma rule_json_string_long (protocol : string) (start_port end_port : option Z)
  (source_range : string) (protocol_type protocol_code : option Z) :
  exists k,
    String.length (rule_json_string protocol start_port end_port source_range
                     protocol_type protocol_code) = (20 + k)%nat.
Proof.
  unfold rule_json_string.
  match goal with
  | |- exists k, ?n = _ => assert (H : (20 <= n)%nat)
  end.
  { destruct (String.eqb protocol "1"); cbv beta iota zeta;
      unfold quoted, dq; rewrite !length_append; cbn [String.length]; lia. }
  match type of H with
  | (20 <= ?n)%nat => exists (n - 20)%nat; lia
  end.
Qed.

Ltac rule_parses :=
  match goal with
  | |- match parse_value ?n ?t with _ => _ end = _ =>
      let H := fresh "H" in
      eassert (H : parse_value n t = Some _) by parses;
      rewrite H; reflexivity
  end.

Ltac rule_fails :=
  match goal with
  | |- match parse_value ?n ?t with _ => _ end = _ =>
      let H := fresh "H" in
      assert (H : parse_value n t = None) by value_fails;
      rewrite H; reflexivity
  end.

Theorem loads_rule_json_string (protocol : string)
  (start_port end_port : option Z) (source_range : string)
  (protocol_type protocol_code : option Z) :
  json_plain protocol = true -> json_plain source_range = true ->
  json_loads (rule_json_string protocol start_port end_port source_range
                protocol_type protocol_code)
  = rule_dict protocol start_port end_port source_range protocol_type
      protocol_code.
Proof.
  intros Hp Hs.
  destruct (rule_json_string_long protocol start_port end_port source_range
              protocol_type protocol_code) as [k Hk].
  rewrite (json_loads_fuel _ k Hk). clear Hk.
  unfold rule_json_string, rule_dict.
  destruct (String.eqb protocol "1").
  - destruct protocol_type as [t |], protocol_code as [c |];
      cbv beta iota zeta; cbn [truthy_int];
      unfold quoted, str_opt_int; rewrite !append_assoc.
    + rule_parses.
    + rule_fails.
    + rule_fails.
    + rule_parses.
  - destruct start_port as [s |]; [destruct (Z.eqb s 0) eqn:Hs0 |];
      [| destruct end_port as [e |] |];
      cbv beta iota zeta; cbn [truthy_int]; rewrite ?Hs0; cbn [negb];
      unfold quoted, str_opt_int; rewrite !append_assoc.
    + rule_parses.
    + rule_parses.
    + rule_fails.
    + rule_parses.
Qed.

(* ================================================================= *)
(** ** Adding a rule *)

(** Reading the rule list sends one command and leaves the stack as it
    was, whatever comes back. *)
Lemma GetSecurityListFromId_frame (self : OciVcn) (w : World) :
  self_of (GetSecurityListFromId self w) = self
  /\ env (world_of (GetSecurityListFromId self w)) = env w
  /\ clock (world_of (GetSecurityListFromId self w)) = clock w
  /\ issued (world_of (GetSecurityListFromId self w)) =
       List.app (issued w) [security_list_get (env w) self].
Proof.
  unfold GetSecurityListFromId, IssueCommand, loads, lift, bind, get_self,
    get_env, logging, issue, ret, raise, GetEncodedCmd, security_list_get.
  cbn.
  destruct (json_loads _) as [response |]; cbn; [| repeat split].
  destruct (getitem response "data") as [data | e]; cbn; [| repeat split].
  destruct (getitem data "ingress-security-rules"); cbn; repeat split.
Qed.

Lemma AddSecurityListIngressRule_run (self : OciVcn) (w w1 : World)
  (R : list json) (rule : json) (protocol : string)
  (start_port end_port : option Z) (source_range : option string)
  (protocol_type protocol_code : option Z) :
  GetSecurityListFromId self w = (Ok (JArr R), self, w1) ->
  constructed_rule protocol start_port end_port source_range protocol_type
    protocol_code = Some rule ->
  AddSecurityListIngressRule protocol start_port end_port source_range
    protocol_type protocol_code self w =
    (Ok tt, self,
     mkWorld (env w1) (clock w1)
       (List.app (issued w1)
          [security_list_update (env w1) self (List.app R [rule])])
       (List.app (log w1)
          [Info ("Add ingress rule for ports " ++ str_opt_int start_port
                 ++ " : "
                 ++ str_opt_int (default_end_port start_port end_port))])).
Proof.
  intros Hget Hrule. unfold constructed_rule in Hrule.
  unfold AddSecurityListIngressRule.
  unfold bind at 1. rewrite Hget.
  unfold bind at 1. unfold logging at 1.
  unfold bind at 1. unfold list_of, ret at 1.
  unfold bind at 1. unfold loads. rewrite Hrule. unfold ret at 1.
  reflexivity.
Qed.

Lemma constructed_rule_dict (protocol : string) (start_port end_port : option Z)
  (source_range : option string) (protocol_type protocol_code : option Z) :
  json_plain protocol = true ->
  json_plain (default_source_range source_range) = true ->
  constructed_rule protocol start_port end_port source_range protocol_type
    protocol_code
  = rule_dict protocol start_port (default_end_port start_port end_port)
      (default_source_range source_range) protocol_type protocol_code.
Proof. intros Hp Hs. apply loads_rule_json_string; assumption. Qed.

(** The editor constructs a rule from every specification but one kind:
    ICMP with exactly one of type and code. *)
Lemma rule_dict_none_iff (protocol : string) (start_port end_port : option Z)
  (source_range : string) (protocol_type protocol_code : option Z) :
  rule_dict protocol start_port (default_end_port start_port end_port)
    source_range protocol_type protocol_code = None
  <-> String.eqb protocol "1" = true
      /\ ((protocol_type = None /\ protocol_code <> None)
          \/ (protocol_type <> None /\ protocol_code = None)).
Proof.
  unfold rule_dict. destruct (String.eqb protocol "1").
  - destruct protocol_type, protocol_code; split;
      try discriminate; try reflexivity.
    + intros [_ [[H _] | [_ H]]]; discriminate H.
    + intros _. split; [reflexivity | right; split; congruence].
    + intros _. split; [reflexivity | left; split; congruence].
    + intros [_ [[_ H] | [H _]]]; now destruct H.
  - split; [| intros [H _]; discriminate H].
    unfold default_end_port, truthy_int.
    destruct start_port as [s |]; [| discriminate].
    destruct (Z.eqb s 0) eqn:Hs; cbn [negb]; [discriminate |].
    destruct end_port as [e |]; [destruct (Z.eqb e 0) eqn:He |];
      cbn [negb]; rewrite ?Hs, ?He; cbn [negb]; rewrite ?Hs; discriminate.
Qed.



(** C5: every rule the editor constructs from a plain protocol and source
    keeps the option blocks apart: with protocol ["1"] (ICMP) the port-range
    block is null, with any other protocol the ICMP block is null; so the
    two are never both populated, and the UDP block is always null. *)
Theorem constructed_rule_options_exclusive (protocol : string)
  (start_port end_port : option Z) (source_range : option string)
  (protocol_type protocol_code : option Z) (rule : json) :
  json_plain protocol = true ->
  json_plain (default_source_range source_range) = true ->
  constructed_rule protocol start_port end_port source_range protocol_type
    protocol_code = Some rule ->
  (String.eqb protocol "1" = true -> getitem rule "tcp-options" = Ok JNull)
  /\ (String.eqb protocol "1" = false ->
      getitem rule "icmp-options" = Ok JNull)
  /\ (getitem rule "icmp-options" = Ok JNull
      \/ getitem rule "tcp-options" = Ok JNull)
  /\ getitem rule "udp-options" = Ok JNull.
Proof.
  intros Hp Hs Hrule. rewrite constructed_rule_dict in Hrule by assumption.
  unfold rule_dict in Hrule.
  destruct (String.eqb protocol "1").
  - destruct protocol_type, protocol_code; try discriminate Hrule;
      injection Hrule as <-; repeat split; try discriminate; auto.
  - destruct (truthy_int start_port).
    + destruct start_port; try discriminate Hrule.
      destruct (default_end_port _ end_port); try discriminate Hrule.
      injection Hrule as <-; repeat split; try discriminate; auto.
    + injection Hrule as <-; repeat split; try discriminate; auto.
Qed.

Lemma constructed_rule_options_exclusive_witness :
  getitem (tcp_rule 8080 8090) "icmp-options" = Ok JNull
  /\ getitem (JObj [("source", JStr "10.0.0.0/8");
                    ("icmp-options", JObj [("code", JNum 0); ("type", JNum 8)]);
                    ("protocol", JStr "1"); ("is-stateless", JBool false);
                    ("tcp-options", JNull); ("udp-options", JNull)])
       "tcp-options" = Ok JNull.
Proof.
  split.
  - exact (proj1 (proj2 (constructed_rule_options_exclusive "6" (Some 8080)
             (Some 8090) None None None (tcp_rule 8080 8090)
             eq_refl eq_refl eq_refl)) eq_refl).
  - exact (proj1 (constructed_rule_options_exclusive "1" (Some 22) None
             (Some "10.0.0.0/8") (Some 8) (Some 0) _
             eq_refl eq_refl eq_refl) eq_refl).
Defined.

(* ================================================================= *)
(** ** ICMP options *)

(** With protocol ["1"], both [type] and [code] given, the rule carries
    them; with neither, it carries the null marker.  With exactly one of
    them the text holds the word [None] and no rule is constructed. *)
Lemma constructed_rule_icmp (start_port end_port : option Z)
  (source_range : option string) (protocol_type protocol_code : option Z) :
  json_plain (default_source_range source_range) = true ->
  constructed_rule "1" start_port end_port source_range protocol_type
    protocol_code =
    match protocol_type, protocol_code with
    | Some t, Some c =>
        Some (JObj [("source", JStr (default_source_range source_range));
                    ("icmp-options", JObj [("code", JNum c); ("type", JNum t)]);
                    ("protocol", JStr "1"); ("is-stateless", JBool false);
                    ("tcp-options", JNull); ("udp-options", JNull)])
    | None, None =>
        Some (JObj [("source", JStr (default_source_range source_range));
                    ("icmp-options", JNull);
                    ("protocol", JStr "1"); ("is-stateless", JBool false);
                    ("tcp-options", JNull); ("udp-options", JNull)])
    | _, _ => None
    end.
Proof.
  intros Hs. rewrite constructed_rule_dict by (reflexivity || assumption).
  unfold rule_dict. cbn [String.eqb Ascii.eqb Bool.eqb].
  destruct protocol_type, protocol_code; reflexivity.
Qed.

(** C4 (what the code does): [AllowIcmp] with a type and no code, or a code
    and no type, reads the rule list and then fails in [json.loads] with a
    decode error: no rule is constructed and nothing is written back.  With
    both, or with neither, the rule is written. *)
Theorem AllowIcmp_single_option_raises :
  let get := ["oci"; "network"; "security-list"; "get";
              "--security-list-id ocid1.security-list"; "--profile zone-1"] in
  (result_of (AllowIcmp (Some 8) None None icmp_vm (start managed_env))
     = Raise JSONDecodeError
   /\ sent (AllowIcmp (Some 8) None None) icmp_vm (start managed_env)
      = [get])
  /\ (result_of (AllowIcmp None (Some 0) None icmp_vm (start managed_env))
        = Raise JSONDecodeError
      /\ sent (AllowIcmp None (Some 0) None) icmp_vm (start managed_env)
         = [get])
  /\ constructed_rule "1" (Some 22) None None (Some 8) None = None
  /\ constructed_rule "1" (Some 22) None None None (Some 0) = None
  /\ result_of (AllowIcmp (Some 8) (Some 0) None icmp_vm
                  (start managed_env)) = Ok tt
  /\ result_of (AllowIcmp None None None icmp_vm (start managed_env))
     = Ok tt.
Proof. vm_compute. repeat split. Qed.

(* ================================================================= *)
(** ** Ports and source of a non-ICMP rule *)

(** C10 (amended): for a plain protocol other than ["1"] and a plain source,
    the constructed rule has the source given, or [0.0.0.0/0] when the
    source is missing or empty, and the null ICMP marker; when the start
    port [p] is not 0 it carries the port range with [min = p] and [max]
    the end port, or [p] when the end port is missing or 0; a start port of
    0 is treated as no start port and the rule carries no port range. *)
Theorem constructed_rule_ports (protocol : string) (p : Z)
  (end_port : option Z) (source_range : option string)
  (protocol_type protocol_code : option Z) :
  json_plain protocol = true ->
  json_plain (default_source_range source_range) = true ->
  String.eqb protocol "1" = false ->
  constructed_rule protocol (Some p) end_port source_range protocol_type
    protocol_code =
    Some (JObj
      [("source",
        JStr (match source_range with
              | None | Some EmptyString => "0.0.0.0/0"
              | Some s => s
              end));
       ("icmp-options", JNull);
       ("protocol", JStr protocol);
       ("is-stateless", JBool false);
       ("tcp-options",
        if Z.eqb p 0 then JNull
        else port_range p (match end_port with
                           | None => p
                           | Some e => if Z.eqb e 0 then p else e
                           end));
       ("udp-options", JNull)]).
Proof.
  intros Hp Hs Hne. rewrite constructed_rule_dict by assumption.
  unfold rule_dict. rewrite Hne.
  assert (Hsrc : default_source_range source_range =
                 match source_range with
                 | None | Some EmptyString => "0.0.0.0/0"
                 | Some s => s
                 end) by (destruct source_range as [[| c s] |]; reflexivity).
  rewrite Hsrc. unfold truthy_int, default_end_port, truthy_int, port_range.
  destruct (Z.eqb p 0) eqn:Hp0; cbn [negb].
  - reflexivity.
  - destruct end_port as [e |]; [destruct (Z.eqb e 0) eqn:He0 |];
      cbn [negb]; rewrite ?Hp0, ?He0; cbn [negb]; rewrite ?Hp0; reflexivity.
Qed.

Lemma constructed_rule_ports_witness :
  constructed_rule "6" (Some 8080) None None None None
  = Some (tcp_rule 8080 8080).
Proof.
  exact (constructed_rule_ports "6" 8080 None None None None
           eq_refl eq_refl eq_refl).
Defined.

(** C10 (as stated) fails at the start port 0: the rule constructed for
    TCP with start port 0 carries no port range. *)
Lemma start_port_zero_gets_no_range :
  constructed_rule "6" (Some 0) None None None None =
    Some (JObj [("source", JStr "0.0.0.0/0"); ("icmp-options", JNull);
                ("protocol", JStr "6"); ("is-stateless", JBool false);
                ("tcp-options", JNull); ("udp-options", JNull)])
  /\ ~ (exists rule,
          constructed_rule "6" (Some 0) None None None None = Some rule
          /\ getitem rule "tcp-options" = Ok (port_range 0 0)).
Proof.
  assert (E : constructed_rule "6" (Some 0) None None None None =
    Some (JObj [("source", JStr "0.0.0.0/0"); ("icmp-options", JNull);
                ("protocol", JStr "6"); ("is-stateless", JBool false);
                ("tcp-options", JNull); ("udp-options", JNull)]))
    by (vm_compute; reflexivity).
  split; [exact E |].
  intros [rule [Hr Ht]]. rewrite E in Hr. injection Hr as <-.
  cbn in Ht. discriminate Ht.
Qed.

(* ================================================================= *)
(** * Further properties of the code *)

(* ================================================================= *)
(** ** What a method leaves unchanged *)

Section Preserves.
Context {S X : Type} (f : S -> X).

Lemma preserves_still {A : Type} (m : M S A) :
  (forall self w, self_of (m self w) = self) -> preserves f m.
Proof. intros H self w. rewrite H. reflexivity. Qed.

Lemma preserves_ret {A : Type} (a : A) : preserves f (@ret S A a).
Proof. apply preserves_still; reflexivity. Qed.

Lemma preserves_raise {A : Type} (e : exn) : preserves f (@raise S A e).
Proof. apply preserves_still; reflexivity. Qed.

Lemma preserves_lift {A : Type} (r : Result A) : preserves f (@lift S A r).
Proof. apply preserves_still; reflexivity. Qed.

Lemma preserves_get_self : preserves f (@get_self S).
Proof. apply preserves_still; reflexivity. Qed.

Lemma preserves_get_env : preserves f (@get_env S).
Proof. apply preserves_still; reflexivity. Qed.

Lemma preserves_logging (r : LogRecord) : preserves f (@logging S r).
Proof. apply preserves_still; reflexivity. Qed.

Lemma preserves_issue (cmd : Cmd) : preserves f (@issue S cmd).
Proof. apply preserves_still; reflexivity. Qed.

Lemma preserves_loads (out : string) : preserves f (@loads S out).
Proof.
  apply preserves_still; intros; unfold loads.
  destruct (json_loads out); reflexivity.
Qed.

Lemma preserves_assert (b : bool) : preserves f (@assert_ S b).
Proof. apply preserves_still; intros; destruct b; reflexivity. Qed.

Lemma preserves_list_of (x : json) : preserves f (@list_of S x).
Proof. apply preserves_still; intros; destruct x; reflexivity. Qed.

Lemma preserves_modify (g : S -> S) :
  (forall s, f (g s) = f s) -> preserves f (modify g).
Proof. intros H self w. apply H. Qed.

Lemma preserves_bind {A B : Type} (m : M S A) (k : A -> M S B) :
  preserves f m -> (forall a, preserves f (k a)) -> preserves f (bind m k).
Proof.
  intros Hm Hk self w. unfold bind. specialize (Hm self w).
  destruct (m self w) as [[[a | e] self'] w']; cbn in Hm.
  - rewrite Hk. exact Hm.
  - exact Hm.
Qed.

Lemma preserves_if {A : Type} (b : bool) (m1 m2 : M S A) :
  preserves f m1 -> preserves f m2 -> preserves f (if b then m1 else m2).
Proof. destruct b; auto. Qed.

Lemma preserves_retry_loop {A : Type} (m : M S A) (fuel : nat) (p d : Z) :
  preserves f m -> preserves f (retry_loop fuel p d m).
Proof.
  intros Hm. induction fuel as [| fuel IH]; intros self w; cbn;
    specialize (Hm self w);
    destruct (m self w) as [[[a | e] self'] w']; cbn in Hm; try exact Hm.
  destruct (clock w' + p >=? d)%Z; [exact Hm |]. rewrite IH. exact Hm.
Qed.

Lemma preserves_Retry {A : Type} (m : M S A) (p t : Z) :
  preserves f m -> preserves f (Retry p t m).
Proof. intros Hm self w. unfold Retry. apply preserves_retry_loop, Hm. Qed.

Lemma preserves_IssueCommand (cmd : Cmd) (b : bool) :
  preserves f (@IssueCommand S cmd b).
Proof.
  unfold IssueCommand. apply preserves_bind; [apply preserves_issue | intros r].
  apply preserves_if; [apply preserves_raise | apply preserves_ret].
Qed.

Lemma preserves_IssueRetryableCommand (cmd : Cmd) :
  preserves f (@IssueRetryableCommand S cmd).
Proof.
  unfold IssueRetryableCommand.
  apply preserves_bind; [apply preserves_get_env | intros e].
  apply preserves_Retry, preserves_IssueCommand.
Qed.
End Preserves.

Ltac preserves_step :=
  first
    [ apply preserves_bind; [| intros ?]
    | apply preserves_ret | apply preserves_raise | apply preserves_lift
    | apply preserves_get_self | apply preserves_get_env
    | apply preserves_logging | apply preserves_loads
    | apply preserves_assert | apply preserves_list_of
    | apply preserves_IssueCommand | apply preserves_IssueRetryableCommand
    | apply preserves_Retry | apply preserves_if
    | apply preserves_modify; intros []; reflexivity ].

Ltac preserves_auto := cbv zeta; repeat preserves_step.

Lemma sends_of_sends_in {S A : Type} (P : Env -> Cmd -> Prop) (m : M S A) :
  (forall e, sends_in e P m) -> sends P m.
Proof. intros H self w. apply (H (env w) self w eq_refl). Qed.

(* ================================================================= *)
(** ** What a method sends *)

Section Sends.
Context {S : Type} (e : Env) (P : Env -> Cmd -> Prop).

Lemma sends_quiet {A : Type} (m : M S A) :
  (forall self w, env (world_of (m self w)) = env w
                  /\ issued (world_of (m self w)) = issued w) ->
  sends_in e P m.
Proof.
  intros H self w Hw. destruct (H self w) as [He Hi]. split; [congruence |].
  exists []. rewrite Hi, List.app_nil_r. split; constructor.
Qed.

Lemma sends_ret {A : Type} (a : A) : sends_in e P (@ret S A a).
Proof. apply sends_quiet; split; reflexivity. Qed.

Lemma sends_raise {A : Type} (x : exn) : sends_in e P (@raise S A x).
Proof. apply sends_quiet; split; reflexivity. Qed.

Lemma sends_lift {A : Type} (r : Result A) : sends_in e P (@lift S A r).
Proof. apply sends_quiet; split; reflexivity. Qed.

Lemma sends_get_self : sends_in e P (@get_self S).
Proof. apply sends_quiet; split; reflexivity. Qed.

Lemma sends_modify (g : S -> S) : sends_in e P (modify g).
Proof. apply sends_quiet; split; reflexivity. Qed.

Lemma sends_logging (r : LogRecord) : sends_in e P (@logging S r).
Proof. apply sends_quiet; split; reflexivity. Qed.

Lemma sends_loads (out : string) : sends_in e P (@loads S out).
Proof.
  apply sends_quiet; intros; unfold loads.
  destruct (json_loads out); split; reflexivity.
Qed.

Lemma sends_assert (b : bool) : sends_in e P (@assert_ S b).
Proof. apply sends_quiet; intros; destruct b; split; reflexivity. Qed.

Lemma sends_list_of (x : json) : sends_in e P (@list_of S x).
Proof. apply sends_quiet; intros; destruct x; split; reflexivity. Qed.

Lemma sends_issue (cmd : Cmd) : P e cmd -> sends_in e P (@issue S cmd).
Proof.
  intros H self w Hw. split; [exact Hw |]. exists [cmd].
  split; [reflexivity | repeat constructor; exact H].
Qed.

Lemma sends_bind {A B : Type} (m : M S A) (k : A -> M S B) :
  sends_in e P m -> (forall a, sends_in e P (k a)) -> sends_in e P (bind m k).
Proof.
  intros Hm Hk self w Hw. unfold bind.
  destruct (Hm self w Hw) as [He1 [l1 [E1 F1]]].
  destruct (m self w) as [[[a | x] self'] w']; cbn in He1, E1.
  - destruct (Hk a self' w' He1) as [He2 [l2 [E2 F2]]].
    split; [exact He2 |].
    exists (List.app l1 l2). rewrite E2, E1, List.app_assoc.
    split; [reflexivity | apply Forall_app; split; assumption].
  - split; [exact He1 |]. exists l1. split; assumption.
Qed.

(** [get_env] hands the continuation the environment itself. *)
Lemma sends_get_env {B : Type} (k : Env -> M S B) :
  sends_in e P (k e) -> sends_in e P (bind get_env k).
Proof.
  intros H self w Hw. unfold bind, get_env. rewrite Hw. apply H. exact Hw.
Qed.

Lemma sends_if {A : Type} (b : bool) (m1 m2 : M S A) :
  sends_in e P m1 -> sends_in e P m2 -> sends_in e P (if b then m1 else m2).
Proof. destruct b; auto. Qed.

Lemma sends_retry_loop {A : Type} (m : M S A) (fuel : nat) (p d : Z) :
  sends_in e P m -> sends_in e P (retry_loop fuel p d m).
Proof.
  intros Hm. induction fuel as [| fuel IH]; intros self w Hw; cbn.
  - destruct (Hm self w Hw) as [He [l [E F]]].
    destruct (m self w) as [[[a | x] self'] w'];
      (split; [exact He | exists l; split; assumption]).
  - destruct (Hm self w Hw) as [He [l [E F]]].
    destruct (m self w) as [[[a | x] self'] w']; cbn in He, E.
    + split; [exact He | exists l; split; assumption].
    + destruct (clock w' + p >=? d)%Z.
      * split; [exact He | exists l; split; assumption].
      * destruct (IH self' (sleep p w') He) as [He2 [l2 [E2 F2]]].
        cbn in E2. split; [exact He2 |].
        exists (List.app l l2). rewrite E2, E, List.app_assoc.
        split; [reflexivity | apply Forall_app; split; assumption].
Qed.

Lemma sends_Retry {A : Type} (m : M S A) (p t : Z) :
  sends_in e P m -> sends_in e P (Retry p t m).
Proof. intros Hm self w. unfold Retry. apply sends_retry_loop, Hm. Qed.

Lemma sends_IssueCommand (cmd : Cmd) (b : bool) :
  P e cmd -> sends_in e P (@IssueCommand S cmd b).
Proof.
  intros H. unfold IssueCommand.
  apply sends_bind; [apply sends_issue, H | intros r].
  apply sends_if; [apply sends_raise | apply sends_ret].
Qed.

Lemma sends_IssueRetryableCommand (cmd : Cmd) :
  P e cmd -> sends_in e P (@IssueRetryableCommand S cmd).
Proof.
  intros H. unfold IssueRetryableCommand. apply sends_get_env.
  apply sends_Retry, sends_IssueCommand, H.
Qed.
End Sends.

Lemma sends_on_vcn {A : Type} (e : Env) (P : Env -> Cmd -> Prop)
  (method : string) (m : M OciVcn A) :
  sends_in e P m -> sends_in e P (on_vcn method m).
Proof.
  intros Hm self w Hw. unfold on_vcn.
  destruct (vcn self) as [| | v].
  - split; [exact Hw |]. exists []. cbn. rewrite List.app_nil_r.
    split; constructor.
  - split; [exact Hw |]. exists []. cbn. rewrite List.app_nil_r.
    split; constructor.
  - destruct (Hm v w Hw) as [He [l [E F]]].
    destruct (m v w) as [[r v'] w']. split; [exact He |].
    exists l. split; assumption.
Qed.

Lemma sends_on_network {A : Type} (e : Env) (P : Env -> Cmd -> Prop)
  (m : M OciNetwork A) : sends_in e P m -> sends_in e P (on_network m).
Proof.
  intros Hm vm w Hw. unfold on_network.
  destruct (Hm (network vm) w Hw) as [He [l [E F]]].
  destruct (m (network vm) w) as [[r n'] w']. split; [exact He |].
  exists l. split; assumption.
Qed.

Lemma among_intro (allowed : list (string * string)) (e : Env)
  (resource operation : string) (args : list string) :
  In (resource, operation) allowed ->
  among allowed e
    (List.app (OCI_PREFIX e) ("network" :: resource :: operation :: args)).
Proof. intros H. exists resource, operation, args. split; [reflexivity | exact H]. Qed.

Ltac in_list := solve [cbn; repeat first [left; reflexivity | right]].

Ltac sends_step :=
  first
    [ apply sends_IssueCommand; apply among_intro; in_list
    | apply sends_IssueRetryableCommand; apply among_intro; in_list
    | apply sends_get_env
    | apply sends_bind; [| intros ?]
    | apply sends_ret | apply sends_raise | apply sends_lift
    | apply sends_get_self | apply sends_modify | apply sends_logging
    | apply sends_loads | apply sends_assert | apply sends_list_of
    | apply sends_Retry | apply sends_on_vcn | apply sends_on_network
    | apply sends_if ].

Ltac sends_auto := cbv zeta; unfold GetEncodedCmd; repeat sends_step.

Lemma sends_Create_body (e : Env) : sends_in e (among create_commands) Create_body.
Proof.
  unfold Create_body, create_commands.
  apply sends_bind; [apply sends_get_self | intros self].
  apply sends_if.
  - unfold OciVcn_Create, _Create, WaitForVcnStatus, WaitForSubnetStatus,
      WaitForInternetGatewayStatus, WaitForRouteTableStatus,
      WaitForSecurityListStatus, wait_body, GetDefaultRouteTableId,
      GetDefaultSecurityListId, CreateSubnet, CreateInternetGateway,
      UpdateRouteTable, assign_network_id, AddSecurityListIngressRule,
      GetSecurityListFromId.
    sends_auto.
  - unfold GetVcnIDFromName, GetSubnetIdFromVCNId, assign_network_id.
    sends_auto.
Qed.

(* ================================================================= *)
(** ** What the waits guarantee *)

Lemma preserves_wait_body (resource id_flag : string)
  (the_id : OciVcn -> json) (sl : list string) :
  preserves but_status (wait_body resource id_flag the_id sl).
Proof. unfold wait_body, GetEncodedCmd. preserves_auto. Qed.

Lemma wait_body_member (resource id_flag : string) (the_id : OciVcn -> json)
  (sl : list string) :
  ensures (fun v => state_in (status v) sl = true)
    (wait_body resource id_flag the_id sl).
Proof.
  intros self w a.
  destruct (wait_body resource id_flag the_id sl self w) as [[r s'] w'] eqn:E.
  cbn [result_of self_of fst snd]. intros ->. revert E.
  unfold wait_body, bind, logging, get_self, get_env, loads, lift, modify,
    assert_, ret, raise.
  destruct (IssueRetryableCommand _ _ _) as [[[out | e] self1] w1];
    [| discriminate].
  destruct (json_loads out) as [state |]; [| discriminate].
  destruct (getitem state "data") as [data | e]; [| discriminate].
  destruct (getitem data "lifecycle-state") as [cs | e]; [| discriminate].
  destruct (state_in cs sl) eqn:Hin; [| discriminate].
  intros E. inversion E; subst. cbn. exact Hin.
Qed.

Lemma ensures_retry_loop {S A : Type} (Q : S -> Prop) (m : M S A)
  (fuel : nat) (p d : Z) :
  ensures Q m -> ensures Q (retry_loop fuel p d m).
Proof.
  intros Hm. induction fuel as [| fuel IH]; intros self w a; cbn;
    specialize (Hm self w);
    destruct (m self w) as [[[a' | e] self'] w']; cbn in Hm |- *;
    try (intros H; apply (Hm a'); reflexivity); try discriminate.
  destruct (clock w' + p >=? d)%Z; [discriminate |]. apply IH.
Qed.

Lemma ensures_Retry {S A : Type} (Q : S -> Prop) (m : M S A) (p t : Z) :
  ensures Q m -> ensures Q (Retry p t m).
Proof. intros Hm self w. unfold Retry. apply ensures_retry_loop, Hm. Qed.

(** X1: whichever of the five waits returns normally, the state it has
    cached in [status] is a member of the expected list it was given: a
    wait never returns on a state outside the list, decorated or not. *)
Theorem wait_returns_only_on_member :
  Forall (fun wait : list string -> M OciVcn unit =>
            forall (sl : list string) (self : OciVcn) (w : World),
              result_of (wait sl self w) = Ok tt ->
              state_in (status (self_of (wait sl self w))) sl = true)
    all_waits.
Proof.
  unfold all_waits, WaitForVcnStatus, WaitForSubnetStatus,
    WaitForInternetGatewayStatus, WaitForRouteTableStatus,
    WaitForSecurityListStatus.
  repeat constructor; intros sl self w H;
    first [ eapply (ensures_Retry _ _ _ _ (wait_body_member _ _ _ sl)); exact H
          | eapply (wait_body_member _ _ _ sl); exact H ].
Qed.

Lemma wait_returns_only_on_member_witness :
  state_in
    (status (self_of (WaitForVcnStatus ["AVAILABLE"] (test_vcn managed_env)
                        (start managed_env))))
    ["AVAILABLE"] = true.
Proof.
  apply (Forall_inv wait_returns_only_on_member ["AVAILABLE"]
           (test_vcn managed_env) (start managed_env)).
  vm_compute. reflexivity.
Defined.

(** X2: a wait changes no field of the stack object but the cached
    [status], whether it returns or raises and however often it is
    retried. *)
Theorem waits_change_only_status :
  Forall (fun wait : list string -> M OciVcn unit =>
            forall (sl : list string) (self : OciVcn) (w : World),
              but_status (self_of (wait sl self w)) = but_status self)
    all_waits.
Proof.
  unfold all_waits, WaitForVcnStatus, WaitForSubnetStatus,
    WaitForInternetGatewayStatus, WaitForRouteTableStatus,
    WaitForSecurityListStatus.
  repeat constructor; intros sl self w;
    first [ apply preserves_Retry, preserves_wait_body
          | apply preserves_wait_body ].
Qed.

(* ================================================================= *)
(** ** Which fields a method may change *)

(** X3: reading the rule list, adding a rule, updating and clearing the
    route table, and the three deletions leave every field of the stack
    object as it was, whether they return or raise: none of them records
    what it did. *)
Theorem readers_and_writers_keep_the_stack :
  preserves unchanged GetSecurityListFromId
  /\ (forall protocol start_port end_port source_range protocol_type
             protocol_code,
        preserves unchanged
          (AddSecurityListIngressRule protocol start_port end_port
             source_range protocol_type protocol_code))
  /\ preserves unchanged UpdateRouteTable
  /\ preserves unchanged ClearRouteTable
  /\ preserves unchanged DeleteInternetGateway
  /\ preserves unchanged DeleteSubnet
  /\ preserves unchanged _Delete.
Proof.
  unfold AddSecurityListIngressRule, GetSecurityListFromId, UpdateRouteTable,
    ClearRouteTable, DeleteInternetGateway, DeleteSubnet, _Delete,
    GetEncodedCmd.
  repeat split; intros; preserves_auto.
Qed.

(** X4: each method that populates an identifier changes that field and
    no other, whether it returns or raises: [_Create] the [vcn_id] and the
    [cidr_block], the two lookups the [vcn_id] and the [subnet_id],
    [CreateSubnet] the [subnet_id], [CreateInternetGateway] the [ig_id],
    and the two default lookups the [rt_id] and the [security_list_id]. *)
Theorem populating_methods_change_their_field_only :
  preserves but_vcn_id_and_cidr_block _Create
  /\ preserves but_vcn_id GetVcnIDFromName
  /\ preserves but_subnet_id GetSubnetIdFromVCNId
  /\ preserves but_subnet_id CreateSubnet
  /\ preserves but_ig_id CreateInternetGateway
  /\ preserves but_rt_id GetDefaultRouteTableId
  /\ preserves but_security_list_id GetDefaultSecurityListId.
Proof.
  unfold _Create, GetVcnIDFromName, GetSubnetIdFromVCNId, CreateSubnet,
    CreateInternetGateway, GetDefaultRouteTableId, GetDefaultSecurityListId,
    GetEncodedCmd.
  repeat split; preserves_auto.
Qed.

(* ================================================================= *)
(** ** Answers of the control plane *)

Lemma sent_one {S A : Type} (m : M S A) (self : S) (w : World) (cmd : Cmd) :
  issued (world_of (m self w)) = List.app (issued w) [cmd] ->
  sent m self w = [cmd].
Proof.
  intros H. unfold sent. rewrite H, skipn_app, skipn_all, Nat.sub_diag.
  reflexivity.
Qed.

(** X5: when the answer to the create command carries an identifier,
    [_Create] sends that one command and stores the identifier; when the
    answer carries no [cidr-block], the call raises with the identifier
    already stored and [cidr_block] as it was. *)
Theorem vcn_Create_stores_id_before_cidr_block (self : OciVcn) (w : World)
  (data the_id : json) :
  data_of (stdout (answer_to (vcn_create_command (env w) self) w)) = Ok data ->
  getitem data "id" = Ok the_id ->
  sent _Create self w = [vcn_create_command (env w) self]
  /\ vcn_id (self_of (_Create self w)) = the_id
  /\ match getitem data "cidr-block" with
     | Ok block =>
         result_of (_Create self w) = Ok tt
         /\ cidr_block (self_of (_Create self w)) = block
     | Raise e =>
         result_of (_Create self w) = Raise e
         /\ cidr_block (self_of (_Create self w)) = cidr_block self
     end.
Proof.
  unfold data_of, answer_to, vcn_create_command. intros Hdata Hid.
  destruct (json_loads _) as [response |] eqn:Hloads; [| discriminate Hdata].
  assert (E : _Create self w =
    (match getitem data "cidr-block" with
     | Ok _ => Ok tt
     | Raise e => Raise e
     end,
     match getitem data "cidr-block" with
     | Ok block => set_cidr_block block (set_vcn_id the_id self)
     | Raise _ => set_vcn_id the_id self
     end,
     mkWorld (env w) (clock w)
       (List.app (issued w) [vcn_create_command (env w) self])
       (List.app (List.app (log w) [Info "Creating custom CIDR Block"])
          [InfoCmd (vcn_create_command (env w) self)]))).
  { unfold _Create, IssueCommand, GetEncodedCmd, loads, lift, modify, bind,
      get_self, get_env, logging, issue, ret, raise, vcn_create_command.
    cbn [env clock issued log andb]. rewrite Hloads, Hdata, Hid.
    destruct (getitem data "cidr-block"); reflexivity. }
  split; [apply sent_one; rewrite E; reflexivity |].
  rewrite E. destruct (getitem data "cidr-block"); cbn; repeat split.
Qed.

Lemma vcn_Create_stores_id_before_cidr_block_witness :
  sent _Create (test_vcn managed_env) (start managed_env)
  = [vcn_create_command managed_env (test_vcn managed_env)]
  /\ vcn_id (self_of (_Create (test_vcn managed_env) (start managed_env)))
     = JStr "ocid1.vcn"
  /\ result_of (_Create (test_vcn managed_env) (start managed_env)) = Ok tt
  /\ cidr_block (self_of (_Create (test_vcn managed_env) (start managed_env)))
     = JStr "172.16.0.0/16".
Proof.
  apply (vcn_Create_stores_id_before_cidr_block (test_vcn managed_env)
           (start managed_env)
           (JObj [("id", JStr "ocid1.vcn");
                  ("lifecycle-state", JStr "PROVISIONING");
                  ("cidr-block", JStr "172.16.0.0/16")])
           (JStr "ocid1.vcn")).
  - vm_compute. reflexivity.
  - reflexivity.
Defined.

Lemma GetVcnIDFromName_run (self : OciVcn) (w : World) (found : json) :
  data_of (stdout (answer_to (vcn_list_command (env w) self) w)) = Ok found ->
  GetVcnIDFromName self w =
    (match first_id found with Ok _ => Ok tt | Raise e => Raise e end,
     match first_id found with
     | Ok the_id => set_vcn_id the_id self
     | Raise _ => self
     end,
     mkWorld (env w) (clock w)
       (List.app (issued w) [vcn_list_command (env w) self])
       (List.app (List.app (log w) [InfoCmd (vcn_list_command (env w) self)])
          match first_id found with
          | Ok the_id => [InfoValue the_id]
          | Raise _ => []
          end)).
Proof.
  unfold data_of, answer_to, vcn_list_command, first_id. intros Hdata.
  destruct (json_loads _) as [response |] eqn:Hloads; [| discriminate Hdata].
  unfold GetVcnIDFromName, IssueCommand, GetEncodedCmd, loads, lift, modify,
    bind, get_self, get_env, logging, issue, ret, raise.
  cbn [env clock issued log andb]. rewrite Hloads, Hdata.
  destruct (getitem0 found) as [first | e]; [| rewrite List.app_nil_r; reflexivity].
  destruct (getitem first "id"); [reflexivity |].
  rewrite List.app_nil_r; reflexivity.
Qed.

Lemma GetSubnetIdFromVCNId_run (self : OciVcn) (w : World) (found : json) :
  data_of (stdout (answer_to (subnet_list_command (env w) self) w)) = Ok found ->
  GetSubnetIdFromVCNId self w =
    (match first_id found with Ok _ => Ok tt | Raise e => Raise e end,
     match first_id found with
     | Ok the_id => set_subnet_id the_id self
     | Raise _ => self
     end,
     mkWorld (env w) (clock w)
       (List.app (issued w) [subnet_list_command (env w) self])
       (List.app (log w) [InfoCmd (subnet_list_command (env w) self)])).
Proof.
  unfold data_of, answer_to, subnet_list_command, first_id. intros Hdata.
  destruct (json_loads _) as [response |] eqn:Hloads; [| discriminate Hdata].
  unfold GetSubnetIdFromVCNId, IssueCommand, GetEncodedCmd, loads, lift,
    modify, bind, get_self, get_env, logging, issue, ret, raise.
  cbn [env clock issued log andb]. rewrite Hloads, Hdata.
  destruct (getitem0 found) as [first | e]; [| reflexivity].
  destruct (getitem first "id"); reflexivity.
Qed.

(** X6: the two lookups take the first entry of the list the control
    plane answers with, whatever follows it; on an empty list they raise
    [IndexError] and leave the stack as it was. *)
Theorem lookups_take_the_first_match (self : OciVcn) (w : World)
  (found : list json) :
  (data_of (stdout (answer_to (vcn_list_command (env w) self) w))
     = Ok (JArr found) ->
   match found with
   | [] =>
       result_of (GetVcnIDFromName self w) = Raise IndexError
       /\ self_of (GetVcnIDFromName self w) = self
   | first :: others =>
       forall the_id, getitem first "id" = Ok the_id ->
         result_of (GetVcnIDFromName self w) = Ok tt
         /\ self_of (GetVcnIDFromName self w) = set_vcn_id the_id self
   end)
  /\ (data_of (stdout (answer_to (subnet_list_command (env w) self) w))
        = Ok (JArr found) ->
      match found with
      | [] =>
          result_of (GetSubnetIdFromVCNId self w) = Raise IndexError
          /\ self_of (GetSubnetIdFromVCNId self w) = self
      | first :: others =>
          forall the_id, getitem first "id" = Ok the_id ->
            result_of (GetSubnetIdFromVCNId self w) = Ok tt
            /\ self_of (GetSubnetIdFromVCNId self w) = set_subnet_id the_id self
      end).
Proof.
  split; intros Hdata.
  - rewrite (GetVcnIDFromName_run self w _ Hdata).
    destruct found as [| first others]; [split; reflexivity |].
    intros the_id Hid. unfold first_id. cbn [getitem0]. rewrite Hid.
    split; reflexivity.
  - rewrite (GetSubnetIdFromVCNId_run self w _ Hdata).
    destruct found as [| first others]; [split; reflexivity |].
    intros the_id Hid. unfold first_id. cbn [getitem0]. rewrite Hid.
    split; reflexivity.
Qed.

Lemma lookups_take_the_first_match_witness :
  (result_of (GetVcnIDFromName (test_vcn managed_env) (start managed_env))
   = Ok tt
   /\ self_of (GetVcnIDFromName (test_vcn managed_env) (start managed_env))
      = set_vcn_id (JStr "ocid1.vcn") (test_vcn managed_env))
  /\ (result_of (GetSubnetIdFromVCNId (test_vcn managed_env)
                   (start managed_env)) = Ok tt
      /\ self_of (GetSubnetIdFromVCNId (test_vcn managed_env)
                    (start managed_env))
         = set_subnet_id (JStr "ocid1.subnet") (test_vcn managed_env)).
Proof.
  split.
  - apply (proj1 (lookups_take_the_first_match (test_vcn managed_env)
                    (start managed_env) [JObj [("id", JStr "ocid1.vcn")]])).
    + vm_compute. reflexivity.
    + reflexivity.
  - apply (proj2 (lookups_take_the_first_match (test_vcn managed_env)
                    (start managed_env) [JObj [("id", JStr "ocid1.subnet")]])).
    + vm_compute. reflexivity.
    + reflexivity.
Defined.




(* ================================================================= *)
(** ** A failed addition writes nothing *)


(* ================================================================= *)
(** ** What Create establishes *)

Section Hoare.
Context {S : Type}.

Lemma hoare_bind {A B : Type} (P Q R : S -> Prop) (m : M S A)
  (k : A -> M S B) :
  hoare P m Q -> (forall a, hoare Q (k a) R) -> hoare P (bind m k) R.
Proof.
  intros Hm Hk self w b HP. unfold bind. specialize (Hm self w).
  destruct (m self w) as [[[a | e] self'] w']; cbn in Hm |- *.
  - intros H. apply (Hk a self' w' b); [apply (Hm a HP); reflexivity | exact H].
  - discriminate.
Qed.

Lemma hoare_anything {A : Type} (P : S -> Prop) (m : M S A) :
  hoare P m (fun _ => True).
Proof. intros self w a _ _. exact I. Qed.

Lemma hoare_weaken {A : Type} (P Q R : S -> Prop) (m : M S A) :
  hoare P m Q -> (forall s, Q s -> R s) -> hoare P m R.
Proof. intros H HQ self w a HP Hr. apply HQ. apply (H self w a HP Hr). Qed.

Lemma ensures_of_hoare {A : Type} (Q : S -> Prop) (m : M S A) :
  hoare (fun _ => True) m Q -> ensures Q m.
Proof. intros H self w a Hr. apply (H self w a I Hr). Qed.
End Hoare.

Lemma hoare_assign_network_id :
  hoare (fun _ => True) assign_network_id attached_to_subnet.
Proof.
  intros self w a _. unfold assign_network_id, on_vcn, bind, get_self, ret,
    modify, attached_to_subnet.
  destruct (vcn self) as [| | v] eqn:Hv; cbn; try discriminate.
  intros _. exists v. destruct self; cbn in *. subst. split; reflexivity.
Qed.

Lemma hoare_on_vcn_attached {A : Type} (method : string) (m : M OciVcn A) :
  preserves subnet_id m ->
  hoare attached_to_subnet (on_vcn method m) attached_to_subnet.
Proof.
  intros Hm self w a [v [Hv Hn]]. unfold on_vcn. rewrite Hv.
  specialize (Hm v w). destruct (m v w) as [[r v'] w']. cbn in Hm |- *.
  intros _. exists v'. destruct self; cbn in *. split; [reflexivity | congruence].
Qed.

Lemma hoare_WaitForSecurityListStatus_available (method : string) :
  hoare attached_to_subnet
    (on_vcn method (WaitForSecurityListStatus ["AVAILABLE"]))
    (fun n => attached_to_subnet n /\ stack_available n).
Proof.
  intros self w a [v [Hv Hn]]. unfold on_vcn, WaitForSecurityListStatus.
  rewrite Hv.
  pose proof (wait_body_member "security-list" "--security-list-id"
                security_list_id ["AVAILABLE"] v w) as Hmem.
  pose proof (preserves_wait_body "security-list" "--security-list-id"
                security_list_id ["AVAILABLE"] v w) as Hfr.
  destruct (wait_body _ _ _ _ v w) as [[r v'] w']. cbn in Hmem, Hfr |- *.
  intros Hr. specialize (Hmem a Hr). split.
  - exists v'. destruct self; cbn in *. split; [reflexivity |].
    rewrite Hn. unfold but_status in Hfr.
    apply (f_equal subnet_id) in Hfr. destruct v, v'; cbn in *. congruence.
  - exists v'. destruct self; cbn in *. split; [reflexivity |].
    unfold state_in in Hmem. destruct (status v'); try discriminate.
    cbn in Hmem. rewrite orb_false_r in Hmem.
    apply String.eqb_eq in Hmem. congruence.
Qed.

Lemma preserves_on_vcn_outside {A X : Type} (f : OciNetwork -> X)
  (method : string) (m : M OciVcn A) :
  (forall x n, f (set_vcn x n) = f n) -> preserves f (on_vcn method m).
Proof.
  intros Hf self w. unfold on_vcn. destruct (vcn self) as [| | v];
    try reflexivity.
  destruct (m v w) as [[r v'] w']. cbn. apply Hf.
Qed.

Lemma preserves_fixed_Create_body : preserves fixed_attributes Create_body.
Proof.
  unfold Create_body, assign_network_id.
  repeat first [ apply preserves_on_vcn_outside; intros ? []; reflexivity
               | preserves_step ].
Qed.

Lemma preserves_subnet_id_AddSecurityListIngressRule
  (protocol : string) (start_port end_port : option Z)
  (source_range : option string) (protocol_type protocol_code : option Z) :
  preserves subnet_id
    (AddSecurityListIngressRule protocol start_port end_port source_range
       protocol_type protocol_code).
Proof.
  unfold AddSecurityListIngressRule, GetSecurityListFromId, GetEncodedCmd.
  preserves_auto.
Qed.

Lemma preserves_subnet_id_wait_body (resource id_flag : string)
  (the_id : OciVcn -> json) (sl : list string) :
  preserves subnet_id (wait_body resource id_flag the_id sl).
Proof. unfold wait_body, GetEncodedCmd. preserves_auto. Qed.

Lemma hoare_managed_sequence (n : OciNetwork) :
  use_vcn n = true ->
  forall w a,
    result_of (Create_body n w) = Ok a ->
    attached_to_subnet (self_of (Create_body n w))
    /\ stack_available (self_of (Create_body n w)).
Proof.
  intros Hu w a.
  assert (E : Create_body n w =
    (on_vcn "Create" OciVcn_Create ;;;
     on_vcn "WaitForVcnStatus" (WaitForVcnStatus ["AVAILABLE"]) ;;;
     on_vcn "GetDefaultRouteTableId" GetDefaultRouteTableId ;;;
     on_vcn "GetDefaultSecurityListId" GetDefaultSecurityListId ;;;
     on_vcn "CreateSubnet" CreateSubnet ;;;
     on_vcn "WaitForSubnetStatus" (WaitForSubnetStatus ["AVAILABLE"]) ;;;
     assign_network_id ;;;
     on_vcn "CreateInternetGateway" CreateInternetGateway ;;;
     on_vcn "WaitForInternetGatewayStatus"
       (WaitForInternetGatewayStatus ["AVAILABLE"]) ;;;
     on_vcn "UpdateRouteTable" UpdateRouteTable ;;;
     on_vcn "WaitForRouteTableStatus" (WaitForRouteTableStatus ["AVAILABLE"]) ;;;
     on_vcn "AddSecurityListIngressRule"
       (AddSecurityListIngressRule "6" (Some 22) None None None None) ;;;
     on_vcn "WaitForSecurityListStatus"
       (WaitForSecurityListStatus ["AVAILABLE"]) ;;;
     on_vcn "AddSecurityListIngressRule"
       (AddSecurityListIngressRule "1" (Some 22) None None None None) ;;;
     on_vcn "WaitForSecurityListStatus"
       (WaitForSecurityListStatus ["AVAILABLE"])) n w).
  { unfold Create_body at 1, bind at 1, get_self at 1. rewrite Hu. reflexivity. }
  rewrite E. clear E. revert n Hu w a.
  assert (H : hoare (fun _ : OciNetwork => True)
    (on_vcn "Create" OciVcn_Create ;;;
     on_vcn "WaitForVcnStatus" (WaitForVcnStatus ["AVAILABLE"]) ;;;
     on_vcn "GetDefaultRouteTableId" GetDefaultRouteTableId ;;;
     on_vcn "GetDefaultSecurityListId" GetDefaultSecurityListId ;;;
     on_vcn "CreateSubnet" CreateSubnet ;;;
     on_vcn "WaitForSubnetStatus" (WaitForSubnetStatus ["AVAILABLE"]) ;;;
     assign_network_id ;;;
     on_vcn "CreateInternetGateway" CreateInternetGateway ;;;
     on_vcn "WaitForInternetGatewayStatus"
       (WaitForInternetGatewayStatus ["AVAILABLE"]) ;;;
     on_vcn "UpdateRouteTable" UpdateRouteTable ;;;
     on_vcn "WaitForRouteTableStatus" (WaitForRouteTableStatus ["AVAILABLE"]) ;;;
     on_vcn "AddSecurityListIngressRule"
       (AddSecurityListIngressRule "6" (Some 22) None None None None) ;;;
     on_vcn "WaitForSecurityListStatus"
       (WaitForSecurityListStatus ["AVAILABLE"]) ;;;
     on_vcn "AddSecurityListIngressRule"
       (AddSecurityListIngressRule "1" (Some 22) None None None None) ;;;
     on_vcn "WaitForSecurityListStatus"
       (WaitForSecurityListStatus ["AVAILABLE"]))
    (fun n => attached_to_subnet n /\ stack_available n)).
  { do 6 (eapply hoare_bind; [apply hoare_anything | intros _]).
    eapply hoare_bind; [apply hoare_assign_network_id | intros _].
    do 7 (eapply hoare_bind;
          [ apply hoare_on_vcn_attached;
            first [ apply preserves_subnet_id_AddSecurityListIngressRule
                  | apply preserves_subnet_id_wait_body
                  | unfold CreateInternetGateway, UpdateRouteTable,
                      GetEncodedCmd; preserves_auto ]
          | intros _ ]).
    apply hoare_WaitForSecurityListStatus_available. }
  intros n _ w a Hr. apply (H n w a I Hr).
Qed.

Lemma hoare_lookup_sequence (n : OciNetwork) :
  use_vcn n = false ->
  forall w a,
    result_of (Create_body n w) = Ok a ->
    attached_to_subnet (self_of (Create_body n w)).
Proof.
  intros Hu w a.
  assert (E : Create_body n w =
    (on_vcn "GetVcnIDFromName" GetVcnIDFromName ;;;
     on_vcn "GetSubnetIdFromVCNId" GetSubnetIdFromVCNId ;;;
     assign_network_id) n w).
  { unfold Create_body at 1, bind at 1, get_self at 1. rewrite Hu. reflexivity. }
  rewrite E. clear E.
  assert (H : hoare (fun _ : OciNetwork => True)
    (on_vcn "GetVcnIDFromName" GetVcnIDFromName ;;;
     on_vcn "GetSubnetIdFromVCNId" GetSubnetIdFromVCNId ;;;
     assign_network_id) attached_to_subnet).
  { do 2 (eapply hoare_bind; [apply hoare_anything | intros _]).
    apply hoare_assign_network_id. }
  intros Hr. apply (H n w a I Hr).
Qed.

(** X9: when [Create] returns normally, the network's [network_id] is the
    [subnet_id] of the stack it holds; on a managed network the last state
    the stack has cached is [AVAILABLE]. *)
Theorem Create_success_attaches_subnet (self : OciNetwork) (w : World) :
  result_of (Create self w) = Ok tt ->
  attached_to_subnet (self_of (Create self w))
  /\ (use_vcn self = true -> stack_available (self_of (Create self w))).
Proof.
  intros Hr.
  assert (Hfix : preserves fixed_attributes Create).
  { unfold Create. apply preserves_bind; [apply preserves_get_env | intros e].
    apply preserves_Retry, preserves_fixed_Create_body. }
  assert (Hbody : ensures
            (fun n => attached_to_subnet n
                      /\ (use_vcn n = true -> stack_available n)) Create_body).
  { intros n w0 a Ha. destruct (use_vcn n) eqn:Hu.
    - destruct (hoare_managed_sequence n Hu w0 a Ha) as [H1 H2].
      split; [exact H1 | intros _; exact H2].
    - split; [apply (hoare_lookup_sequence n Hu w0 a Ha) |].
      pose proof (preserves_fixed_Create_body n w0) as Hf.
      unfold fixed_attributes in Hf. intros Hu'.
      assert (use_vcn (self_of (Create_body n w0)) = use_vcn n) by congruence.
      congruence. }
  assert (Hens : ensures
            (fun n => attached_to_subnet n
                      /\ (use_vcn n = true -> stack_available n)) Create).
  { intros n w0 a.
    change (Create n w0)
      with (Retry (POLL_INTERVAL (env w0)) DEFAULT_TIMEOUT Create_body n w0).
    apply (ensures_Retry _ _ _ _ Hbody). }
  destruct (Hens self w tt Hr) as [H1 H2]. split; [exact H1 |].
  intros Hu. apply H2. pose proof (Hfix self w) as Hf.
  unfold fixed_attributes in Hf.
  assert (use_vcn (self_of (Create self w)) = use_vcn self) by congruence.
  congruence.
Qed.

Lemma Create_success_attaches_subnet_witness :
  attached_to_subnet
    (self_of (Create (test_network managed_env) (start managed_env)))
  /\ stack_available
       (self_of (Create (test_network managed_env) (start managed_env))).
Proof.
  assert (H : result_of (Create (test_network managed_env)
                           (start managed_env)) = Ok tt)
    by (vm_compute; reflexivity).
  destruct (Create_success_attaches_subnet (test_network managed_env)
              (start managed_env) H) as [H1 H2].
  split; [exact H1 | apply H2; reflexivity].
Defined.

(** X10: [Create] and [Delete] leave the network's [name], [profile],
    [region], [use_vcn], [vcn_id] and [security_group] as they were,
    whether they return or raise; in particular the [vcn_id] of a network
    built by [__init__] is still [None] after [Create]. *)
Theorem lifecycle_keeps_fixed_attributes :
  preserves fixed_attributes Create
  /\ preserves fixed_attributes Delete
  /\ (forall (e : Env) (zone : string) (w : World),
        net_vcn_id (self_of (Create (OciNetwork_init e zone) w)) = JNull).
Proof.
  assert (Hfix : preserves fixed_attributes Create).
  { unfold Create. apply preserves_bind; [apply preserves_get_env | intros e].
    apply preserves_Retry, preserves_fixed_Create_body. }
  split; [exact Hfix | split].
  - unfold Delete, OciVcn_Delete.
    repeat first [ apply preserves_on_vcn_outside; intros ? []; reflexivity
                 | preserves_step ].
  - intros e zone w. pose proof (Hfix (OciNetwork_init e zone) w) as H.
    unfold fixed_attributes in H.
    assert (H0 : net_vcn_id (self_of (Create (OciNetwork_init e zone) w))
                 = net_vcn_id (OciNetwork_init e zone)) by congruence.
    rewrite H0. reflexivity.
Qed.

(* ================================================================= *)
(** ** The commands a method can send *)

Lemma sent_of_sends {S A : Type} (P : Env -> Cmd -> Prop) (m : M S A) :
  (forall e, sends_in e P m) ->
  forall self w, Forall (P (env w)) (sent m self w).
Proof.
  intros H self w. destruct (H (env w) self w eq_refl) as [_ [l [E F]]].
  unfold sent. rewrite E, skipn_app, skipn_all, Nat.sub_diag. exact F.
Qed.

(** X11: every command [Create] sends, retries included, is a create, a
    get, a list or an update of a virtual network, subnet, internet
    gateway, route table or security list: [Create] never sends a delete,
    also when an attempt fails half way. *)
Theorem Create_never_deletes (self : OciNetwork) (w : World) :
  Forall (among create_commands (env w)) (sent Create self w).
Proof.
  apply sent_of_sends. intros e. unfold Create.
  apply sends_get_env, sends_Retry, sends_Create_body.
Qed.



(* ================================================================= *)
(** ** The firewall with a stack *)

Lemma on_network_on_vcn_run {A : Type} (method : string) (m : M OciVcn A)
  (vm : VirtualMachine) (v : OciVcn) (w : World) :
  vcn (network vm) = Obj v ->
  on_network (on_vcn method m) vm w =
    (result_of (m v w),
     mkVirtualMachine (set_vcn (Obj (self_of (m v w))) (network vm)),
     world_of (m v w)).
Proof.
  intros Hv. unfold on_network, on_vcn. rewrite Hv.
  destruct (m v w) as [[r v'] w']. reflexivity.
Qed.

Lemma preserves_unchanged_AddSecurityListIngressRule
  (protocol : string) (start_port end_port : option Z)
  (source_range : option string) (protocol_type protocol_code : option Z) :
  preserves unchanged
    (AddSecurityListIngressRule protocol start_port end_port source_range
       protocol_type protocol_code).
Proof.
  unfold AddSecurityListIngressRule, GetSecurityListFromId, GetEncodedCmd.
  preserves_auto.
Qed.

Lemma add_then_wait (add : M OciVcn unit) (vm : VirtualMachine) (v : OciVcn)
  (w : World) :
  preserves unchanged add ->
  vcn (network vm) = Obj v ->
  let run :=
    (on_network (on_vcn "AddSecurityListIngressRule" add) ;;;
     on_network (on_vcn "WaitForRouteTableStatus"
                   (WaitForRouteTableStatus ["AVAILABLE"]))) vm w in
  vm_but_status (self_of run) = vm_but_status vm
  /\ (result_of run = Ok tt -> stack_available (network (self_of run))).
Proof.
  intros Hadd Hv run.
  assert (Hv1 : vcn (network (mkVirtualMachine
                               (set_vcn (Obj v) (network vm)))) = Obj v)
    by (destruct vm as [[]]; reflexivity).
  assert (E : run =
    match result_of (add v w) with
    | Ok _ =>
        let wait := wait_body "route-table" "--rt-id" rt_id ["AVAILABLE"] v
                      (world_of (add v w)) in
        (result_of wait,
         mkVirtualMachine
           (set_vcn (Obj (self_of wait))
              (network (mkVirtualMachine (set_vcn (Obj v) (network vm))))),
         world_of wait)
    | Raise e =>
        (Raise e, mkVirtualMachine (set_vcn (Obj v) (network vm)),
         world_of (add v w))
    end).
  { subst run. unfold bind.
    rewrite (on_network_on_vcn_run _ add vm v w Hv).
    specialize (Hadd v w). unfold unchanged in Hadd.
    destruct (add v w) as [[[[] | e] v1] w1]; cbn in Hadd; subst v1;
      cbn [result_of self_of world_of fst snd]; [| reflexivity].
    rewrite (on_network_on_vcn_run _ _ _ v w1 Hv1). reflexivity. }
  rewrite E. clear E run.
  destruct (result_of (add v w)) as [[] | e].
  - cbv zeta.
    pose proof (wait_body_member "route-table" "--rt-id" rt_id ["AVAILABLE"]
                  v (world_of (add v w))) as Hmem.
    pose proof (preserves_wait_body "route-table" "--rt-id" rt_id
                  ["AVAILABLE"] v (world_of (add v w))) as Hfr.
    destruct (wait_body _ _ _ _ v _) as [[r v2] w2]. cbn in Hmem, Hfr |- *.
    split.
    + unfold vm_but_status. destruct vm as [[]]; cbn in *. subst.
      cbn. rewrite Hfr. reflexivity.
    + intros Hr. specialize (Hmem tt Hr). exists v2.
      split; [destruct vm as [[]]; reflexivity |].
      unfold state_in in Hmem. destruct (status v2); try discriminate.
      cbn in Hmem. rewrite orb_false_r in Hmem.
      apply String.eqb_eq in Hmem. congruence.
  - split; [| discriminate].
    unfold vm_but_status. destruct vm as [[]]; cbn in *. subst. reflexivity.
Qed.

Lemma AllowPort_by_stack (vm : VirtualMachine) (w : World)
  (start_port end_port : option Z) (source_range : option string) :
  AllowPort start_port end_port source_range vm w =
    match vcn (network vm) with
    | Unset => (Raise (AttributeError "vcn"), vm, w)
    | PyNone =>
        logging (Error
          "Opening ports with OCI cloud only supported when using a VCN for now!")
          vm w
    | Obj _ =>
        (on_network (on_vcn "AddSecurityListIngressRule"
           (AddSecurityListIngressRule "6" start_port end_port source_range
              None None)) ;;;
         on_network (on_vcn "WaitForRouteTableStatus"
           (WaitForRouteTableStatus ["AVAILABLE"]))) vm w
    end.
Proof.
  unfold AllowPort, not_vcn. unfold bind at 1 2. unfold get_self.
  destruct (vcn (network vm)); reflexivity.
Qed.

Lemma AllowIcmp_by_stack (vm : VirtualMachine) (w : World)
  (protocol_type protocol_code : option Z) (source_range : option string) :
  AllowIcmp protocol_type protocol_code source_range vm w =
    match vcn (network vm) with
    | Unset => (Raise (AttributeError "vcn"), vm, w)
    | PyNone =>
        logging (Error
          "Allow ICMP with OCI cloud only supported when using a VCN for now!")
          vm w
    | Obj _ =>
        (on_network (on_vcn "AddSecurityListIngressRule"
           (AddSecurityListIngressRule "1" (Some 22) None source_range
              protocol_type protocol_code)) ;;;
         on_network (on_vcn "WaitForRouteTableStatus"
           (WaitForRouteTableStatus ["AVAILABLE"]))) vm w
    end.
Proof.
  unfold AllowIcmp, not_vcn. unfold bind at 1 2. unfold get_self.
  destruct (vcn (network vm)); reflexivity.
Qed.

(** X13: [AllowPort] and [AllowIcmp] change nothing of the vm but the
    status its stack has cached, whether they return or raise; when they
    return on a vm that holds a stack, that status is [AVAILABLE]. *)
Theorem firewall_changes_only_the_cached_status (vm : VirtualMachine)
  (w : World) (start_port end_port protocol_type protocol_code : option Z)
  (source_range : option string) :
  let port := AllowPort start_port end_port source_range vm w in
  let icmp := AllowIcmp protocol_type protocol_code source_range vm w in
  (vm_but_status (self_of port) = vm_but_status vm
   /\ (result_of port = Ok tt ->
       vcn (network vm) = PyNone \/ stack_available (network (self_of port))))
  /\ (vm_but_status (self_of icmp) = vm_but_status vm
      /\ (result_of icmp = Ok tt ->
          vcn (network vm) = PyNone
          \/ stack_available (network (self_of icmp)))).
Proof.
  cbv zeta. rewrite AllowPort_by_stack, AllowIcmp_by_stack.
  destruct (vcn (network vm)) as [| | v] eqn:Hv.
  - repeat split; discriminate.
  - repeat split; left; reflexivity.
  - split.
    + destruct (add_then_wait
                  (AddSecurityListIngressRule "6" start_port end_port
                     source_range None None) vm v w
                  (preserves_unchanged_AddSecurityListIngressRule _ _ _ _ _ _)
                  Hv) as [H1 H2].
      split; [exact H1 | intros Hr; right; apply H2, Hr].
    + destruct (add_then_wait
                  (AddSecurityListIngressRule "1" (Some 22) None source_range
                     protocol_type protocol_code) vm v w
                  (preserves_unchanged_AddSecurityListIngressRule _ _ _ _ _ _)
                  Hv) as [H1 H2].
      split; [exact H1 | intros Hr; right; apply H2, Hr].
Qed.

Lemma firewall_changes_only_the_cached_status_witness :
  vm_but_status
    (self_of (AllowPort (Some 80) None None icmp_vm (start managed_env)))
  = vm_but_status icmp_vm
  /\ (vcn (network icmp_vm) = PyNone
      \/ stack_available
           (network (self_of (AllowPort (Some 80) None None icmp_vm
                                (start managed_env))))).
Proof.
  destruct (firewall_changes_only_the_cached_status icmp_vm
              (start managed_env) (Some 80) None None None None)
    as [[H1 H2] _].
  split; [exact H1 | apply H2; vm_compute; reflexivity].
Defined.

(* ================================================================= *)
(** ** Create on an existing network *)








(* ================================================================= *)
(** ** What is written can be read *)

Lemma json_dumps_JArr (l : list json) :
  json_dumps (JArr l) = "[" ++ dumps_elems l ++ "]".
Proof. reflexivity. Qed.

Lemma json_dumps_JObj (m : list (string * json)) :
  json_dumps (JObj m) = "{" ++ dumps_members m ++ "}".
Proof. reflexivity. Qed.

Lemma escape_string_plain (s : string) :
  json_plain s = true -> escape_string s = s.
Proof.
  induction s as [| c s IH]; cbn [json_plain escape_string]; [reflexivity |].
  intros H. apply andb_prop in H. destruct H as [Hc Hs].
  rewrite (IH Hs). clear IH Hs.
  destruct c as [[|] [|] [|] [|] [|] [|] [|] [|]]; cbn in Hc |- *;
    reflexivity || discriminate Hc.
Qed.

Lemma pv_true (f : nat) (r : string) :
  parse_value (S f) (String "t" (String "r" (String "u" (String "e" r))))
  = Some (JBool true, r).
Proof. reflexivity. Qed.

Lemma pe_ws (f : nat) (s : string) :
  parse_elements f (String " " s) = parse_elements f s.
Proof.
  destruct f as [| f]; [reflexivity |]. cbn [parse_elements].
  rewrite (pv_ws f s _ eq_refl). reflexivity.
Qed.

Lemma number_start_opens_value (c : ascii) :
  is_number_start c = true -> opens_value c = true.
Proof.
  destruct c as [[|] [|] [|] [|] [|] [|] [|] [|]]; cbn; intros H;
    reflexivity || discriminate H.
Qed.

Lemma json_dumps_head (v : json) (rest : string) :
  exists c s, json_dumps v ++ rest = String c s /\ opens_value c = true.
Proof.
  destruct v as [| [|] | n | s | l | m].
  - eexists; eexists; split; reflexivity.
  - eexists; eexists; split; reflexivity.
  - eexists; eexists; split; reflexivity.
  - cbn [json_dumps]. destruct (str_int_first n) as [c [s [E Hc]]].
    exists c, (s ++ rest). rewrite E. split; [reflexivity |].
    apply number_start_opens_value, Hc.
  - eexists; eexists; split; reflexivity.
  - eexists; eexists; split; reflexivity.
  - eexists; eexists; split; reflexivity.
Qed.

Lemma pv_array (f : nat) (c : ascii) (s : string) (l : list json)
  (r' : string) :
  opens_value c = true ->
  parse_elements f (String c s) = Some (l, r') ->
  parse_value (S f) (String "[" (String c s)) = Some (JArr l, r').
Proof.
  intros Hc He. cbn [parse_value skip_ws].
  change (is_ws "[") with false. change (is_number_start "[") with false.
  change (Ascii.eqb "[" dq_char) with false.
  change (Ascii.eqb "[" "{") with false.
  change (Ascii.eqb "[" "[") with true. cbv iota.
  unfold opens_value in Hc. apply andb_prop in Hc. destruct Hc as [Hw Hb].
  apply negb_true_iff in Hw, Hb. cbn [skip_ws]. rewrite Hw.
  destruct c as [[|] [|] [|] [|] [|] [|] [|] [|]];
    try discriminate Hb; rewrite He; reflexivity.
Qed.

Lemma need_positive (v : json) : (1 <= need v)%nat.
Proof. destruct v; cbn; lia. Qed.

(** The elements of a non-empty array, up to the closing bracket. *)
Lemma parse_dumped_elems (l : list json) :
  Forall (fun x => writable x = true ->
                   forall fuel r, (need x <= fuel)%nat ->
                                  number_end r = true ->
                                  parse_value fuel (json_dumps x ++ r)
                                  = Some (x, r)) l ->
  l <> [] ->
  forallb writable l = true ->
  forall fuel r,
    (list_sum (map (fun x => S (need x)) l) <= fuel)%nat ->
    parse_elements fuel (dumps_elems l ++ String "]" r) = Some (l, r).
Proof.
  induction 1 as [| x l Hx Hl IH]; intros Hne Hw fuel r Hfuel;
    [now destruct Hne |].
  cbn [forallb] in Hw. apply andb_prop in Hw. destruct Hw as [Hwx Hwl].
  cbn [map list_sum] in Hfuel.
  destruct fuel as [| fuel]; [cbn in Hfuel; lia |].
  destruct l as [| y l].
  - cbn [dumps_elems parse_elements].
    rewrite (Hx Hwx fuel (String "]" r)) by (cbn in Hfuel |- *; lia || reflexivity).
    reflexivity.
  - change (dumps_elems (x :: y :: l))
      with (json_dumps x ++ ", " ++ dumps_elems (y :: l)).
    rewrite !append_assoc. cbn [parse_elements].
    rewrite (Hx Hwx fuel) by (cbn in Hfuel |- *; lia || reflexivity).
    cbn [append skip_ws]. change (is_ws ",") with false. cbv iota.
    rewrite pe_ws.
    rewrite (IH ltac:(discriminate) Hwl fuel r) by (cbn in Hfuel |- *; lia).
    reflexivity.
Qed.

Lemma quoted_append (k r : string) :
  quoted k ++ r = String dq_char (k ++ String dq_char r).
Proof. unfold quoted, dq. cbn [append]. rewrite append_assoc. reflexivity. Qed.

(** The members of a non-empty dict, up to the closing brace. *)
Lemma parse_dumped_members (m : list (string * json)) :
  Forall (fun kv => writable (snd kv) = true ->
                    forall fuel r, (need (snd kv) <= fuel)%nat ->
                                   number_end r = true ->
                                   parse_value fuel (json_dumps (snd kv) ++ r)
                                   = Some (snd kv, r)) m ->
  m <> [] ->
  forallb (fun kv => json_plain (fst kv) && writable (snd kv)) m = true ->
  forall fuel r,
    (list_sum (map (fun kv => S (need (snd kv))) m) <= fuel)%nat ->
    parse_members fuel (dumps_members m ++ String "}" r) = Some (m, r).
Proof.
  induction 1 as [| [k x] m Hx Hm IH]; intros Hne Hw fuel r Hfuel;
    [now destruct Hne |].
  cbn [forallb fst snd] in Hw. apply andb_prop in Hw. destruct Hw as [Hkx Hwm].
  apply andb_prop in Hkx. destruct Hkx as [Hk Hwx].
  cbn [map list_sum snd] in Hfuel. cbn [snd] in Hx.
  destruct fuel as [| fuel]; [cbn in Hfuel; lia |].
  destruct m as [| [k' y] m].
  - cbn [dumps_members]. rewrite (escape_string_plain k Hk).
    rewrite !append_assoc, quoted_append. cbn [append].
    rewrite (pm_unfold fuel k _ Hk).
    rewrite (pv_ws fuel _ _ eq_refl).
    rewrite (Hx Hwx fuel (String "}" r))
      by (cbn in Hfuel |- *; lia || reflexivity).
    reflexivity.
  - change (dumps_members ((k, x) :: (k', y) :: m))
      with (quoted (escape_string k) ++ ": " ++ json_dumps x ++ ", "
            ++ dumps_members ((k', y) :: m)).
    rewrite (escape_string_plain k Hk).
    rewrite !append_assoc, quoted_append. cbn [append].
    rewrite (pm_unfold fuel k _ Hk).
    rewrite (pv_ws fuel _ _ eq_refl).
    rewrite (Hx Hwx fuel) by (cbn in Hfuel |- *; lia || reflexivity).
    cbn [skip_ws]. change (is_ws ",") with false. cbv iota.
    rewrite (pm_ws fuel _ _ eq_refl).
    rewrite (IH ltac:(discriminate) Hwm fuel r) by (cbn in Hfuel |- *; lia).
    reflexivity.
Qed.

Lemma dict_set_fresh (m : list (string * json)) (k : string) (v : json) :
  existsb (String.eqb k) (map fst m) = false ->
  dict_set m k v = List.app m [(k, v)].
Proof.
  induction m as [| [k' v'] m IH]; cbn; [reflexivity |]. intros H.
  apply orb_false_elim in H. destruct H as [Hk Hm].
  rewrite String.eqb_sym, Hk, (IH Hm). reflexivity.
Qed.

Lemma existsb_app_false (k : string) (a b : list string) :
  existsb (String.eqb k) (List.app a b) = false ->
  existsb (String.eqb k) a = false /\ existsb (String.eqb k) b = false.
Proof. rewrite existsb_app. apply orb_false_elim. Qed.

Lemma distinct_app_cons (a : list string) (k : string) (b : list string) :
  distinct (List.app a (k :: b)) = true ->
  existsb (String.eqb k) a = false
  /\ distinct (List.app (List.app a [k]) b) = true.
Proof.
  induction a as [| x a IH]; cbn [List.app distinct existsb].
  - intros H. split; [reflexivity | exact H].
  - intros H. apply andb_prop in H. destruct H as [Hx Ha].
    destruct (IH Ha) as [Hk Hd]. apply negb_true_iff in Hx.
    destruct (existsb_app_false _ _ _ Hx) as [Hxa Hxb].
    cbn [existsb] in Hxb. apply orb_false_elim in Hxb. destruct Hxb as [Hxk Hxb].
    split.
    + rewrite String.eqb_sym, Hxk. exact Hk.
    + rewrite Hd, andb_true_r. apply negb_true_iff.
      rewrite !existsb_app. cbn [existsb]. rewrite Hxa, Hxk, Hxb. reflexivity.
Qed.

Lemma fold_dict_set_distinct (ms acc : list (string * json)) :
  distinct (map fst (List.app acc ms)) = true ->
  fold_left (fun m kv => dict_set m (fst kv) (snd kv)) ms acc
  = List.app acc ms.
Proof.
  revert acc. induction ms as [| [k v] ms IH]; intros acc H; cbn [fold_left].
  - rewrite List.app_nil_r. reflexivity.
  - rewrite map_app in H. cbn [map fst] in H.
    destruct (distinct_app_cons _ _ _ H) as [Hk Hd]. cbn [fst snd].
    rewrite (dict_set_fresh acc k v Hk), IH.
    + rewrite <- List.app_assoc. reflexivity.
    + rewrite !map_app. cbn [map fst]. exact Hd.
Qed.

Lemma dict_of_members_distinct (ms : list (string * json)) :
  distinct (map fst ms) = true -> dict_of_members ms = ms.
Proof. intros H. unfold dict_of_members. apply (fold_dict_set_distinct ms [] H). Qed.

Lemma dumps_elems_head (x : json) (l : list json) (rest : string) :
  exists c s,
    dumps_elems (x :: l) ++ rest = String c s /\ opens_value c = true.
Proof.
  destruct l as [| y l]; [apply json_dumps_head |].
  change (dumps_elems (x :: y :: l))
    with (json_dumps x ++ ", " ++ dumps_elems (y :: l)).
  rewrite append_assoc. apply json_dumps_head.
Qed.

Lemma dumps_members_head (k : string) (x : json) (m : list (string * json))
  (rest : string) :
  exists r0, dumps_members ((k, x) :: m) ++ rest = String dq_char r0.
Proof.
  destruct m as [| [k' y] m].
  - cbn [dumps_members]. rewrite append_assoc, quoted_append.
    eexists. reflexivity.
  - change (dumps_members ((k, x) :: (k', y) :: m))
      with (quoted (escape_string k) ++ ": " ++ json_dumps x ++ ", "
            ++ dumps_members ((k', y) :: m)).
    rewrite append_assoc, quoted_append. eexists. reflexivity.
Qed.

(** Every writable value is read back from its text, whatever follows the
    text, provided a number is not followed by more of a number. *)
Lemma parse_dumped_value (v : json) :
  writable v = true ->
  forall fuel r,
    (need v <= fuel)%nat -> number_end r = true ->
    parse_value fuel (json_dumps v ++ r) = Some (v, r).
Proof.
  induction v as [| b | n | s | l IH | m IH] using json_nested_ind;
    intros Hw fuel r Hfuel Hr;
    (destruct fuel as [| fuel];
     [pose proof (need_positive JNull); cbn in Hfuel; lia |]).
  - reflexivity.
  - destruct b; reflexivity.
  - cbn [json_dumps]. apply parse_value_str_int, Hr.
  - cbn [json_dumps writable] in *. rewrite (escape_string_plain s Hw).
    rewrite quoted_append. apply pv_string, Hw.
  - rewrite json_dumps_JArr. cbn [writable] in Hw. cbn [need] in Hfuel.
    destruct l as [| x l]; [reflexivity |].
    rewrite !append_assoc. cbn [append].
    pose proof (parse_dumped_elems (x :: l) IH ltac:(discriminate) Hw fuel r
                  ltac:(lia)) as Hpe.
    destruct (dumps_elems_head x l (String "]" r)) as [c [s [E Hc]]].
    rewrite E in Hpe |- *. apply (pv_array fuel c s _ r Hc Hpe).
  - rewrite json_dumps_JObj. cbn [writable] in Hw. cbn [need] in Hfuel.
    apply andb_prop in Hw. destruct Hw as [Hw Hd].
    destruct m as [| [k x] m]; [reflexivity |].
    rewrite !append_assoc. cbn [append].
    pose proof (parse_dumped_members ((k, x) :: m) IH ltac:(discriminate) Hw
                  fuel r ltac:(lia)) as Hpm.
    destruct (dumps_members_head k x m (String "}" r)) as [r0 E].
    rewrite E in Hpm |- *.
    rewrite (pv_object fuel (String dq_char r0) r0 _ r eq_refl Hpm).
    rewrite (dict_of_members_distinct _ Hd). reflexivity.
Qed.

Lemma need_le_length (v : json) :
  (need v <= String.length (json_dumps v))%nat.
Proof.
  induction v as [| b | n | s | l IH | m IH] using json_nested_ind.
  - cbn; lia.
  - destruct b; cbn; lia.
  - cbn [need json_dumps]. destruct (str_int_first n) as [c [s [E _]]].
    rewrite E. cbn. lia.
  - cbn [need json_dumps]. unfold quoted, dq. cbn. lia.
  - rewrite json_dumps_JArr. cbn [need]. rewrite !length_append. cbn.
    assert (H : l <> [] ->
                (list_sum (map (fun x => S (need x)) l)
                 <= String.length (dumps_elems l) + 1)%nat).
    { clear - IH. induction IH as [| x l Hx Hl IHl]; intros Hne;
        [now destruct Hne |].
      destruct l as [| y l].
      - cbn. lia.
      - change (dumps_elems (x :: y :: l))
          with (json_dumps x ++ ", " ++ dumps_elems (y :: l)).
        rewrite !length_append. cbn [map list_sum fold_right String.length].
        specialize (IHl ltac:(discriminate)). cbn [map list_sum fold_right] in IHl. lia. }
    destruct l as [| x l]; [cbn; lia |].
    specialize (H ltac:(discriminate)). lia.
  - rewrite json_dumps_JObj. cbn [need]. rewrite !length_append. cbn.
    assert (H : (list_sum (map (fun kv => S (need (snd kv))) m)
                 <= String.length (dumps_members m))%nat).
    { clear - IH. induction IH as [| [k x] m Hx Hm IHm]; [cbn; lia |].
      cbn [snd] in Hx. destruct m as [| [k' y] m].
      - cbn [dumps_members map list_sum fold_right snd]. unfold quoted, dq.
        rewrite !length_append. cbn. lia.
      - change (dumps_members ((k, x) :: (k', y) :: m))
          with (quoted (escape_string k) ++ ": " ++ json_dumps x ++ ", "
                ++ dumps_members ((k', y) :: m)).
        unfold quoted, dq. rewrite !length_append.
        cbn [map list_sum fold_right String.length snd] in IHm |- *. lia. }
    lia.
Qed.

(** The round trip: [json.loads(json.dumps(v)) == v]. *)
Lemma json_loads_dumps (v : json) :
  writable v = true -> json_loads (json_dumps v) = Some v.
Proof.
  intros Hw. unfold json_loads.
  pose proof (parse_dumped_value v Hw (String.length (json_dumps v))
                EmptyString (need_le_length v) eq_refl) as H.
  assert (E : json_dumps v ++ EmptyString = json_dumps v).
  { generalize (json_dumps v). induction s as [| c s IHs]; cbn;
      [reflexivity | rewrite IHs; reflexivity]. }
  rewrite E in H. rewrite H. reflexivity.
Qed.

(* ================================================================= *)
(** ** A rule that was added is read back *)

Lemma current_rules_app (init : json) (h1 h2 : list Cmd) :
  current_rules init (List.app h1 h2) = current_rules (current_rules init h1) h2.
Proof.
  revert init. induction h1 as [| c h1 IH]; intros init; cbn; [reflexivity |].
  apply IH.
Qed.

Lemma drop_last_quote (s : string) : drop_last (s ++ "'") = s.
Proof.
  induction s as [| c s IH]; [reflexivity |].
  cbn [append drop_last]. rewrite IH.
  destruct (s ++ "'") eqn:E; [destruct s; discriminate E | reflexivity].
Qed.

Lemma forallb_writable_app (R : list json) (rule : json) :
  forallb writable R = true -> writable rule = true ->
  forallb writable (List.app R [rule]) = true.
Proof.
  intros HR Hr. rewrite forallb_app, HR. cbn. rewrite Hr. reflexivity.
Qed.

Lemma rule_dict_writable (protocol : string) (start_port end_port : option Z)
  (source_range : string) (protocol_type protocol_code : option Z)
  (rule : json) :
  json_plain protocol = true -> json_plain source_range = true ->
  rule_dict protocol start_port end_port source_range protocol_type
    protocol_code = Some rule ->
  writable rule = true.
Proof.
  intros Hp Hs. unfold rule_dict.
  destruct (String.eqb protocol "1").
  - destruct protocol_type, protocol_code; try discriminate;
      intros [= <-]; cbn; rewrite Hp, Hs; reflexivity.
  - destruct (truthy_int start_port).
    + destruct start_port, end_port; try discriminate;
        intros [= <-]; cbn; rewrite Hp, Hs; reflexivity.
    + intros [= <-]; cbn; rewrite Hp, Hs; reflexivity.
Qed.

(** The rules the fault-free control plane holds after an update that
    wrote [rules]. *)
Lemma written_rules_update (word : string) (self : OciVcn)
  (rules : list json) (e : Env) :
  OCI_PREFIX e = [word] ->
  forallb writable rules = true ->
  written_rules (security_list_update e self rules) = Some (JArr rules).
Proof.
  intros Hpre Hw. unfold security_list_update, written_rules. rewrite Hpre.
  cbn [List.app find_arg]. cbn [append drop_prefix].
  change (Ascii.eqb "-" "-") with true. cbv iota.
  change (Ascii.eqb "i" "s") with false. cbv iota.
  change (Ascii.eqb "i" "f") with false. cbv iota.
  change (Ascii.eqb "i" "i") with true. cbv iota.
  cbn [drop_prefix Ascii.eqb Bool.eqb].
  rewrite drop_last_quote. apply json_loads_dumps. exact Hw.
Qed.

Lemma written_rules_get (e : Env) (word : string) (self : OciVcn) :
  OCI_PREFIX e = [word] -> written_rules (security_list_get e self) = None.
Proof. intros H. unfold security_list_get. rewrite H. reflexivity. Qed.

Lemma nth_plain (script : list string) (k : nat) :
  forallb json_plain script = true ->
  json_plain (nth k script "AVAILABLE") = true.
Proof.
  revert k. induction script as [| s script IH]; intros k H.
  - destruct k; reflexivity.
  - cbn in H. apply andb_true_iff in H as [Hs H].
    destruct k; [exact Hs | apply IH, H].
Qed.

(** What [GetSecurityListFromId] returns on the fault-free control plane:
    the rules held after the commands sent so far. *)
Lemma GetSecurityListFromId_fault_free (self : OciVcn) (w : World)
  (word : string) (script : list string) (init_rules : json) :
  OCI_PREFIX (env w) = [word] ->
  control_plane (env w) = fault_free script init_rules ->
  forallb json_plain script = true ->
  writable (current_rules init_rules (issued w)) = true ->
  result_of (GetSecurityListFromId self w)
  = Ok (current_rules init_rules (issued w)).
Proof.
  intros Hpre Hcp Hscript Hrules.
  unfold GetSecurityListFromId, IssueCommand, GetEncodedCmd.
  unfold bind at 1. unfold get_self at 1.
  unfold bind at 1. unfold get_env at 1.
  unfold bind at 1. unfold logging at 1.
  unfold bind at 1. unfold bind at 1. unfold issue at 1.
  cbn [env clock issued log retcode stdout andb]. unfold ret at 1.
  rewrite Hcp, Hpre. cbn [List.app fault_free]. 
  change (String.eqb "get" "get") with true. cbv iota.
  cbn [stdout].
  unfold bind at 1. unfold loads.
  rewrite json_loads_dumps.
  2:{ cbn [writable forallb fst snd map distinct].
      rewrite Hrules, (nth_plain _ _ Hscript). reflexivity. }
  unfold ret at 1. reflexivity.
Qed.

(** X15: on a control plane that stores what a security-list update writes
    and hands it out on a get, a rule added by [AddSecurityListIngressRule]
    is read back by the next [GetSecurityListFromId], at the end of the
    rules that were there: the text [json.dumps] wrote into the command
    line is the one [json.loads] reads back. *)
Theorem added_rule_is_read_back (self : OciVcn) (w : World) (word : string)
  (script : list string) (init_rules : json) (R : list json) (rule : json)
  (protocol : string) (start_port end_port : option Z)
  (source_range : option string) (protocol_type protocol_code : option Z) :
  OCI_PREFIX (env w) = [word] ->
  control_plane (env w) = fault_free script init_rules ->
  forallb json_plain script = true ->
  current_rules init_rules (issued w) = JArr R ->
  forallb writable R = true ->
  json_plain protocol = true ->
  json_plain (default_source_range source_range) = true ->
  rule_dict protocol start_port (default_end_port start_port end_port)
    (default_source_range source_range) protocol_type protocol_code
  = Some rule ->
  let add := AddSecurityListIngressRule protocol start_port end_port
               source_range protocol_type protocol_code in
  result_of (add self w) = Ok tt
  /\ result_of (then_run add GetSecurityListFromId self w)
     = Ok (JArr (List.app R [rule])).
Proof.
  intros Hpre Hcp Hscript Hcur HR Hp Hs Hrule add.
  assert (Hread : result_of (GetSecurityListFromId self w) = Ok (JArr R)).
  { rewrite <- Hcur.
    apply (GetSecurityListFromId_fault_free self w word script init_rules);
      try assumption.
    rewrite Hcur. exact HR. }
  destruct (GetSecurityListFromId_frame self w) as (Hself & Henv & Hclock & Hiss).
  destruct (GetSecurityListFromId self w) as [[r s1] w1] eqn:Hget.
  cbn [result_of self_of world_of fst snd] in Hread, Hself, Henv, Hclock, Hiss.
  subst r s1.
  assert (Hc : constructed_rule protocol start_port end_port source_range
                 protocol_type protocol_code = Some rule).
  { rewrite constructed_rule_dict by assumption. exact Hrule. }
  pose proof (AddSecurityListIngressRule_run self w w1 R rule protocol
                start_port end_port source_range protocol_type protocol_code
                Hget Hc) as Hrun.
  fold add in Hrun.
  unfold then_run. rewrite Hrun. cbn [result_of self_of world_of fst snd].
  split; [reflexivity |].
  assert (Hwr : forallb writable (List.app R [rule]) = true).
  { apply forallb_writable_app; [exact HR |].
    exact (rule_dict_writable _ _ _ _ _ _ _ Hp Hs Hrule). }
  match goal with
  | |- result_of (GetSecurityListFromId self ?w2) = _ =>
      assert (Hcur2 : current_rules init_rules (issued w2)
                      = JArr (List.app R [rule]))
  end.
  { cbn [issued]. rewrite Hiss, Henv, <- List.app_assoc.
    rewrite current_rules_app. cbn [List.app current_rules].
    rewrite (written_rules_get _ word _ Hpre).
    rewrite (written_rules_update word self _ _ Hpre Hwr). reflexivity. }
  rewrite <- Hcur2.
  apply (GetSecurityListFromId_fault_free self _ word script init_rules).
  - cbn [env]. rewrite Henv. exact Hpre.
  - cbn [env]. rewrite Henv. exact Hcp.
  - exact Hscript.
  - rewrite Hcur2. exact Hwr.
Qed.

Lemma added_rule_is_read_back_witness :
  result_of (AddSecurityListIngressRule "6" (Some 22) None None None None
               (test_vcn managed_env) (start managed_env)) = Ok tt
  /\ result_of (then_run
       (AddSecurityListIngressRule "6" (Some 22) None None None None)
       GetSecurityListFromId (test_vcn managed_env) (start managed_env))
     = Ok (JArr (List.app [] [tcp_rule 22 22])).
Proof.
  apply (added_rule_is_read_back (test_vcn managed_env) (start managed_env)
           "oci" [] (JArr []) [] (tcp_rule 22 22) "6" (Some 22) None None
           None None); reflexivity.
Defined.

(* ================================================================= *)
(** ** The profile a command is sent under *)

Section Profiled.
Variable p : string.

Lemma profiled_quiet {A : Type} (m : M OciVcn A) :
  (forall self w, vcn_profile (self_of (m self w)) = vcn_profile self
                  /\ issued (world_of (m self w)) = issued w) ->
  profiled p m.
Proof.
  intros H self w Hp. destruct (H self w) as [Hs Hi]. split; [congruence |].
  exists []. rewrite Hi, List.app_nil_r. split; constructor.
Qed.

Lemma profiled_ret {A : Type} (a : A) : profiled p (@ret OciVcn A a).
Proof. apply profiled_quiet; split; reflexivity. Qed.

Lemma profiled_raise {A : Type} (x : exn) : profiled p (@raise OciVcn A x).
Proof. apply profiled_quiet; split; reflexivity. Qed.

Lemma profiled_lift {A : Type} (r : Result A) : profiled p (@lift OciVcn A r).
Proof. apply profiled_quiet; split; reflexivity. Qed.

Lemma profiled_logging (r : LogRecord) : profiled p (@logging OciVcn r).
Proof. apply profiled_quiet; split; reflexivity. Qed.

Lemma profiled_loads (out : string) : profiled p (@loads OciVcn out).
Proof.
  apply profiled_quiet; intros; unfold loads.
  destruct (json_loads out); split; reflexivity.
Qed.

Lemma profiled_assert (b : bool) : profiled p (@assert_ OciVcn b).
Proof. apply profiled_quiet; intros; destruct b; split; reflexivity. Qed.

Lemma profiled_list_of (x : json) : profiled p (@list_of OciVcn x).
Proof. apply profiled_quiet; intros; destruct x; split; reflexivity. Qed.

Lemma profiled_modify (g : OciVcn -> OciVcn) :
  (forall v, vcn_profile (g v) = vcn_profile v) -> profiled p (modify g).
Proof. intros H. apply profiled_quiet; split; [apply H | reflexivity]. Qed.

Lemma profiled_issue (cmd : Cmd) :
  under_profile p cmd -> profiled p (@issue OciVcn cmd).
Proof.
  intros H self w Hp. split; [exact Hp |]. exists [cmd].
  split; [reflexivity | repeat constructor; exact H].
Qed.

Lemma profiled_bind {A B : Type} (m : M OciVcn A) (k : A -> M OciVcn B) :
  profiled p m -> (forall a, profiled p (k a)) -> profiled p (bind m k).
Proof.
  intros Hm Hk self w Hp. unfold bind.
  destruct (Hm self w Hp) as [Hp1 [l1 [E1 F1]]].
  destruct (m self w) as [[[a | x] self'] w']; cbn in Hp1, E1.
  - destruct (Hk a self' w' Hp1) as [Hp2 [l2 [E2 F2]]].
    split; [exact Hp2 |].
    exists (List.app l1 l2). rewrite E2, E1, List.app_assoc.
    split; [reflexivity | apply Forall_app; split; assumption].
  - split; [exact Hp1 |]. exists l1. split; assumption.
Qed.

(** [get_self] hands the continuation a stack whose profile is [p]. *)
Lemma profiled_get_self {B : Type} (k : OciVcn -> M OciVcn B) :
  (forall self, vcn_profile self = p -> profiled p (k self)) ->
  profiled p (bind get_self k).
Proof. intros H self w Hp. unfold bind, get_self. apply (H self Hp), Hp. Qed.

Lemma profiled_get_env {B : Type} (k : Env -> M OciVcn B) :
  (forall e, profiled p (k e)) -> profiled p (bind get_env k).
Proof. intros H self w Hp. unfold bind, get_env. apply H, Hp. Qed.

Lemma profiled_if {A : Type} (b : bool) (m1 m2 : M OciVcn A) :
  profiled p m1 -> profiled p m2 -> profiled p (if b then m1 else m2).
Proof. destruct b; auto. Qed.

Lemma profiled_retry_loop {A : Type} (m : M OciVcn A) (fuel : nat) (i d : Z) :
  profiled p m -> profiled p (retry_loop fuel i d m).
Proof.
  intros Hm. induction fuel as [| fuel IH]; intros self w Hp; cbn.
  - destruct (Hm self w Hp) as [Hp1 [l [E F]]].
    destruct (m self w) as [[[a | x] self'] w'];
      (split; [exact Hp1 | exists l; split; assumption]).
  - destruct (Hm self w Hp) as [Hp1 [l [E F]]].
    destruct (m self w) as [[[a | x] self'] w']; cbn in Hp1, E.
    + split; [exact Hp1 | exists l; split; assumption].
    + destruct (clock w' + i >=? d)%Z.
      * split; [exact Hp1 | exists l; split; assumption].
      * destruct (IH self' (sleep i w') Hp1) as [Hp2 [l2 [E2 F2]]].
        cbn in E2. split; [exact Hp2 |].
        exists (List.app l l2). rewrite E2, E, List.app_assoc.
        split; [reflexivity | apply Forall_app; split; assumption].
Qed.

Lemma profiled_Retry {A : Type} (m : M OciVcn A) (i t : Z) :
  profiled p m -> profiled p (Retry i t m).
Proof. intros Hm self w. unfold Retry. apply profiled_retry_loop, Hm. Qed.

Lemma profiled_IssueCommand (cmd : Cmd) (b : bool) :
  under_profile p cmd -> profiled p (@IssueCommand OciVcn cmd b).
Proof.
  intros H. unfold IssueCommand.
  apply profiled_bind; [apply profiled_issue, H | intros r].
  apply profiled_if; [apply profiled_raise | apply profiled_ret].
Qed.

Lemma profiled_IssueRetryableCommand (cmd : Cmd) :
  under_profile p cmd -> profiled p (@IssueRetryableCommand OciVcn cmd).
Proof.
  intros H. unfold IssueRetryableCommand. apply profiled_get_env. intros e.
  apply profiled_Retry, profiled_IssueCommand, H.
Qed.
End Profiled.

Lemma under_profile_intro (pre args : list string) (self : OciVcn)
  (p : string) :
  vcn_profile self = p ->
  In ("--profile " ++ vcn_profile self) args ->
  under_profile p (List.app pre args).
Proof.
  intros Hp H. unfold under_profile. rewrite <- Hp.
  apply in_or_app. right. exact H.
Qed.

Ltac profiled_step :=
  lazymatch goal with
  | |- profiled _ (IssueCommand _ _) =>
      apply profiled_IssueCommand;
      eapply under_profile_intro; [eassumption | in_list]
  | |- profiled _ (IssueRetryableCommand _) =>
      apply profiled_IssueRetryableCommand;
      eapply under_profile_intro; [eassumption | in_list]
  | |- profiled _ (bind get_self _) => apply profiled_get_self; intros ? ?
  | |- profiled _ (bind get_env _) => apply profiled_get_env; intros ?
  | |- profiled _ (bind _ _) => apply profiled_bind; [| intros ?]
  | |- profiled _ (ret _) => apply profiled_ret
  | |- profiled _ (raise _) => apply profiled_raise
  | |- profiled _ (lift _) => apply profiled_lift
  | |- profiled _ (modify _) => apply profiled_modify; intros ?; reflexivity
  | |- profiled _ (logging _) => apply profiled_logging
  | |- profiled _ (loads _) => apply profiled_loads
  | |- profiled _ (assert_ _) => apply profiled_assert
  | |- profiled _ (list_of _) => apply profiled_list_of
  | |- profiled _ (Retry _ _ _) => apply profiled_Retry
  | |- profiled _ (if _ then _ else _) => apply profiled_if
  end.

Ltac profiled_auto := cbv zeta; unfold GetEncodedCmd; repeat profiled_step.

Lemma profiled_wait_body (p resource id_flag : string)
  (the_id : OciVcn -> json) (sl : list string) :
  profiled p (wait_body resource id_flag the_id sl).
Proof. unfold wait_body. profiled_auto. Qed.

Lemma GetVcnIDFromName_sent (self : OciVcn) (w : World) :
  sent GetVcnIDFromName self w = [vcn_list_command (env w) self].
Proof.
  apply sent_one.
  unfold GetVcnIDFromName, IssueCommand, GetEncodedCmd, loads, lift, modify,
    bind, get_self, get_env, logging, issue, ret, raise, vcn_list_command.
  cbn [env clock issued log andb].
  destruct (json_loads _) as [response |]; [| reflexivity].
  destruct (getitem response "data") as [data | e]; [| reflexivity].
  destruct (getitem0 data) as [first | e]; [| reflexivity].
  destruct (getitem first "id"); reflexivity.
Qed.

(** X16: run on a stack whose profile is [p], every method of the stack
    but one leaves the profile as it is and sends only commands that carry
    the word [--profile p], retries included.  The one is
    [GetVcnIDFromName]: the single command it sends names no profile. *)
Theorem commands_name_the_stack_profile (p : string) :
  (forall sl, Forall (fun wait : list string -> M OciVcn unit =>
                        profiled p (wait sl)) all_waits)
  /\ profiled p _Create /\ profiled p _Delete
  /\ profiled p GetSubnetIdFromVCNId
  /\ profiled p CreateSubnet /\ profiled p DeleteSubnet
  /\ profiled p CreateInternetGateway /\ profiled p DeleteInternetGateway
  /\ profiled p UpdateRouteTable /\ profiled p ClearRouteTable
  /\ profiled p GetDefaultRouteTableId /\ profiled p GetDefaultSecurityListId
  /\ profiled p GetSecurityListFromId
  /\ (forall protocol start_port end_port source_range protocol_type
             protocol_code,
        profiled p (AddSecurityListIngressRule protocol start_port end_port
                      source_range protocol_type protocol_code))
  /\ (forall self w,
        exists c, sent GetVcnIDFromName self w = [c]
                  /\ names_no_profile (env w) c).
Proof.
  split.
  { intros sl. unfold all_waits, WaitForVcnStatus, WaitForSubnetStatus,
      WaitForInternetGatewayStatus, WaitForRouteTableStatus,
      WaitForSecurityListStatus.
    repeat apply Forall_cons; try apply Forall_nil;
      first [ apply profiled_Retry, profiled_wait_body
            | apply profiled_wait_body ]. }
  unfold _Create, _Delete, GetSubnetIdFromVCNId, CreateSubnet, DeleteSubnet,
    CreateInternetGateway, DeleteInternetGateway, UpdateRouteTable,
    ClearRouteTable, GetDefaultRouteTableId, GetDefaultSecurityListId,
    AddSecurityListIngressRule, GetSecurityListFromId.
  repeat match goal with |- _ /\ _ => split end;
    try solve [profiled_auto];
    try solve [intros protocol start_port end_port source_range protocol_type
                 protocol_code; profiled_auto].
  intros self w. exists (vcn_list_command (env w) self). split.
  - apply GetVcnIDFromName_sent.
  - exists ["network"; "vcn"; "list"; "--display-name " ++ vcn_name self].
    split; [reflexivity |]. repeat constructor.
Qed.

(* ================================================================= *)
(** ** A retried Create *)

Lemma _Create_issued (v : OciVcn) (w : World) :
  env (world_of (_Create v w)) = env w
  /\ issued (world_of (_Create v w)) =
       List.app (issued w) [vcn_create_command (env w) v].
Proof.
  unfold _Create, IssueCommand, GetEncodedCmd, loads, lift, modify, bind,
    get_self, get_env, logging, issue, ret, raise, vcn_create_command.
  cbn [env clock issued log andb].
  destruct (json_loads _) as [response |]; [| split; reflexivity].
  destruct (getitem response "data") as [data | e]; [| split; reflexivity].
  destruct (getitem data "id"); [| split; reflexivity].
  destruct (getitem data "cidr-block"); split; reflexivity.
Qed.







(* ================================================================= *)
(** ** The name a network is created and searched under *)

Lemma skipn_prefix {X : Type} (pre l : list X) :
  skipn (List.length pre) (List.app pre l) = l.
Proof. rewrite skipn_app, skipn_all, Nat.sub_diag. reflexivity. Qed.

(** X18: [_Create] registers the virtual network under the display name
    [pkb-<run_uri>], whereas [GetVcnIDFromName] searches for the stack's own
    name; for the stack of a network built by [__init__] with no network
    name configured, that is [perfkit-<run_uri>-<12 characters>], and the
    two names differ. *)
Theorem created_and_searched_names_differ (e : Env) (zone : string)
  (v : OciVcn) (w : World) :
  env w = e ->
  truthy_str (oci_network_name e) = false ->
  vcn (OciNetwork_init e zone) = Obj v ->
  exists created searched : string,
    map (display_name e) (sent _Create v w) = [Some created]
    /\ map (display_name e) (sent GetVcnIDFromName v w) = [Some searched]
    /\ created = "pkb-" ++ run_uri e
    /\ searched = "perfkit-" ++ run_uri e ++ "-" ++ last12 (uuid4 e)
    /\ created <> searched.
Proof.
  intros He Hname Hv.
  exists ("pkb-" ++ run_uri e),
         ("perfkit-" ++ run_uri e ++ "-" ++ last12 (uuid4 e)).
  assert (Hn : vcn_name v = "perfkit-" ++ run_uri e ++ "-" ++ last12 (uuid4 e)).
  { unfold OciNetwork_init in Hv. rewrite Hname in Hv.
    destruct (oci_use_vcn e); [| discriminate Hv].
    cbn [vcn] in Hv. injection Hv as <-. reflexivity. }
  repeat split.
  - rewrite (sent_one _ _ _ _ (proj2 (_Create_issued v w))), He.
    unfold display_name, vcn_create_command. cbn [map].
    rewrite skipn_prefix. reflexivity.
  - rewrite GetVcnIDFromName_sent, He.
    unfold display_name, vcn_list_command. cbn [map].
    rewrite skipn_prefix, Hn. reflexivity.
  - discriminate.
Qed.

Lemma created_and_searched_names_differ_witness :
  exists created searched : string,
    map (display_name managed_env)
      (sent _Create (OciVcn_init managed_env
                       "perfkit-4f2a-70867728950e" "zone-1" "zone-1")
         (start managed_env)) = [Some created]
    /\ map (display_name managed_env)
         (sent GetVcnIDFromName
            (OciVcn_init managed_env
               "perfkit-4f2a-70867728950e" "zone-1" "zone-1")
            (start managed_env)) = [Some searched]
    /\ created = "pkb-" ++ run_uri managed_env
    /\ searched = "perfkit-" ++ run_uri managed_env ++ "-"
                  ++ last12 (uuid4 managed_env)
    /\ created <> searched.
Proof.
  apply (created_and_searched_names_differ managed_env "zone-1"
           (OciVcn_init managed_env "perfkit-4f2a-70867728950e" "zone-1"
              "zone-1")
           (start managed_env)); reflexivity.
Defined.
